(** * Telemetrix for the Raspberry Pi Pico 2W: the asyncio serial engine

    A shallow embedding of [TelemetrixRpiPico2WSerialAIO]
    (telemetrix_rpi_pico_2w_serial_aio.py): the pin table, the counters,
    the callback dictionaries, command framing in [_send_command], the
    [shutdown] sequence, the mode-assigning and data methods, and the
    report dispatcher with its handlers.

    Python integers are [Z]; dictionaries are [gmap]; a coroutine is a
    state transformer that either returns or raises and always leaves a
    state behind (mutations made before a [raise] are kept).  [asyncio.sleep]
    is a scheduling point only and is not modelled. *)

From stdpp Require Import gmap strings list fin_maps.
From Stdlib Require Import ZArith Lia.

Local Open Scope Z_scope.

(** ** Exceptions and results *)

(** The exception classes the engine raises or catches.  [RecursionError]
    and [UnboundLocalError] are subclasses of [RuntimeError] and
    [NameError] in Python, and pyserial's [SerialException] is a subclass
    of [OSError]; see [is_RuntimeError] and [is_OSError].  The message of a
    [RuntimeError] is the literal of the source; where the source formats
    a value into it the placeholder is kept as written. *)
Inductive exn : Type :=
| RuntimeError (msg : string)
| RecursionError
| KeyError
| IndexError
| TypeError
| NameError
| UnboundLocalError
| AttributeError
| StructError
| OverflowError
| SerialException
| OSError.

(** [isinstance(e, RuntimeError)] *)
Definition is_RuntimeError (e : exn) : bool :=
  match e with
  | RuntimeError _ | RecursionError => true
  | _ => false
  end.

Definition is_SerialException (e : exn) : bool :=
  match e with SerialException => true | _ => false end.

Definition is_AttributeError (e : exn) : bool :=
  match e with AttributeError => true | _ => false end.

Definition is_KeyError (e : exn) : bool :=
  match e with KeyError => true | _ => false end.

Definition is_TypeError (e : exn) : bool :=
  match e with TypeError => true | _ => false end.

(** [isinstance(e, OSError)] *)
Definition is_OSError (e : exn) : bool :=
  match e with
  | OSError | SerialException => true
  | _ => false
  end.

Inductive result (A : Type) : Type :=
| Ok (a : A)
| Raise (e : exn).
Arguments Ok {A} a.
Arguments Raise {A} e.

(** ** PrivateConstants

    The class lives in telemetrix_rpi_pico_2w_common.private_constants,
    outside the engine's module.  The pin-mode values are the ones the
    docstring of [get_pico_pins] lists. *)

Definition AT_INPUT : Z := 0.
Definition AT_OUTPUT : Z := 1.
Definition AT_PWM_OUTPUT : Z := 2.
Definition AT_INPUT_PULLUP : Z := 3.
Definition AT_INPUT_PULL_DOWN : Z := 4.
Definition AT_ANALOG : Z := 5.
Definition AT_SERVO : Z := 6.
Definition AT_SONAR : Z := 7.
Definition AT_DHT : Z := 8.
Definition AT_I2C : Z := 9.
Definition AT_NEO_PIXEL : Z := 10.
Definition AT_MODE_NOT_SET : Z := 255.

(** Every other constant the engine reads: the development is parametric
    in their values. *)
Record PrivateConstants : Type := {
  (* commands *)
  LOOP_COMMAND : Z;
  SET_PIN_MODE : Z;
  DIGITAL_WRITE : Z;
  ANALOG_WRITE : Z;
  I2C_BEGIN : Z;
  I2C_READ : Z;
  I2C_WRITE : Z;
  SONAR_NEW : Z;
  DHT_NEW : Z;
  STOP_ALL_REPORTS : Z;
  RESET_BOARD : Z;
  INIT_NEOPIXELS : Z;
  (* reports *)
  DEBUG_PRINT : Z;
  DIGITAL_REPORT : Z;
  ANALOG_REPORT : Z;
  CPU_TEMP_REPORT : Z;
  UNIQUE_ID_REPORT : Z;
  FIRMWARE_REPORT : Z;
  SERVO_UNAVAILABLE : Z;
  I2C_READ_REPORT : Z;
  I2C_TOO_FEW_BYTES_RECEIVED : Z;
  I2C_TOO_MANY_BYTES_RECEIVED : Z;
  SONAR_DISTANCE : Z;
  DHT_REPORT : Z;
  SPI_REPORT : Z;
  (* limits and indices *)
  I2C_NO_REGISTER : Z;
  MAX_SONARS : Z;
  MAX_DHTS : Z;
  MAX_PWM_DUTY_CYCLE : Z;
  MIN_SERVO_DUTY_CYCLE : Z;
  MAX_SERVO_DUTY_CYCLE : Z
}.

(** ** The transport *)

(** The calls the engine makes on its port that change what the device
    sees. *)
Inductive PortCall : Type :=
| PWrite (data : list Z)
| PClose.

(** Modelled from the spec: the class [TelemetrixAioSerial] of
    telemtrix_aio_serial.py, which the engine imports, is the missing
    part.  The engine uses it as the byte stream of the specification,
    [read(n) -> bytes], [write(bytes)] and [close()].  A port records
    whether it is open, the bytes the device has sent and the engine has
    not read yet, the frames it accepted, and every [write] and [close]
    call made on it.  What a [write] on a closed port does is the port's
    own business, [port_write_closed]; a transport fault on the receiving
    side (closed stream, I/O error) is [port_read_fault], the exception
    every [read] raises. *)
Record Port : Type := mkPort {
  port_open : bool;
  port_rx : list Z;
  port_tx : list (list Z);
  port_calls : list PortCall;
  port_write_closed : result unit;
  port_read_fault : option exn
}.

Definition port_accept (data : list Z) (p : Port) : Port :=
  mkPort true (port_rx p) (port_tx p ++ [data]) (port_calls p ++ [PWrite data])
    (port_write_closed p) (port_read_fault p).

Definition port_refuse (data : list Z) (p : Port) : Port :=
  mkPort false (port_rx p) (port_tx p) (port_calls p ++ [PWrite data])
    (port_write_closed p) (port_read_fault p).

(** Modelled from the spec: [write(bytes)] of the missing transport class.
    An open port accepts the frame; a closed one answers with its
    [port_write_closed].  The call is recorded either way. *)
Definition port_write (data : list Z) (p : Port) : result unit * Port :=
  if port_open p then (Ok tt, port_accept data p)
  else (port_write_closed p, port_refuse data p).

(** Modelled from the spec: [close()] of the missing transport class. *)
Definition port_close (p : Port) : Port :=
  mkPort false (port_rx p) (port_tx p) (port_calls p ++ [PClose])
    (port_write_closed p) (port_read_fault p).

(** Modelled from the spec: what a completed [read] of [n] bytes leaves
    in the missing transport class. *)
Definition port_consume (n : nat) (p : Port) : Port :=
  mkPort (port_open p) (drop n (port_rx p)) (port_tx p) (port_calls p)
    (port_write_closed p) (port_read_fault p).

(** Modelled from the spec: [read(n)] of the missing transport class, the
    byte stream's [read(n) -> bytes].  It completes once [n] bytes are
    there and takes them off the stream; until then the caller stays
    suspended in it ([None]) and the stream is as it was. *)
Definition port_read (n : nat) (p : Port) : option (list Z * Port) :=
  if Nat.leb n (length (port_rx p))
  then Some (take n (port_rx p), port_consume n p)
  else None.

(** ** Session state *)

(** A callback is known by its identity; calling one appends the message
    it received to [delivered].  Time stamps are left out of the messages,
    and a float-valued item is recorded by the integers it is computed
    from. *)
Definition Callback : Type := nat.

(** The constructor arguments the modelled methods read, and the number
    of nested re-entries of [shutdown] the interpreter's stack allows. *)
Record Config : Type := mkConfig {
  shutdown_on_exception : bool;
  reset_on_shutdown : bool;
  close_loop_on_shutdown : bool;
  recursion_budget : nat
}.

Record State : Type := mkState {
  config : Config;
  pwm_active_count : Z;
  analog_callbacks : gmap Z Callback;
  cpu_temp_callback : option Callback;
  digital_callbacks : gmap Z Callback;
  i2c_callback : option Callback;
  i2c_callback2 : option Callback;
  i2c_0_active : bool;
  i2c_1_active : bool;
  spi_callback : option Callback;
  spi_callback2 : option Callback;
  sonar_callbacks : gmap Z Callback;
  sonar_count : Z;
  dht_callbacks : gmap Z Callback;
  dht_count : Z;
  serial_port : option Port;
  shutdown_flag : bool;
  loop_back_callback : option Callback;
  firmware_version : list Z;
  reported_pico_id : list Z;
  maximum_pwm_duty_cycle : Z;
  pico_pins : gmap Z Z;
  i2c_sda_pins : gmap Z Z;
  i2c_scl_pins : gmap Z Z;
  servo_ranges : gmap Z (list Z);
  number_of_pixels : option Z;
  neopixels_initiated : bool;
  loop_stopped : bool;
  delivered : list (Callback * list Z)
}.

Definition set_pwm_active_count (v : Z) (st : State) : State :=
  mkState (config st) v (analog_callbacks st) (cpu_temp_callback st) (digital_callbacks st)
    (i2c_callback st) (i2c_callback2 st) (i2c_0_active st) (i2c_1_active st) (spi_callback st)
    (spi_callback2 st) (sonar_callbacks st) (sonar_count st) (dht_callbacks st) (dht_count st)
    (serial_port st) (shutdown_flag st) (loop_back_callback st) (firmware_version st)
    (reported_pico_id st) (maximum_pwm_duty_cycle st) (pico_pins st) (i2c_sda_pins st)
    (i2c_scl_pins st) (servo_ranges st) (number_of_pixels st) (neopixels_initiated st)
    (loop_stopped st) (delivered st).

Definition set_analog_callbacks (v : gmap Z Callback) (st : State) : State :=
  mkState (config st) (pwm_active_count st) v (cpu_temp_callback st) (digital_callbacks st)
    (i2c_callback st) (i2c_callback2 st) (i2c_0_active st) (i2c_1_active st) (spi_callback st)
    (spi_callback2 st) (sonar_callbacks st) (sonar_count st) (dht_callbacks st) (dht_count st)
    (serial_port st) (shutdown_flag st) (loop_back_callback st) (firmware_version st)
    (reported_pico_id st) (maximum_pwm_duty_cycle st) (pico_pins st) (i2c_sda_pins st)
    (i2c_scl_pins st) (servo_ranges st) (number_of_pixels st) (neopixels_initiated st)
    (loop_stopped st) (delivered st).

Definition set_digital_callbacks (v : gmap Z Callback) (st : State) : State :=
  mkState (config st) (pwm_active_count st) (analog_callbacks st) (cpu_temp_callback st) v
    (i2c_callback st) (i2c_callback2 st) (i2c_0_active st) (i2c_1_active st) (spi_callback st)
    (spi_callback2 st) (sonar_callbacks st) (sonar_count st) (dht_callbacks st) (dht_count st)
    (serial_port st) (shutdown_flag st) (loop_back_callback st) (firmware_version st)
    (reported_pico_id st) (maximum_pwm_duty_cycle st) (pico_pins st) (i2c_sda_pins st)
    (i2c_scl_pins st) (servo_ranges st) (number_of_pixels st) (neopixels_initiated st)
    (loop_stopped st) (delivered st).

Definition set_i2c_callback (v : option Callback) (st : State) : State :=
  mkState (config st) (pwm_active_count st) (analog_callbacks st) (cpu_temp_callback st)
    (digital_callbacks st) v (i2c_callback2 st) (i2c_0_active st) (i2c_1_active st)
    (spi_callback st) (spi_callback2 st) (sonar_callbacks st) (sonar_count st)
    (dht_callbacks st) (dht_count st) (serial_port st) (shutdown_flag st)
    (loop_back_callback st) (firmware_version st) (reported_pico_id st)
    (maximum_pwm_duty_cycle st) (pico_pins st) (i2c_sda_pins st) (i2c_scl_pins st)
    (servo_ranges st) (number_of_pixels st) (neopixels_initiated st) (loop_stopped st)
    (delivered st).

Definition set_i2c_callback2 (v : option Callback) (st : State) : State :=
  mkState (config st) (pwm_active_count st) (analog_callbacks st) (cpu_temp_callback st)
    (digital_callbacks st) (i2c_callback st) v (i2c_0_active st) (i2c_1_active st)
    (spi_callback st) (spi_callback2 st) (sonar_callbacks st) (sonar_count st)
    (dht_callbacks st) (dht_count st) (serial_port st) (shutdown_flag st)
    (loop_back_callback st) (firmware_version st) (reported_pico_id st)
    (maximum_pwm_duty_cycle st) (pico_pins st) (i2c_sda_pins st) (i2c_scl_pins st)
    (servo_ranges st) (number_of_pixels st) (neopixels_initiated st) (loop_stopped st)
    (delivered st).

Definition set_i2c_0_active (v : bool) (st : State) : State :=
  mkState (config st) (pwm_active_count st) (analog_callbacks st) (cpu_temp_callback st)
    (digital_callbacks st) (i2c_callback st) (i2c_callback2 st) v (i2c_1_active st)
    (spi_callback st) (spi_callback2 st) (sonar_callbacks st) (sonar_count st)
    (dht_callbacks st) (dht_count st) (serial_port st) (shutdown_flag st)
    (loop_back_callback st) (firmware_version st) (reported_pico_id st)
    (maximum_pwm_duty_cycle st) (pico_pins st) (i2c_sda_pins st) (i2c_scl_pins st)
    (servo_ranges st) (number_of_pixels st) (neopixels_initiated st) (loop_stopped st)
    (delivered st).

Definition set_i2c_1_active (v : bool) (st : State) : State :=
  mkState (config st) (pwm_active_count st) (analog_callbacks st) (cpu_temp_callback st)
    (digital_callbacks st) (i2c_callback st) (i2c_callback2 st) (i2c_0_active st) v
    (spi_callback st) (spi_callback2 st) (sonar_callbacks st) (sonar_count st)
    (dht_callbacks st) (dht_count st) (serial_port st) (shutdown_flag st)
    (loop_back_callback st) (firmware_version st) (reported_pico_id st)
    (maximum_pwm_duty_cycle st) (pico_pins st) (i2c_sda_pins st) (i2c_scl_pins st)
    (servo_ranges st) (number_of_pixels st) (neopixels_initiated st) (loop_stopped st)
    (delivered st).

Definition set_sonar_callbacks (v : gmap Z Callback) (st : State) : State :=
  mkState (config st) (pwm_active_count st) (analog_callbacks st) (cpu_temp_callback st)
    (digital_callbacks st) (i2c_callback st) (i2c_callback2 st) (i2c_0_active st)
    (i2c_1_active st) (spi_callback st) (spi_callback2 st) v (sonar_count st) (dht_callbacks st)
    (dht_count st) (serial_port st) (shutdown_flag st) (loop_back_callback st)
    (firmware_version st) (reported_pico_id st) (maximum_pwm_duty_cycle st) (pico_pins st)
    (i2c_sda_pins st) (i2c_scl_pins st) (servo_ranges st) (number_of_pixels st)
    (neopixels_initiated st) (loop_stopped st) (delivered st).

Definition set_sonar_count (v : Z) (st : State) : State :=
  mkState (config st) (pwm_active_count st) (analog_callbacks st) (cpu_temp_callback st)
    (digital_callbacks st) (i2c_callback st) (i2c_callback2 st) (i2c_0_active st)
    (i2c_1_active st) (spi_callback st) (spi_callback2 st) (sonar_callbacks st) v
    (dht_callbacks st) (dht_count st) (serial_port st) (shutdown_flag st)
    (loop_back_callback st) (firmware_version st) (reported_pico_id st)
    (maximum_pwm_duty_cycle st) (pico_pins st) (i2c_sda_pins st) (i2c_scl_pins st)
    (servo_ranges st) (number_of_pixels st) (neopixels_initiated st) (loop_stopped st)
    (delivered st).

Definition set_dht_callbacks (v : gmap Z Callback) (st : State) : State :=
  mkState (config st) (pwm_active_count st) (analog_callbacks st) (cpu_temp_callback st)
    (digital_callbacks st) (i2c_callback st) (i2c_callback2 st) (i2c_0_active st)
    (i2c_1_active st) (spi_callback st) (spi_callback2 st) (sonar_callbacks st) (sonar_count st)
    v (dht_count st) (serial_port st) (shutdown_flag st) (loop_back_callback st)
    (firmware_version st) (reported_pico_id st) (maximum_pwm_duty_cycle st) (pico_pins st)
    (i2c_sda_pins st) (i2c_scl_pins st) (servo_ranges st) (number_of_pixels st)
    (neopixels_initiated st) (loop_stopped st) (delivered st).

Definition set_dht_count (v : Z) (st : State) : State :=
  mkState (config st) (pwm_active_count st) (analog_callbacks st) (cpu_temp_callback st)
    (digital_callbacks st) (i2c_callback st) (i2c_callback2 st) (i2c_0_active st)
    (i2c_1_active st) (spi_callback st) (spi_callback2 st) (sonar_callbacks st) (sonar_count st)
    (dht_callbacks st) v (serial_port st) (shutdown_flag st) (loop_back_callback st)
    (firmware_version st) (reported_pico_id st) (maximum_pwm_duty_cycle st) (pico_pins st)
    (i2c_sda_pins st) (i2c_scl_pins st) (servo_ranges st) (number_of_pixels st)
    (neopixels_initiated st) (loop_stopped st) (delivered st).

Definition set_serial_port (v : option Port) (st : State) : State :=
  mkState (config st) (pwm_active_count st) (analog_callbacks st) (cpu_temp_callback st)
    (digital_callbacks st) (i2c_callback st) (i2c_callback2 st) (i2c_0_active st)
    (i2c_1_active st) (spi_callback st) (spi_callback2 st) (sonar_callbacks st) (sonar_count st)
    (dht_callbacks st) (dht_count st) v (shutdown_flag st) (loop_back_callback st)
    (firmware_version st) (reported_pico_id st) (maximum_pwm_duty_cycle st) (pico_pins st)
    (i2c_sda_pins st) (i2c_scl_pins st) (servo_ranges st) (number_of_pixels st)
    (neopixels_initiated st) (loop_stopped st) (delivered st).

Definition set_shutdown_flag (v : bool) (st : State) : State :=
  mkState (config st) (pwm_active_count st) (analog_callbacks st) (cpu_temp_callback st)
    (digital_callbacks st) (i2c_callback st) (i2c_callback2 st) (i2c_0_active st)
    (i2c_1_active st) (spi_callback st) (spi_callback2 st) (sonar_callbacks st) (sonar_count st)
    (dht_callbacks st) (dht_count st) (serial_port st) v (loop_back_callback st)
    (firmware_version st) (reported_pico_id st) (maximum_pwm_duty_cycle st) (pico_pins st)
    (i2c_sda_pins st) (i2c_scl_pins st) (servo_ranges st) (number_of_pixels st)
    (neopixels_initiated st) (loop_stopped st) (delivered st).

Definition set_firmware_version (v : list Z) (st : State) : State :=
  mkState (config st) (pwm_active_count st) (analog_callbacks st) (cpu_temp_callback st)
    (digital_callbacks st) (i2c_callback st) (i2c_callback2 st) (i2c_0_active st)
    (i2c_1_active st) (spi_callback st) (spi_callback2 st) (sonar_callbacks st) (sonar_count st)
    (dht_callbacks st) (dht_count st) (serial_port st) (shutdown_flag st)
    (loop_back_callback st) v (reported_pico_id st) (maximum_pwm_duty_cycle st) (pico_pins st)
    (i2c_sda_pins st) (i2c_scl_pins st) (servo_ranges st) (number_of_pixels st)
    (neopixels_initiated st) (loop_stopped st) (delivered st).

Definition set_reported_pico_id (v : list Z) (st : State) : State :=
  mkState (config st) (pwm_active_count st) (analog_callbacks st) (cpu_temp_callback st)
    (digital_callbacks st) (i2c_callback st) (i2c_callback2 st) (i2c_0_active st)
    (i2c_1_active st) (spi_callback st) (spi_callback2 st) (sonar_callbacks st) (sonar_count st)
    (dht_callbacks st) (dht_count st) (serial_port st) (shutdown_flag st)
    (loop_back_callback st) (firmware_version st) v (maximum_pwm_duty_cycle st) (pico_pins st)
    (i2c_sda_pins st) (i2c_scl_pins st) (servo_ranges st) (number_of_pixels st)
    (neopixels_initiated st) (loop_stopped st) (delivered st).

Definition set_pico_pins (v : gmap Z Z) (st : State) : State :=
  mkState (config st) (pwm_active_count st) (analog_callbacks st) (cpu_temp_callback st)
    (digital_callbacks st) (i2c_callback st) (i2c_callback2 st) (i2c_0_active st)
    (i2c_1_active st) (spi_callback st) (spi_callback2 st) (sonar_callbacks st) (sonar_count st)
    (dht_callbacks st) (dht_count st) (serial_port st) (shutdown_flag st)
    (loop_back_callback st) (firmware_version st) (reported_pico_id st)
    (maximum_pwm_duty_cycle st) v (i2c_sda_pins st) (i2c_scl_pins st) (servo_ranges st)
    (number_of_pixels st) (neopixels_initiated st) (loop_stopped st) (delivered st).

Definition set_i2c_sda_pins (v : gmap Z Z) (st : State) : State :=
  mkState (config st) (pwm_active_count st) (analog_callbacks st) (cpu_temp_callback st)
    (digital_callbacks st) (i2c_callback st) (i2c_callback2 st) (i2c_0_active st)
    (i2c_1_active st) (spi_callback st) (spi_callback2 st) (sonar_callbacks st) (sonar_count st)
    (dht_callbacks st) (dht_count st) (serial_port st) (shutdown_flag st)
    (loop_back_callback st) (firmware_version st) (reported_pico_id st)
    (maximum_pwm_duty_cycle st) (pico_pins st) v (i2c_scl_pins st) (servo_ranges st)
    (number_of_pixels st) (neopixels_initiated st) (loop_stopped st) (delivered st).

Definition set_i2c_scl_pins (v : gmap Z Z) (st : State) : State :=
  mkState (config st) (pwm_active_count st) (analog_callbacks st) (cpu_temp_callback st)
    (digital_callbacks st) (i2c_callback st) (i2c_callback2 st) (i2c_0_active st)
    (i2c_1_active st) (spi_callback st) (spi_callback2 st) (sonar_callbacks st) (sonar_count st)
    (dht_callbacks st) (dht_count st) (serial_port st) (shutdown_flag st)
    (loop_back_callback st) (firmware_version st) (reported_pico_id st)
    (maximum_pwm_duty_cycle st) (pico_pins st) (i2c_sda_pins st) v (servo_ranges st)
    (number_of_pixels st) (neopixels_initiated st) (loop_stopped st) (delivered st).

Definition set_servo_ranges (v : gmap Z (list Z)) (st : State) : State :=
  mkState (config st) (pwm_active_count st) (analog_callbacks st) (cpu_temp_callback st)
    (digital_callbacks st) (i2c_callback st) (i2c_callback2 st) (i2c_0_active st)
    (i2c_1_active st) (spi_callback st) (spi_callback2 st) (sonar_callbacks st) (sonar_count st)
    (dht_callbacks st) (dht_count st) (serial_port st) (shutdown_flag st)
    (loop_back_callback st) (firmware_version st) (reported_pico_id st)
    (maximum_pwm_duty_cycle st) (pico_pins st) (i2c_sda_pins st) (i2c_scl_pins st) v
    (number_of_pixels st) (neopixels_initiated st) (loop_stopped st) (delivered st).

Definition set_number_of_pixels (v : option Z) (st : State) : State :=
  mkState (config st) (pwm_active_count st) (analog_callbacks st) (cpu_temp_callback st)
    (digital_callbacks st) (i2c_callback st) (i2c_callback2 st) (i2c_0_active st)
    (i2c_1_active st) (spi_callback st) (spi_callback2 st) (sonar_callbacks st) (sonar_count st)
    (dht_callbacks st) (dht_count st) (serial_port st) (shutdown_flag st)
    (loop_back_callback st) (firmware_version st) (reported_pico_id st)
    (maximum_pwm_duty_cycle st) (pico_pins st) (i2c_sda_pins st) (i2c_scl_pins st)
    (servo_ranges st) v (neopixels_initiated st) (loop_stopped st) (delivered st).

Definition set_neopixels_initiated (v : bool) (st : State) : State :=
  mkState (config st) (pwm_active_count st) (analog_callbacks st) (cpu_temp_callback st)
    (digital_callbacks st) (i2c_callback st) (i2c_callback2 st) (i2c_0_active st)
    (i2c_1_active st) (spi_callback st) (spi_callback2 st) (sonar_callbacks st) (sonar_count st)
    (dht_callbacks st) (dht_count st) (serial_port st) (shutdown_flag st)
    (loop_back_callback st) (firmware_version st) (reported_pico_id st)
    (maximum_pwm_duty_cycle st) (pico_pins st) (i2c_sda_pins st) (i2c_scl_pins st)
    (servo_ranges st) (number_of_pixels st) v (loop_stopped st) (delivered st).

Definition set_loop_stopped (v : bool) (st : State) : State :=
  mkState (config st) (pwm_active_count st) (analog_callbacks st) (cpu_temp_callback st)
    (digital_callbacks st) (i2c_callback st) (i2c_callback2 st) (i2c_0_active st)
    (i2c_1_active st) (spi_callback st) (spi_callback2 st) (sonar_callbacks st) (sonar_count st)
    (dht_callbacks st) (dht_count st) (serial_port st) (shutdown_flag st)
    (loop_back_callback st) (firmware_version st) (reported_pico_id st)
    (maximum_pwm_duty_cycle st) (pico_pins st) (i2c_sda_pins st) (i2c_scl_pins st)
    (servo_ranges st) (number_of_pixels st) (neopixels_initiated st) v (delivered st).

Definition set_delivered (v : list (Callback * list Z)) (st : State) : State :=
  mkState (config st) (pwm_active_count st) (analog_callbacks st) (cpu_temp_callback st)
    (digital_callbacks st) (i2c_callback st) (i2c_callback2 st) (i2c_0_active st)
    (i2c_1_active st) (spi_callback st) (spi_callback2 st) (sonar_callbacks st) (sonar_count st)
    (dht_callbacks st) (dht_count st) (serial_port st) (shutdown_flag st)
    (loop_back_callback st) (firmware_version st) (reported_pico_id st)
    (maximum_pwm_duty_cycle st) (pico_pins st) (i2c_sda_pins st) (i2c_scl_pins st)
    (servo_ranges st) (number_of_pixels st) (neopixels_initiated st) (loop_stopped st) v.

(** ** Coroutines as state transformers *)

Definition M (A : Type) : Type := State -> result A * State.

Definition ret {A} (a : A) : M A := fun st => (Ok a, st).

Definition raise {A} (e : exn) : M A := fun st => (Raise e, st).

Definition bind {A B} (m : M A) (k : A -> M B) : M B :=
  fun st =>
    match m st with
    | (Ok a, st') => k a st'
    | (Raise e, st') => (Raise e, st')
    end.

Definition get {A} (f : State -> A) : M A := fun st => (Ok (f st), st).

Definition modify (f : State -> State) : M unit := fun st => (Ok tt, f st).

(** [try: m except <classes accepted by catches>: handler] *)
Definition try_except {A} (m : M A) (catches : exn -> bool) (handler : M A) : M A :=
  fun st =>
    match m st with
    | (Ok a, st') => (Ok a, st')
    | (Raise e, st') => if catches e then handler st' else (Raise e, st')
    end.

Declare Scope py_scope.
Delimit Scope py_scope with py.
Notation "x <- m ;; k" := (bind m (fun x => k))
  (at level 100, m at next level, right associativity) : py_scope.
Notation "m ;; k" := (bind m (fun _ => k))
  (at level 100, right associativity) : py_scope.
Local Open Scope py_scope.

Definition when (b : bool) (m : M unit) : M unit := if b then m else ret tt.

(** [d[k]] for a dictionary: [KeyError] on a missing key. *)
Definition dict_get {V} (d : State -> gmap Z V) (k : Z) : M V :=
  fun st => match d st !! k with
            | Some v => (Ok v, st)
            | None => (Raise KeyError, st)
            end.

(** [l[i]] for a list, negative indices counting from the end. *)
Definition py_index (l : list Z) (i : Z) : option Z :=
  if 0 <=? i then l !! Z.to_nat i
  else if 0 <=? Z.of_nat (length l) + i then l !! Z.to_nat (Z.of_nat (length l) + i)
  else None.

Definition list_get (l : list Z) (i : Z) : M Z :=
  match py_index l i with
  | Some v => ret v
  | None => raise IndexError
  end.

(** [bytes(l)]: every item must be in [range(256)], else [ValueError]. *)
Definition is_byte (z : Z) : bool := (0 <=? z) && (z <=? 255).

Definition bytes (l : list Z) : option (list Z) :=
  if forallb is_byte l then Some l else None.

(** [await cb(message)] for [cb] a registered callback or [None]. *)
Definition call_callback (cb : option Callback) (message : list Z) : M unit :=
  match cb with
  | Some c => modify (fun st => set_delivered (delivered st ++ [(c, message)]) st)
  | None => raise TypeError
  end.

(** ** The engine *)

Section Engine.

Variable pc : PrivateConstants.

(** [int(value / 180 * servo_range)] of [servo_write] is floating-point
    arithmetic, which is not modelled: the expression is a parameter that
    returns the integer or raises what the arithmetic raises. *)
Variable servo_scale : Z -> Z -> result Z.

(** *** [__init__] *)

(** [range(start, stop, step)] for a positive [step]. *)
Definition py_range (start stop step : Z) : list Z :=
  (fun i => start + step * Z.of_nat i)
    <$> seq 0 (Z.to_nat ((stop - start + step - 1) / step)).

(** [{key: value for key in keys}] *)
Definition dict_of_keys {V} (keys : list Z) (value : V) : gmap Z V :=
  list_to_map ((fun key => (key, value)) <$> keys).

(** The session [__init__] builds, before [start_aio] attaches a port.
    GPIO 23, 24 and 25 are left out of [pico_pins] by the first
    comprehension and the loop over [range(25, 29)] puts 25 back in. *)
Definition init (cfg : Config) : State :=
  {| config := cfg;
     pwm_active_count := 0;
     analog_callbacks := ∅;
     cpu_temp_callback := None;
     digital_callbacks := ∅;
     i2c_callback := None;
     i2c_callback2 := None;
     i2c_0_active := false;
     i2c_1_active := false;
     spi_callback := None;
     spi_callback2 := None;
     sonar_callbacks := ∅;
     sonar_count := 0;
     dht_callbacks := ∅;
     dht_count := 0;
     serial_port := None;
     shutdown_flag := false;
     loop_back_callback := None;
     firmware_version := [];
     reported_pico_id := [];
     maximum_pwm_duty_cycle := MAX_PWM_DUTY_CYCLE pc;
     pico_pins :=
       <[64 := AT_MODE_NOT_SET]>
         (dict_of_keys (py_range 0 23 1 ++ py_range 25 29 1) AT_MODE_NOT_SET);
     i2c_sda_pins := <[26 := 255]> (dict_of_keys (py_range 2 21 2) 255);
     i2c_scl_pins := <[27 := 255]> (dict_of_keys (py_range 3 22 2) 255);
     servo_ranges :=
       dict_of_keys (py_range 0 23 1 ++ py_range 25 29 1) [1000; 2000];
     number_of_pixels := None;
     neopixels_initiated := false;
     loop_stopped := false;
     delivered := [] |}.

(** *** Framing: [_send_command] *)

(** [command.insert(0, len(command))] followed by [bytes(command)];
    [None] when [bytes] raises [ValueError]. *)
Definition frame (command : list Z) : option (list Z) :=
  bytes (Z.of_nat (length command) :: command).

Definition serial_write (data : list Z) : M unit :=
  fun st =>
    match serial_port st with
    | None => (Raise AttributeError, st)
    | Some p =>
        let '(r, p') := port_write data p in (r, set_serial_port (Some p') st)
    end.

Definition serial_close : M unit :=
  fun st =>
    match serial_port st with
    | None => (Raise AttributeError, st)
    | Some p => (Ok tt, set_serial_port (Some (port_close p)) st)
    end.

(** [if self.shutdown_on_exception: await self.shutdown()] *)
Definition shutdown_if_configured (shutdown : M unit) : M unit :=
  soe <- get (fun st => shutdown_on_exception (config st)) ;;
  when soe shutdown.

(** [_send_command], with the [shutdown] coroutine it may await as an
    argument.  When [bytes] raises [ValueError] the handler only prints,
    [send_message] stays unbound and evaluating it for the [write] call
    raises [UnboundLocalError], which [except AttributeError] lets
    through. *)
Definition _send_command_with (shutdown : M unit) (command : list Z) : M unit :=
  let send_message := frame command in
  port <- get serial_port ;;
  match port with
  | None =>
      shutdown_if_configured shutdown ;;
      raise (RuntimeError "Is your USB cable plugged in?")
  | Some _ =>
      match send_message with
      | None => raise UnboundLocalError
      | Some message =>
          try_except (serial_write message) is_AttributeError
            (shutdown_if_configured shutdown ;;
             raise (RuntimeError "Is your USB cable plugged in?"))
      end
  end.

(** *** [shutdown] *)

(** The body of [shutdown]; [nested] is the [shutdown] that the
    [_send_command] calls inside it re-enter. *)
Definition shutdown_body (nested : M unit) : M unit :=
  modify (set_shutdown_flag true) ;;
  try_except
    (_send_command_with nested [STOP_ALL_REPORTS pc] ;;
     ros <- get (fun st => reset_on_shutdown (config st)) ;;
     when ros (_send_command_with nested [RESET_BOARD pc]) ;;
     serial_close ;;
     cl <- get (fun st => close_loop_on_shutdown (config st)) ;;
     when cl (modify (set_loop_stopped true)))
    (fun e => is_RuntimeError e || is_SerialException e)
    (ret tt).

(** [shutdown] and [_send_command] call each other; each re-entry takes
    one unit of the interpreter's stack and the call that finds none left
    raises [RecursionError]. *)
Fixpoint shutdown_at (budget : nat) : M unit :=
  shutdown_body
    match budget with
    | O => raise RecursionError
    | S b => shutdown_at b
    end.

Definition shutdown : M unit :=
  fun st => shutdown_at (recursion_budget (config st)) st.

Definition _send_command (command : list Z) : M unit :=
  _send_command_with shutdown command.

(** The pattern the methods end a failed test with:
    [if self.shutdown_on_exception: await self.shutdown()] and then
    [raise RuntimeError(msg)]. *)
Definition fail_with (msg : string) : M unit :=
  shutdown_if_configured shutdown ;;
  raise (RuntimeError msg).

(** *** Mode-assigning methods *)

Definition set_pin (pin mode : Z) : M unit :=
  modify (fun st => set_pico_pins (<[pin := mode]> (pico_pins st)) st).

Definition _set_pin_mode (pin_number pin_state differential value_range : Z)
    (callback : option Callback) : M unit :=
  (* Map ADC to GPIO pin numbers *)
  (if pin_state =? AT_ANALOG then set_pin (26 + pin_number) AT_ANALOG
   else
     pins <- get pico_pins ;;
     match pins !! pin_number with
     | Some _ => set_pin pin_number pin_state
     | None => fail_with "Gpio Pin Number is invalid"
     end) ;;
  match callback with
  | Some cb =>
      if (pin_state =? AT_INPUT) || (pin_state =? AT_INPUT_PULLUP)
         || (pin_state =? AT_INPUT_PULL_DOWN)
      then modify (fun st =>
             set_digital_callbacks (<[pin_number := cb]> (digital_callbacks st)) st)
      else if pin_state =? AT_ANALOG
      then modify (fun st =>
             set_analog_callbacks (<[pin_number := cb]> (analog_callbacks st)) st)
      else ret tt
  | None => ret tt
  end ;;
  command <-
    (if pin_state =? AT_INPUT
     then ret [SET_PIN_MODE pc; pin_number; AT_INPUT; 1]
     else if pin_state =? AT_INPUT_PULLUP
     then ret [SET_PIN_MODE pc; pin_number; AT_INPUT_PULLUP; 1]
     else if pin_state =? AT_INPUT_PULL_DOWN
     then ret [SET_PIN_MODE pc; pin_number; AT_INPUT_PULL_DOWN; 1]
     else if pin_state =? AT_OUTPUT
     then ret [SET_PIN_MODE pc; pin_number; AT_OUTPUT]
     else if pin_state =? AT_ANALOG
     then ret [SET_PIN_MODE pc; pin_number; AT_ANALOG;
               Z.shiftr differential 8; Z.land differential 255; 1]
     else if pin_state =? AT_PWM_OUTPUT
     then ret [SET_PIN_MODE pc; pin_number; AT_PWM_OUTPUT]
     else if pin_state =? AT_SERVO
     then
       (* we reuse the PWM_OUTPUT command *)
       modify (fun st =>
         set_servo_ranges
           (<[pin_number := [differential; value_range]]> (servo_ranges st)) st) ;;
       ret [SET_PIN_MODE pc; pin_number; AT_PWM_OUTPUT]
     else
       fail_with "Unknown pin state" ;; ret []) ;;
  (if pin_state =? AT_ANALOG
   then
     if pin_number =? 0 then set_pin 26 AT_ANALOG
     else if pin_number =? 1 then set_pin 27 AT_ANALOG
     else if pin_number =? 13 then set_pin 28 AT_ANALOG
     else ret tt
   else set_pin pin_number pin_state) ;;
  match command with
  | [] => ret tt
  | _ => _send_command command
  end.

Definition set_pin_mode_analog_input (adc_number differential : Z)
    (callback : option Callback) : M unit :=
  (* make sure adc number is in range *)
  (if (0 <=? adc_number) && (adc_number <? 5) then ret tt
   else fail_with "Invalid ADC Number") ;;
  _set_pin_mode adc_number AT_ANALOG differential 0 callback.

Definition set_pin_mode_digital_input (pin_number : Z)
    (callback : option Callback) : M unit :=
  _set_pin_mode pin_number AT_INPUT 0 0 callback.

Definition set_pin_mode_digital_input_pullup (pin_number : Z)
    (callback : option Callback) : M unit :=
  _set_pin_mode pin_number AT_INPUT_PULLUP 0 0 callback.

Definition set_pin_mode_digital_input_pull_down (pin_number : Z)
    (callback : option Callback) : M unit :=
  _set_pin_mode pin_number AT_INPUT_PULL_DOWN 0 0 callback.

Definition set_pin_mode_digital_output (pin_number : Z) : M unit :=
  _set_pin_mode pin_number AT_OUTPUT 0 0 None.

(** [for color in [r, g, b]: if not 0 <= color <= 255: ...] *)
Fixpoint check_colors (colors : list Z) : M unit :=
  match colors with
  | [] => ret tt
  | color :: rest =>
      (if (0 <=? color) && (color <=? 255) then ret tt
       else fail_with "RGB values must be in the range of 0-255") ;;
      check_colors rest
  end.

Definition set_pin_mode_neopixel (pin_number num_pixels fill_r fill_g fill_b : Z)
    : M unit :=
  check_colors [fill_r; fill_g; fill_b] ;;
  modify (set_number_of_pixels (Some num_pixels)) ;;
  _send_command [INIT_NEOPIXELS pc; pin_number; num_pixels; fill_r; fill_g; fill_b] ;;
  set_pin pin_number AT_NEO_PIXEL ;;
  modify (set_neopixels_initiated true).

(** In the [else] branch the name [pixel_number] is bound nowhere, so the
    test that guards the [shutdown] raises [NameError] and the
    [RuntimeError] below it is never reached. *)
Definition set_pin_mode_pwm_output (pin_number : Z) : M unit :=
  pins <- get pico_pins ;;
  match pins !! pin_number with
  | Some _ =>
      set_pin pin_number AT_PWM_OUTPUT ;;
      count <- get pwm_active_count ;;
      (if 15 <=? count
       then fail_with
              "pwm or servo set mode: number of active PWM pins is at maximum"
       else ret tt) ;;
      modify (fun st => set_pwm_active_count (pwm_active_count st + 1) st) ;;
      _set_pin_mode pin_number AT_PWM_OUTPUT 0 0 None
  | None => raise NameError
  end.

Definition set_pin_mode_i2c (i2c_port sda_gpio scl_gpio : Z) : M unit :=
  (* determine if the i2c port is specified correctly *)
  (if (i2c_port =? 0) || (i2c_port =? 1) then ret tt
   else fail_with "i2c port must be either a 0 or 1") ;;
  (* determine if the sda and scl gpio's are valid *)
  sda <- get i2c_sda_pins ;;
  (if bool_decide (is_Some (sda !! sda_gpio)) then ret tt
   else fail_with "GPIO {sda_gpio} is an invalid i2c SDA GPIO") ;;
  scl <- get i2c_scl_pins ;;
  (if bool_decide (is_Some (scl !! scl_gpio)) then ret tt
   else fail_with "GPIO {scl_gpio} is an invalid i2c SCL GPIO") ;;
  (* are both GPIOs available? *)
  sda_owner <- dict_get i2c_sda_pins sda_gpio ;;
  (if sda_owner =? 255 then ret tt
   else fail_with "GPIO SDA pin {sda_gpio} is already in use.") ;;
  scl_owner <- dict_get i2c_scl_pins scl_gpio ;;
  (if scl_owner =? 255 then ret tt
   else fail_with "GPIO SCL pin {scl_gpio} is already in use.") ;;
  (* both pins available - mark the sda and scl dictionaries appropriately *)
  modify (fun st => set_i2c_sda_pins (<[sda_gpio := i2c_port]> (i2c_sda_pins st)) st) ;;
  modify (fun st => set_i2c_scl_pins (<[scl_gpio := i2c_port]> (i2c_scl_pins st)) st) ;;
  (* now mark the pico_pins dictionary for these pins *)
  set_pin sda_gpio AT_I2C ;;
  set_pin scl_gpio AT_I2C ;;
  (if i2c_port =? 0 then modify (set_i2c_0_active true)
   else modify (set_i2c_1_active true)) ;;
  _send_command [I2C_BEGIN pc; i2c_port; sda_gpio; scl_gpio].

Definition set_pin_mode_dht (pin : Z) (callback : option Callback) : M unit :=
  match callback with
  | None => fail_with "set_pin_mode_dht: A Callback must be specified"
  | Some cb =>
      count <- get dht_count ;;
      if count <? MAX_DHTS pc
      then
        modify (fun st => set_dht_callbacks (<[pin := cb]> (dht_callbacks st)) st) ;;
        modify (fun st => set_dht_count (dht_count st + 1) st) ;;
        set_pin pin AT_DHT ;;
        _send_command [DHT_NEW pc; pin]
      else
        fail_with
          "Maximum Number Of DHTs Exceeded - set_pin_mode_dht fails for pin {pin}"
  end.

Definition set_pin_mode_servo (pin_number min_pulse max_pulse : Z) : M unit :=
  _set_pin_mode pin_number AT_SERVO min_pulse max_pulse None ;;
  set_pin pin_number AT_SERVO.

Definition set_pin_mode_sonar (trigger_pin echo_pin : Z)
    (callback : option Callback) : M unit :=
  match callback with
  | None => fail_with "set_pin_mode_sonar: A Callback must be specified"
  | Some cb =>
      count <- get sonar_count ;;
      if count <? MAX_SONARS pc
      then
        modify (fun st =>
          set_sonar_callbacks (<[trigger_pin := cb]> (sonar_callbacks st)) st) ;;
        modify (fun st => set_sonar_count (sonar_count st + 1) st) ;;
        set_pin trigger_pin AT_SONAR ;;
        set_pin echo_pin AT_SONAR ;;
        _send_command [SONAR_NEW pc; trigger_pin; echo_pin]
      else fail_with "Maximum number of supported sonar devices exceeded."
  end.

(** *** Data methods *)

Definition digital_write (pin value : Z) : M unit :=
  mode <- dict_get pico_pins pin ;;
  (if mode =? AT_OUTPUT then ret tt
   else fail_with
     "digital_write: You must set the pin mode before performing a digital write.") ;;
  _send_command [DIGITAL_WRITE pc; pin; value].

(** [duty_cycle.to_bytes(2, byteorder='big')] *)
Definition to_bytes_2_big (n : Z) : M (list Z) :=
  if (0 <=? n) && (n <? 65536)
  then ret [Z.shiftr n 8; Z.land n 255]
  else raise OverflowError.

Definition pwm_write (pin duty_cycle : Z) : M unit :=
  mode <- dict_get pico_pins pin ;;
  (if negb (mode =? AT_PWM_OUTPUT) && negb (mode =? AT_SERVO)
   then fail_with "pwm_write: You must set the pin mode before performing an pwm write."
   else ret tt) ;;
  maximum <- get maximum_pwm_duty_cycle ;;
  (if (0 <=? duty_cycle) && (duty_cycle <=? maximum) then ret tt
   else fail_with "Raw PWM duty cycle out of range") ;;
  value <- to_bytes_2_big duty_cycle ;;
  value0 <- list_get value 0 ;;
  value1 <- list_get value 1 ;;
  _send_command [ANALOG_WRITE pc; pin; value0; value1].

(** Binding the positional arguments of a call to
    [pwm_write(self, pin, duty_cycle=0)]: more than two is a [TypeError]
    raised by the call, before the body runs. *)
Definition call_pwm_write (args : list Z) : M unit :=
  match args with
  | [pin] => pwm_write pin 0
  | [pin; duty_cycle] => pwm_write pin duty_cycle
  | _ => raise TypeError
  end.

Definition servo_write (pin_number value : Z) : M unit :=
  mode <- dict_get pico_pins pin_number ;;
  (if mode =? AT_SERVO then ret tt
   else fail_with
     "You must call set_pin_mode_servo before trying to write a value to a servo or servo was detached.") ;;
  (* get the min and max for the servo and calculate the duty-cycle *)
  range_min <- dict_get servo_ranges pin_number ;;
  min_duty <- list_get range_min (MIN_SERVO_DUTY_CYCLE pc) ;;
  range_max <- dict_get servo_ranges pin_number ;;
  max_duty <- list_get range_max (MAX_SERVO_DUTY_CYCLE pc) ;;
  let servo_range := max_duty - min_duty in
  match servo_scale value servo_range with
  | Raise e => raise e
  | Ok scaled =>
      let duty_cycle := scaled + min_duty in
      (* use a raw pwm write from the calculated values *)
      call_pwm_write [pin_number; duty_cycle; 1]
  end.

Definition i2c_read (address : Z) (register : option Z) (number_of_bytes : Z)
    (callback : option Callback) (i2c_port : Z) (no_stop : bool) : M unit :=
  match callback with
  | None => fail_with "I2C Read: A callback function must be specified."
  | Some _ => ret tt
  end ;;
  (if i2c_port =? 0
   then
     active <- get i2c_0_active ;;
     if active then modify (set_i2c_callback callback)
     else fail_with "I2C Write: set_pin_mode_i2c never called for i2c port 0."
   else
     if negb (i2c_port =? 1)
     then
       active <- get i2c_0_active ;;
       if active then modify (set_i2c_callback2 callback)
       else fail_with "I2C Write: set_pin_mode_i2c never called for i2c port 1."
     else ret tt) ;;
  let register_byte :=
    match register with
    | Some r => if r =? 0 then I2C_NO_REGISTER pc else r
    | None => I2C_NO_REGISTER pc
    end in
  _send_command [I2C_READ pc; i2c_port; address; register_byte;
                 number_of_bytes; Z.b2z no_stop].

Definition i2c_write (address : Z) (args : list Z) (i2c_port : Z)
    (no_stop : bool) : M unit :=
  (if i2c_port =? 0
   then
     active <- get i2c_0_active ;;
     if active then ret tt
     else fail_with "I2C Write: set_pin_mode i2c never called for i2c port 0."
   else
     active <- get i2c_1_active ;;
     if active then ret tt
     else fail_with "I2C Write: set_pin_mode i2c never called for i2c port 2.") ;;
  _send_command
    ([I2C_WRITE pc; i2c_port; address; Z.of_nat (length args); Z.b2z no_stop]
       ++ args).

(** *** Report handlers *)

Definition _cpu_temp_message (data : list Z) : M unit :=
  (* struct.unpack('<f', bytes(data)) wants exactly four bytes *)
  (if Nat.eqb (length data) 4 then ret tt else raise StructError) ;;
  cb <- get cpu_temp_callback ;;
  match cb with
  | Some _ => call_callback cb (CPU_TEMP_REPORT pc :: data)
  | None => ret tt
  end.

Definition _analog_message (data : list Z) : M unit :=
  pin <- list_get data 0 ;;
  hi <- list_get data 1 ;;
  lo <- list_get data 2 ;;
  let value := Z.shiftl hi 8 + lo in
  _ <- dict_get analog_callbacks pin ;;
  cb <- dict_get analog_callbacks pin ;;
  call_callback (Some cb) [ANALOG_REPORT pc; pin; value].

(** In the error branch the callback is called but not awaited: the
    coroutine it returns never runs, so nothing is delivered. *)
Definition _dht_report (report : list Z) : M unit :=
  kind <- list_get report 0 ;;
  if negb (kind =? 0)
  then
    pin <- list_get report 1 ;;
    _ <- dict_get dht_callbacks pin ;;
    _ <- dict_get dht_callbacks pin ;;
    ret tt
  else
    h_int <- list_get report 4 ;;
    h_frac <- list_get report 5 ;;
    h_neg <- list_get report 2 ;;
    t_int <- list_get report 6 ;;
    t_frac <- list_get report 7 ;;
    t_neg <- list_get report 3 ;;
    pin <- list_get report 1 ;;
    try_except
      (cb <- dict_get dht_callbacks pin ;;
       call_callback (Some cb)
         [DHT_REPORT pc; kind; pin; h_neg; h_int; h_frac; t_neg; t_int; t_frac])
      is_KeyError
      (ret tt).

Definition _digital_message (data : list Z) : M unit :=
  fun st =>
    match py_index data 0, py_index data 1 with
    | Some pin, Some value =>
        (_ <- dict_get digital_callbacks pin ;;
         cb <- dict_get digital_callbacks pin ;;
         call_callback (Some cb) [DIGITAL_REPORT pc; pin; value]) st
    | _, _ => (Ok tt, st)   (* except IndexError: return *)
    end.

(** [[ID, data[0], data[1]] + data[2:]] *)
Definition report_list (id : Z) (data : list Z) : M (list Z) :=
  d0 <- list_get data 0 ;;
  d1 <- list_get data 1 ;;
  ret ([id; d0; d1] ++ drop 2 data).

Definition _i2c_read_report (data : list Z) : M unit :=
  cb_list <- report_list (I2C_READ_REPORT pc) data ;;
  port <- list_get cb_list 1 ;;
  if negb (port =? 0)
  then cb <- get i2c_callback2 ;; call_callback cb cb_list
  else cb <- get i2c_callback ;; call_callback cb cb_list.

Definition _spi_report (report : list Z) : M unit :=
  cb_list <- report_list (SPI_REPORT pc) report ;;
  port <- list_get cb_list 1 ;;
  if negb (port =? 0)
  then cb <- get spi_callback2 ;; call_callback cb cb_list
  else cb <- get spi_callback ;; call_callback cb cb_list.

Definition _i2c_too_few_bytes_received (data : list Z) : M unit :=
  _ <- list_get data 0 ;;
  shutdown_if_configured shutdown.

Definition _i2c_too_many_bytes_received (data : list Z) : M unit :=
  _ <- list_get data 0 ;;
  shutdown_if_configured shutdown.

Definition _report_loop_data (data : list Z) : M unit :=
  cb <- get loop_back_callback ;;
  match cb with
  | Some _ => call_callback cb data
  | None => ret tt
  end.

Definition _report_unique_id (data : list Z) : M unit :=
  modify (fun st => set_reported_pico_id (reported_pico_id st ++ data) st).

Definition _report_firmware_version (data : list Z) : M unit :=
  modify (fun st => set_firmware_version (firmware_version st ++ data) st).

Definition _report_debug_data (data : list Z) : M unit :=
  _ <- list_get data 1 ;;
  _ <- list_get data 2 ;;
  _ <- list_get data 0 ;;
  ret tt.

Definition _servo_unavailable (report : list Z) : M unit :=
  shutdown_if_configured shutdown ;;
  _ <- list_get report 0 ;;
  raise (RuntimeError "Servo Attach For Pin {report[0]} Failed: No Available Servos").

Definition _sonar_distance_report (report : list Z) : M unit :=
  (* get callback from pin number *)
  trigger_pin <- list_get report 0 ;;
  cb <- dict_get sonar_callbacks trigger_pin ;;
  (* build report data *)
  whole <- list_get report 1 ;;
  hundredths <- list_get report 2 ;;
  call_callback (Some cb) [SONAR_DISTANCE pc; trigger_pin; whole; hundredths].

(** *** The report dispatcher *)

(** The bound methods stored in [report_dispatch]. *)
Inductive Handler : Type :=
| H_report_loop_data
| H_report_debug_data
| H_digital_message
| H_analog_message
| H_cpu_temp_message
| H_report_unique_id
| H_report_firmware_version
| H_servo_unavailable
| H_i2c_read_report
| H_i2c_too_few_bytes_received
| H_i2c_too_many_bytes_received
| H_sonar_distance_report
| H_dht_report
| H_spi_report.

Definition run_handler (h : Handler) : list Z -> M unit :=
  match h with
  | H_report_loop_data => _report_loop_data
  | H_report_debug_data => _report_debug_data
  | H_digital_message => _digital_message
  | H_analog_message => _analog_message
  | H_cpu_temp_message => _cpu_temp_message
  | H_report_unique_id => _report_unique_id
  | H_report_firmware_version => _report_firmware_version
  | H_servo_unavailable => _servo_unavailable
  | H_i2c_read_report => _i2c_read_report
  | H_i2c_too_few_bytes_received => _i2c_too_few_bytes_received
  | H_i2c_too_many_bytes_received => _i2c_too_many_bytes_received
  | H_sonar_distance_report => _sonar_distance_report
  | H_dht_report => _dht_report
  | H_spi_report => _spi_report
  end.

(** [self.report_dispatch], the successive [update] calls of [__init__]
    read from the innermost insertion outwards. *)
Definition report_dispatch : gmap Z Handler :=
  <[SPI_REPORT pc := H_spi_report]>
  (<[DHT_REPORT pc := H_dht_report]>
  (<[SONAR_DISTANCE pc := H_sonar_distance_report]>
  (<[I2C_TOO_MANY_BYTES_RECEIVED pc := H_i2c_too_many_bytes_received]>
  (<[I2C_TOO_FEW_BYTES_RECEIVED pc := H_i2c_too_few_bytes_received]>
  (<[I2C_READ_REPORT pc := H_i2c_read_report]>
  (<[SERVO_UNAVAILABLE pc := H_servo_unavailable]>
  (<[FIRMWARE_REPORT pc := H_report_firmware_version]>
  (<[UNIQUE_ID_REPORT pc := H_report_unique_id]>
  (<[CPU_TEMP_REPORT pc := H_cpu_temp_message]>
  (<[ANALOG_REPORT pc := H_analog_message]>
  (<[DIGITAL_REPORT pc := H_digital_message]>
  (<[DEBUG_PRINT pc := H_report_debug_data]>
  (<[LOOP_COMMAND pc := H_report_loop_data]> ∅))))))))))))).

(** Decoding, what the dispatcher's two reads take off a stream between
    them: one length byte, then that many bytes.  [None] while the stream
    does not hold the whole frame yet. *)
Definition unframe (rx : list Z) : option (list Z * list Z) :=
  match rx with
  | [] => None
  | packet_length :: rest =>
      let n := Z.to_nat packet_length in
      if Nat.leb n (length rest) then Some (take n rest, drop n rest) else None
  end.

Inductive LoopControl : Type := Continue | Break.

(** One pass through the body of [while True]: either the pass is left
    suspended in a [read] that wants [wanted] bytes, with the session as
    it stands at that point, or it has run to its end. *)
Inductive Pass : Type :=
| Suspended (wanted : nat) (st : State)
| Passed (r : result LoopControl) (st : State).

Definition dispatcher_pass (st : State) : Pass :=
  if shutdown_flag st then Passed (Ok Break) st
  else
    match serial_port st with
    | None => Passed (Raise AttributeError) st
    | Some p =>
        match port_read_fault p with
        | Some e =>
            if is_TypeError e then Passed (Ok Continue) st
            else if is_OSError e then Passed (Ok Break) st
            else Passed (Raise e) st
        | None =>
            (* packet_length = await self.serial_port.read() *)
            match port_read 1 p with
            | None => Suspended 1 st
            | Some (first, p1) =>
                let packet_length := Z.to_nat (hd 0 first) in
                let st1 := set_serial_port (Some p1) st in
                (* get the rest of the packet *)
                match port_read packet_length p1 with
                | None => Suspended packet_length st1
                | Some (packet, p2) =>
                    let st2 := set_serial_port (Some p2) st1 in
                    match packet with
                    | [] => Passed (Raise IndexError) st2
                    | report :: data =>
                        (* handle all other messages by looking them up in
                           the command dictionary *)
                        match report_dispatch !! report with
                        | None => Passed (Raise KeyError) st2
                        | Some h =>
                            match run_handler h data st2 with
                            | (Ok _, st3) => Passed (Ok Continue) st3
                            | (Raise e, st3) => Passed (Raise e) st3
                            end
                        end
                    end
                end
            end
        end
    end.

(** How a run of [_pico_report_dispatcher] stands after at most [fuel]
    passes. *)
Inductive DispatcherRun : Type :=
| Running (st : State)        (* passes left to do *)
| Waiting (wanted : nat) (st : State)   (* suspended in a read of [wanted] bytes *)
| Returned (st : State)       (* left the loop through [break] *)
| Crashed (e : exn) (st : State).   (* an exception left the coroutine *)

Fixpoint _pico_report_dispatcher (fuel : nat) (st : State) : DispatcherRun :=
  match fuel with
  | O => Running st
  | S fuel' =>
      match dispatcher_pass st with
      | Suspended wanted st' => Waiting wanted st'
      | Passed (Ok Continue) st' => _pico_report_dispatcher fuel' st'
      | Passed (Ok Break) st' => Returned st'
      | Passed (Raise e) st' => Crashed e st'
      end
  end.

End Engine.

Arguments frame command : simpl never.

(** ** The engine, continued: range, reporting, loop-back and NeoPixel
    methods *)

Definition set_loop_back_callback (v : option Callback) (st : State) : State :=
  mkState (config st) (pwm_active_count st) (analog_callbacks st) (cpu_temp_callback st)
    (digital_callbacks st) (i2c_callback st) (i2c_callback2 st) (i2c_0_active st)
    (i2c_1_active st) (spi_callback st) (spi_callback2 st) (sonar_callbacks st) (sonar_count st)
    (dht_callbacks st) (dht_count st) (serial_port st) (shutdown_flag st) v
    (firmware_version st) (reported_pico_id st) (maximum_pwm_duty_cycle st) (pico_pins st)
    (i2c_sda_pins st) (i2c_scl_pins st) (servo_ranges st) (number_of_pixels st)
    (neopixels_initiated st) (loop_stopped st) (delivered st).

Definition set_maximum_pwm_duty_cycle (v : Z) (st : State) : State :=
  mkState (config st) (pwm_active_count st) (analog_callbacks st) (cpu_temp_callback st)
    (digital_callbacks st) (i2c_callback st) (i2c_callback2 st) (i2c_0_active st)
    (i2c_1_active st) (spi_callback st) (spi_callback2 st) (sonar_callbacks st) (sonar_count st)
    (dht_callbacks st) (dht_count st) (serial_port st) (shutdown_flag st)
    (loop_back_callback st) (firmware_version st) (reported_pico_id st) v (pico_pins st)
    (i2c_sda_pins st) (i2c_scl_pins st) (servo_ranges st) (number_of_pixels st)
    (neopixels_initiated st) (loop_stopped st) (delivered st).

(** The constants of [PrivateConstants] these methods read. *)
Record MoreConstants : Type := {
  SET_PWM_RANGE : Z;
  MODIFY_REPORTING : Z;
  REPORTING_DISABLE_ALL : Z;
  REPORTING_ANALOG_ENABLE : Z;
  REPORTING_DIGITAL_ENABLE : Z;
  REPORTING_ANALOG_DISABLE : Z;
  REPORTING_DIGITAL_DISABLE : Z;
  SET_NEOPIXEL : Z;
  CLEAR_NEOPIXELS : Z;
  FILL_NEOPIXELS : Z;
  SHOW_NEOPIXELS : Z
}.

Section EngineMore.

Variable pc : PrivateConstants.
Variable xc : MoreConstants.

(** [n.to_bytes(4, byteorder='big')] *)
Definition to_bytes_4_big (n : Z) : M (list Z) :=
  if (0 <=? n) && (n <? 4294967296)
  then ret [Z.shiftr n 24; Z.land (Z.shiftr n 16) 255;
            Z.land (Z.shiftr n 8) 255; Z.land n 255]
  else raise OverflowError.

Definition pwm_range (range_pwm : Z) : M unit :=
  if (16 <=? range_pwm) && (range_pwm <=? 65535)
  then
    data <- to_bytes_4_big range_pwm ;;
    modify (set_maximum_pwm_duty_cycle range_pwm) ;;
    data0 <- list_get data 0 ;;
    data1 <- list_get data 1 ;;
    data2 <- list_get data 2 ;;
    data3 <- list_get data 3 ;;
    _send_command pc [SET_PWM_RANGE xc; data0; data1; data2; data3]
  else fail_with pc "pwm_range is out of range".

Definition disable_all_reporting : M unit :=
  _send_command pc [MODIFY_REPORTING xc; REPORTING_DISABLE_ALL xc; 0].

Definition disable_analog_reporting (pin : Z) : M unit :=
  _send_command pc [MODIFY_REPORTING xc; REPORTING_ANALOG_DISABLE xc; pin].

Definition disable_digital_reporting (pin : Z) : M unit :=
  _send_command pc [MODIFY_REPORTING xc; REPORTING_DIGITAL_DISABLE xc; pin].

Definition enable_analog_reporting (pin : Z) : M unit :=
  _send_command pc [MODIFY_REPORTING xc; REPORTING_ANALOG_ENABLE xc; pin].

Definition enable_digital_reporting (pin : Z) : M unit :=
  _send_command pc [MODIFY_REPORTING xc; REPORTING_DIGITAL_ENABLE xc; pin].

(** [loop_back]; [start_character] is the string passed, as its code
    points: [ord] wants exactly one. *)
Definition loop_back (start_character : list Z) (callback : option Callback)
    : M unit :=
  code <- match start_character with
          | [c] => ret c
          | _ => raise TypeError
          end ;;
  modify (set_loop_back_callback callback) ;;
  _send_command pc [LOOP_COMMAND pc; code].

Definition reset_board : M unit :=
  _send_command pc [RESET_BOARD pc].

(** [if not self.neopixels_initiated: ...], the first test of the four
    NeoPixel data methods. *)
Definition require_neopixels : M unit :=
  initiated <- get neopixels_initiated ;;
  if initiated then ret tt
  else fail_with pc "You must call set_pin_mode_neopixel first".

Definition neopixel_show : M unit :=
  require_neopixels ;;
  _send_command pc [SHOW_NEOPIXELS xc].

(** [0 <= pixel_number < self.number_of_pixels] compares with
    [number_of_pixels] only when the first comparison holds; against
    [None] that comparison is a [TypeError]. *)
Definition neo_pixel_set_value (pixel_number r g b : Z) (auto_show : bool)
    : M unit :=
  require_neopixels ;;
  count <- get number_of_pixels ;;
  (if 0 <=? pixel_number
   then
     match count with
     | Some n =>
         if pixel_number <? n then ret tt
         else fail_with pc "Pixel number is out of legal range"
     | None => raise TypeError
     end
   else fail_with pc "Pixel number is out of legal range") ;;
  check_colors pc [r; g; b] ;;
  _send_command pc [SET_NEOPIXEL xc; pixel_number; r; g; b; Z.b2z auto_show] ;;
  when auto_show neopixel_show.

Definition neopixel_clear (auto_show : bool) : M unit :=
  require_neopixels ;;
  _send_command pc [CLEAR_NEOPIXELS xc; Z.b2z auto_show] ;;
  when auto_show neopixel_show.

Definition neopixel_fill (r g b : Z) (auto_show : bool) : M unit :=
  require_neopixels ;;
  check_colors pc [r; g; b] ;;
  _send_command pc [FILL_NEOPIXELS xc; r; g; b; Z.b2z auto_show] ;;
  when auto_show neopixel_show.

End EngineMore.

(** ** The engine, continued: the SPI methods *)

Definition set_spi_callback (v : option Callback) (st : State) : State :=
  mkState (config st) (pwm_active_count st) (analog_callbacks st) (cpu_temp_callback st)
    (digital_callbacks st) (i2c_callback st) (i2c_callback2 st) (i2c_0_active st)
    (i2c_1_active st) v (spi_callback2 st) (sonar_callbacks st) (sonar_count st)
    (dht_callbacks st) (dht_count st) (serial_port st) (shutdown_flag st)
    (loop_back_callback st) (firmware_version st) (reported_pico_id st)
    (maximum_pwm_duty_cycle st) (pico_pins st) (i2c_sda_pins st) (i2c_scl_pins st)
    (servo_ranges st) (number_of_pixels st) (neopixels_initiated st) (loop_stopped st)
    (delivered st).

Definition set_spi_callback2 (v : option Callback) (st : State) : State :=
  mkState (config st) (pwm_active_count st) (analog_callbacks st) (cpu_temp_callback st)
    (digital_callbacks st) (i2c_callback st) (i2c_callback2 st) (i2c_0_active st)
    (i2c_1_active st) (spi_callback st) v (sonar_callbacks st) (sonar_count st)
    (dht_callbacks st) (dht_count st) (serial_port st) (shutdown_flag st)
    (loop_back_callback st) (firmware_version st) (reported_pico_id st)
    (maximum_pwm_duty_cycle st) (pico_pins st) (i2c_sda_pins st) (i2c_scl_pins st)
    (servo_ranges st) (number_of_pixels st) (neopixels_initiated st) (loop_stopped st)
    (delivered st).

(** The constants of [PrivateConstants] the SPI methods read. *)
Record SpiConstants : Type := {
  AT_SPI : Z;
  SPI_INIT : Z;
  SPI_CS_CONTROL : Z;
  SPI_READ_BLOCKING : Z;
  SPI_SET_FORMAT : Z;
  SPI_WRITE_BLOCKING : Z
}.

(** The session together with the four attributes only the SPI methods
    use. *)
Record SpiSession : Type := mkSpiSession {
  session : State;
  spi_0_active : bool;
  spi_1_active : bool;
  spi0_chip_select : Z;
  spi1_chip_select : Z
}.

(** [__init__] for these attributes. *)
Definition init_spi (st : State) : SpiSession :=
  {| session := st;
     spi_0_active := false;
     spi_1_active := false;
     spi0_chip_select := 17;
     spi1_chip_select := 13 |}.

Definition set_session (v : State) (s : SpiSession) : SpiSession :=
  mkSpiSession v (spi_0_active s) (spi_1_active s) (spi0_chip_select s)
    (spi1_chip_select s).

Definition set_spi_0_active (v : bool) (s : SpiSession) : SpiSession :=
  mkSpiSession (session s) v (spi_1_active s) (spi0_chip_select s)
    (spi1_chip_select s).

Definition set_spi_1_active (v : bool) (s : SpiSession) : SpiSession :=
  mkSpiSession (session s) (spi_0_active s) v (spi0_chip_select s)
    (spi1_chip_select s).

Definition set_spi0_chip_select (v : Z) (s : SpiSession) : SpiSession :=
  mkSpiSession (session s) (spi_0_active s) (spi_1_active s) v
    (spi1_chip_select s).

Definition set_spi1_chip_select (v : Z) (s : SpiSession) : SpiSession :=
  mkSpiSession (session s) (spi_0_active s) (spi_1_active s)
    (spi0_chip_select s) v.

(** Coroutines over the wider session. *)
Definition MS (A : Type) : Type := SpiSession -> result A * SpiSession.

Definition ret_spi {A} (a : A) : MS A := fun s => (Ok a, s).

Definition bind_spi {A B} (m : MS A) (k : A -> MS B) : MS B :=
  fun s =>
    match m s with
    | (Ok a, s') => k a s'
    | (Raise e, s') => (Raise e, s')
    end.

Definition get_spi {A} (f : SpiSession -> A) : MS A := fun s => (Ok (f s), s).

Definition modify_spi (f : SpiSession -> SpiSession) : MS unit :=
  fun s => (Ok tt, f s).

(** A coroutine of the engine, run on the session inside. *)
Definition lift {A} (m : M A) : MS A :=
  fun s => let '(r, st) := m (session s) in (r, set_session st s).

Declare Scope spi_scope.
Delimit Scope spi_scope with spi.
Notation "x <- m ;; k" := (bind_spi m (fun x => k))
  (at level 100, m at next level, right associativity) : spi_scope.
Notation "m ;; k" := (bind_spi m (fun _ => k))
  (at level 100, right associativity) : spi_scope.

Section EngineSpi.

Variable pc : PrivateConstants.
Variable sc : SpiConstants.

(** [if chip_select: ...]: [None] and 0 are both false. *)
Definition chip_select_given (chip_select : option Z) : option Z :=
  match chip_select with
  | Some c => if c =? 0 then None else Some c
  | None => None
  end.

Definition set_pin_mode_spi (spi_port : Z) (chip_select : option Z)
    (speed_maximum data_order data_mode : Z) : MS unit :=
  ((* determine if the spi port is specified correctly *)
   (if (spi_port =? 0) || (spi_port =? 1) then ret_spi tt
    else lift (fail_with pc "spi port must be either a 0 or 1")) ;;
   (if (0 <? speed_maximum) && (speed_maximum <? 50000000) then ret_spi tt
    else lift (fail_with pc "spi port speed maximum is out of range")) ;;
   (if (data_order =? 0) || (data_order =? 1) then ret_spi tt
    else lift (fail_with pc "spi data order must be 0 or 1")) ;;
   (if (data_mode =? 0) || (data_mode =? 1) || (data_mode =? 2)
       || (data_mode =? 3)
    then ret_spi tt
    else lift (fail_with pc "spi data data mode must be 0, 1, 3 or 3")) ;;
   pins <-
     (if spi_port =? 0
      then
        modify_spi (set_spi_0_active true) ;;
        cs <- match chip_select_given chip_select with
              | Some c => modify_spi (set_spi0_chip_select c) ;; ret_spi c
              | None => ret_spi 17
              end ;;
        ret_spi (16, 19, cs, 18)
      else
        modify_spi (set_spi_1_active true) ;;
        cs <- match chip_select_given chip_select with
              | Some c => modify_spi (set_spi1_chip_select c) ;; ret_spi c
              | None => ret_spi 13
              end ;;
        ret_spi (12, 15, cs, 14)) ;;
   let '(miso, mosi, cs, clock_pin) := pins in
   freq_bytes <- lift (to_bytes_4_big speed_maximum) ;;
   lift (set_pin mosi (AT_SPI sc)) ;;
   lift (set_pin miso (AT_SPI sc)) ;;
   lift (set_pin clock_pin (AT_SPI sc)) ;;
   lift (set_pin cs (AT_SPI sc)) ;;
   f0 <- lift (list_get freq_bytes 0) ;;
   f1 <- lift (list_get freq_bytes 1) ;;
   f2 <- lift (list_get freq_bytes 2) ;;
   f3 <- lift (list_get freq_bytes 3) ;;
   lift (_send_command pc
           [SPI_INIT sc; spi_port; cs; f0; f1; f2; f3; data_order; data_mode])
  )%spi.

Definition spi_cs_control (chip_select_pin select : Z) : MS unit :=
  (mode <- lift (dict_get pico_pins chip_select_pin) ;;
   (if negb (mode =? AT_SPI sc)
    then lift (fail_with pc
                 "spi_read_blocking: Invalid chip select pin {chip_select_pin}.")
    else ret_spi tt) ;;
   lift (_send_command pc [SPI_CS_CONTROL sc; chip_select_pin; select]))%spi.

Definition spi_read_blocking (register number_of_bytes spi_port : Z)
    (call_back : option Callback) : MS unit :=
  ((if spi_port =? 0
    then
      active <- get_spi spi_0_active ;;
      if active then ret_spi tt
      else lift (fail_with pc
             "spi_read_blocking: set_pin_mode_spi never called for spi port 0.")
    else if spi_port =? 1
    then
      active <- get_spi spi_1_active ;;
      if active then ret_spi tt
      else lift (fail_with pc
             "spi_read_blocking: set_pin_mode_spi never called for spi port 1.")
    else ret_spi tt) ;;
   match call_back with
   | None => lift (fail_with pc "spi_read_blocking: A Callback must be specified")
   | Some _ => ret_spi tt
   end ;;
   (if spi_port =? 0 then lift (modify (set_spi_callback call_back))
    else lift (modify (set_spi_callback2 call_back))) ;;
   lift (_send_command pc
           [SPI_READ_BLOCKING sc; spi_port; register; number_of_bytes]))%spi.

(** [if not spi_port: ... elif spi_port: ...], the first test of
    [spi_set_format] and [spi_write_blocking]: every port but 0 is taken
    for port 1. *)
Definition require_spi_port (spi_port : Z) (msg0 msg1 : string) : MS unit :=
  (if spi_port =? 0
   then
     active <- get_spi spi_0_active ;;
     if active then ret_spi tt else lift (fail_with pc msg0)
   else
     active <- get_spi spi_1_active ;;
     if active then ret_spi tt else lift (fail_with pc msg1))%spi.

Definition spi_set_format (spi_port data_bits spi_polarity spi_phase : Z)
    : MS unit :=
  (require_spi_port spi_port
     "spi_set_format: set_pin_mode_spi never called for spi port 0."
     "spi_set_format: set_pin_mode_spi never called for spi port 1." ;;
   lift (_send_command pc
           [SPI_SET_FORMAT sc; spi_port; data_bits; spi_polarity; spi_phase]))%spi.

Definition spi_write_blocking (bytes_to_write : list Z) (spi_port : Z)
    : MS unit :=
  (require_spi_port spi_port
     "spi_write_blocking: set_pin_mode_spi never called for spi port 0."
     "spi_write_blocking: set_pin_mode_spi never called for spi port 1." ;;
   lift (_send_command pc
           ([SPI_WRITE_BLOCKING sc; spi_port; Z.of_nat (length bytes_to_write)]
              ++ bytes_to_write)))%spi.

End EngineSpi.

(** ** A concrete session

    The values below instantiate the constants for the examples.  The
    report identifiers 2, 3, 10, 11, 12, 13 and 20 and the duty-cycle
    ceiling 20000 are the ones the docstrings and comments of the engine
    give; the others follow the numbering of the Telemetrix command table
    and only their being distinct bytes matters. *)
Definition sample_constants : PrivateConstants :=
  {| LOOP_COMMAND := 0;
     SET_PIN_MODE := 1;
     DIGITAL_WRITE := 2;
     ANALOG_WRITE := 3;
     I2C_BEGIN := 10;
     I2C_READ := 11;
     I2C_WRITE := 12;
     SONAR_NEW := 13;
     DHT_NEW := 14;
     STOP_ALL_REPORTS := 15;
     RESET_BOARD := 18;
     INIT_NEOPIXELS := 19;
     DEBUG_PRINT := 99;
     DIGITAL_REPORT := 2;
     ANALOG_REPORT := 3;
     CPU_TEMP_REPORT := 20;
     UNIQUE_ID_REPORT := 6;
     FIRMWARE_REPORT := 5;
     SERVO_UNAVAILABLE := 7;
     I2C_READ_REPORT := 10;
     I2C_TOO_FEW_BYTES_RECEIVED := 8;
     I2C_TOO_MANY_BYTES_RECEIVED := 9;
     SONAR_DISTANCE := 11;
     DHT_REPORT := 12;
     SPI_REPORT := 13;
     I2C_NO_REGISTER := 254;
     MAX_SONARS := 4;
     MAX_DHTS := 2;
     MAX_PWM_DUTY_CYCLE := 20000;
     MIN_SERVO_DUTY_CYCLE := 0;
     MAX_SERVO_DUTY_CYCLE := 1 |}.

(** Integer stand-in for [int(value / 180 * servo_range)], exact whenever
    180 divides [value * servo_range]. *)
Definition sample_servo_scale (value servo_range : Z) : result Z :=
  Ok (value * servo_range / 180).

(** The constructor's defaults: shut down before raising, reset the board
    and stop the loop on shutdown. *)
Definition default_config : Config :=
  {| shutdown_on_exception := true;
     reset_on_shutdown := true;
     close_loop_on_shutdown := true;
     recursion_budget := 100 |}.

(** An open port with [rx] waiting to be read; written to after [close]
    it raises [SerialException], as pyserial's port does. *)
Definition sample_port (rx : list Z) : Port :=
  {| port_open := true;
     port_rx := rx;
     port_tx := [];
     port_calls := [];
     port_write_closed := Raise SerialException;
     port_read_fault := None |}.

(** A fresh session on [sample_port]. *)
Definition fresh (cfg : Config) (rx : list Z) : State :=
  set_serial_port (Some (sample_port rx)) (init sample_constants cfg).

(** ** What the properties speak about *)

(** The frames the port of a session has accepted, and the calls made on
    it. *)
Definition sent (st : State) : list (list Z) :=
  match serial_port st with
  | Some p => port_tx p
  | None => []
  end.

Definition transport_calls (st : State) : list PortCall :=
  match serial_port st with
  | Some p => port_calls p
  | None => []
  end.

Definition transport_open (st : State) : bool :=
  match serial_port st with
  | Some p => port_open p
  | None => false
  end.

(** Run calls one after the other, keeping each call's result, as a
    caller that catches what a call raises would. *)
Fixpoint run_all (calls : list (M unit)) (st : State) : list (result unit) * State :=
  match calls with
  | [] => ([], st)
  | call :: rest =>
      let '(r, st1) := call st in
      let '(rs, st2) := run_all rest st1 in
      (r :: rs, st2)
  end.

(** The command identifiers are bytes, as [bytes(command)] requires. *)
Definition command_bytes (pc : PrivateConstants) : bool :=
  forallb is_byte
    [SET_PIN_MODE pc; DIGITAL_WRITE pc; ANALOG_WRITE pc; I2C_BEGIN pc;
     I2C_READ pc; I2C_WRITE pc; SONAR_NEW pc; DHT_NEW pc;
     STOP_ALL_REPORTS pc; RESET_BOARD pc; INIT_NEOPIXELS pc;
     I2C_NO_REGISTER pc].

(** The frames [shutdown] writes on an open port. *)
Definition shutdown_frames (pc : PrivateConstants) (cfg : Config) : list (list Z) :=
  [1; STOP_ALL_REPORTS pc]
    :: (if reset_on_shutdown cfg then [[1; RESET_BOARD pc]] else []).

(** The frames written on the way to a [raise]: those of [shutdown] when
    [shutdown_on_exception] is set, none otherwise. *)
Definition frames_before_raise (pc : PrivateConstants) (cfg : Config)
    : list (list Z) :=
  if shutdown_on_exception cfg then shutdown_frames pc cfg else [].

(** The session [shutdown] leaves when it starts on the open port [p]. *)
Definition after_shutdown (pc : PrivateConstants) (st : State) (p : Port) : State :=
  let p1 := port_accept [1; STOP_ALL_REPORTS pc] p in
  let p2 :=
    if reset_on_shutdown (config st)
    then port_accept [1; RESET_BOARD pc] p1 else p1 in
  let st1 := set_serial_port (Some (port_close p2)) (set_shutdown_flag true st) in
  if close_loop_on_shutdown (config st) then set_loop_stopped true st1 else st1.

(** A session with the three fields [shutdown] writes blanked out: two
    sessions with the same [untouched] differ at most in the port, the
    shutdown flag and the loop. *)
Definition untouched (st : State) : State :=
  set_loop_stopped false (set_shutdown_flag false (set_serial_port None st)).

Definition teardown_only (st st' : State) : Prop :=
  untouched st' = untouched st.

(** What a call made on a session whose port is closed keeps: the flag
    once set, the port closed, the frames it had accepted; the calls
    made on the port only grow. *)
Definition stays_closed (st st' : State) : Prop :=
  (shutdown_flag st = true -> shutdown_flag st' = true) /\
  forall p, serial_port st = Some p -> port_open p = false ->
    exists p', serial_port st' = Some p' /\ port_open p' = false
      /\ port_tx p' = port_tx p /\ port_rx p' = port_rx p
      /\ port_write_closed p' = port_write_closed p
      /\ port_calls p `prefix_of` port_calls p'.

(** The message of the ceiling test of [set_pin_mode_pwm_output]. *)
Definition ceiling_message : string :=
  "pwm or servo set mode: number of active PWM pins is at maximum".

(** A coroutine respects a relation between sessions when the session it
    leaves, returning or raising, is related to the one it started on. *)
Definition respects (R : State -> State -> Prop) {A} (m : M A) : Prop :=
  forall st, R st (snd (m st)).

(** The pin states [_set_pin_mode] stores under the pin number itself
    and answers with a [SET_PIN_MODE] command. *)
Definition plain_modes : list Z :=
  [AT_INPUT; AT_INPUT_PULLUP; AT_INPUT_PULL_DOWN; AT_OUTPUT; AT_PWM_OUTPUT;
   AT_SERVO].


(** ** What the further properties speak about *)

(** Sample values for the constants of [MoreConstants]; only their being
    bytes matters. *)
Definition sample_more_constants : MoreConstants :=
  {| SET_PWM_RANGE := 30;
     MODIFY_REPORTING := 4;
     REPORTING_DISABLE_ALL := 0;
     REPORTING_ANALOG_ENABLE := 1;
     REPORTING_DIGITAL_ENABLE := 2;
     REPORTING_ANALOG_DISABLE := 3;
     REPORTING_DIGITAL_DISABLE := 4;
     SET_NEOPIXEL := 21;
     CLEAR_NEOPIXELS := 23;
     FILL_NEOPIXELS := 22;
     SHOW_NEOPIXELS := 20 |}.

(** The keys of [pico_pins] as [__init__] builds it: GPIO 0 to 22, 25 to
    28 and the board LED, 64. *)
Definition gpio_pin (k : Z) : Prop :=
  0 <= k <= 22 \/ 25 <= k <= 28 \/ k = 64.

(** The keys of [i2c_sda_pins] and of [i2c_scl_pins]. *)
Definition sda_pin (k : Z) : Prop :=
  (2 <= k <= 20 /\ k mod 2 = 0) \/ k = 26.

Definition scl_pin (k : Z) : Prop :=
  (3 <= k <= 21 /\ k mod 2 = 1) \/ k = 27.

(** The three digital input states. *)
Definition input_modes : list Z :=
  [AT_INPUT; AT_INPUT_PULLUP; AT_INPUT_PULL_DOWN].

(** The session a pass of the dispatcher leaves when it has read a frame
    of [n] bytes after the length byte. *)
Definition consumed (n : nat) (p : Port) (st : State) : State :=
  set_serial_port (Some (port_consume (S n) p)) st.

(** The session after [cb] has been called with [message]. *)
Definition deliver (cb : Callback) (message : list Z) (st : State) : State :=
  set_delivered (delivered st ++ [(cb, message)]) st.

(** The tests [set_pin_mode_i2c] makes before it changes anything: the
    port is 0 or 1, the two pins are keys of the SDA and SCL tables and
    both are free (255). *)
Definition i2c_request_ok (st : State) (i2c_port sda_gpio scl_gpio : Z) : bool :=
  ((i2c_port =? 0) || (i2c_port =? 1))
  && bool_decide (i2c_sda_pins st !! sda_gpio = Some 255)
  && bool_decide (i2c_scl_pins st !! scl_gpio = Some 255).

(** The register byte [i2c_read] sends: [I2C_NO_REGISTER] for [None] and
    for register 0, which [if not register] takes alike. *)
Definition register_byte (pc : PrivateConstants) (register : option Z) : Z :=
  match register with
  | Some r => if r =? 0 then I2C_NO_REGISTER pc else r
  | None => I2C_NO_REGISTER pc
  end.

(** The shutdown flag, once set, stays set. *)
Definition flag_kept (st st' : State) : Prop :=
  shutdown_flag st = true -> shutdown_flag st' = true.

(** The stream of the digital reports [reports], each a pin and a value. *)
Definition digital_frames (pc : PrivateConstants) (reports : list (Z * Z))
    : list Z :=
  flat_map (fun r => [3; DIGITAL_REPORT pc; r.1; r.2]) reports.

(** The message of the first test of the NeoPixel data methods. *)
Definition neopixel_message : string :=
  "You must call set_pin_mode_neopixel first".

(** Sample values for the constants of [SpiConstants]; only their being
    bytes matters. *)
Definition sample_spi_constants : SpiConstants :=
  {| AT_SPI := 11;
     SPI_INIT := 24;
     SPI_CS_CONTROL := 27;
     SPI_READ_BLOCKING := 26;
     SPI_SET_FORMAT := 28;
     SPI_WRITE_BLOCKING := 25 |}.

(** The four tests [set_pin_mode_spi] makes before it changes anything. *)
Definition spi_request_ok (spi_port speed_maximum data_order data_mode : Z)
    : bool :=
  ((spi_port =? 0) || (spi_port =? 1))
  && ((0 <? speed_maximum) && (speed_maximum <? 50000000))
  && ((data_order =? 0) || (data_order =? 1))
  && ((data_mode =? 0) || (data_mode =? 1) || (data_mode =? 2)
      || (data_mode =? 3)).

(** The chip select pin [set_pin_mode_spi] uses: the one given, or the
    port's default when none (or 0) is given. *)
Definition spi_chip_select (spi_port : Z) (chip_select : option Z) : Z :=
  match chip_select_given chip_select with
  | Some c => c
  | None => if spi_port =? 0 then 17 else 13
  end.

(** MOSI, MISO, clock and chip select of a port. *)
Definition spi_pins (spi_port : Z) (chip_select : option Z) : list Z :=
  (if spi_port =? 0 then [19; 16; 18] else [15; 12; 14])
    ++ [spi_chip_select spi_port chip_select].

(** The attributes of the wider session. *)
Definition spi_fields (s : SpiSession) : bool * bool * Z * Z :=
  (spi_0_active s, spi_1_active s, spi0_chip_select s, spi1_chip_select s).

(** * Properties *)

(** ** The monad *)

Lemma bind_Ok {A B} (m : M A) (k : A -> M B) st a st1 :
  m st = (Ok a, st1) -> bind m k st = k a st1.
Proof. intros H. unfold bind. now rewrite H. Qed.

Lemma bind_Raise {A B} (m : M A) (k : A -> M B) st e st1 :
  m st = (Raise e, st1) -> bind m k st = (Raise e, st1).
Proof. intros H. unfold bind. now rewrite H. Qed.

(** ** Relations every step of [shutdown] respects

    [shutdown] and [_send_command] are built from a handful of steps.  A
    reflexive and transitive relation between the session before and the
    session after that each step respects is respected by [shutdown], at
    every depth of re-entry and whether it returns or raises. *)

Section Respects.

Variable pc : PrivateConstants.
Variable R : State -> State -> Prop.
Hypothesis R_refl : forall st, R st st.
Hypothesis R_trans : forall a b c, R a b -> R b c -> R a c.

Lemma respects_ret {A} (a : A) : respects R (ret a).
Proof. intros st. apply R_refl. Qed.

Lemma respects_raise {A} e : respects R (@raise A e).
Proof. intros st. apply R_refl. Qed.

Lemma respects_get {A} (f : State -> A) : respects R (get f).
Proof. intros st. apply R_refl. Qed.

Lemma respects_bind {A B} (m : M A) (k : A -> M B) :
  respects R m -> (forall a, respects R (k a)) -> respects R (bind m k).
Proof.
  intros Hm Hk st. unfold bind. specialize (Hm st).
  destruct (m st) as [[a|e] st1]; cbn [snd] in *.
  - eapply R_trans; [exact Hm | apply Hk].
  - exact Hm.
Qed.

Lemma respects_try {A} (m : M A) catches (h : M A) :
  respects R m -> respects R h -> respects R (try_except m catches h).
Proof.
  intros Hm Hh st. unfold try_except. specialize (Hm st).
  destruct (m st) as [[a|e] st1]; cbn [snd] in *; [exact Hm|].
  destruct (catches e); cbn [snd]; [|exact Hm].
  eapply R_trans; [exact Hm | apply Hh].
Qed.

Lemma respects_when b (m : M unit) : respects R m -> respects R (when b m).
Proof. intros Hm. destruct b; [exact Hm | apply respects_ret]. Qed.

Hypothesis R_flag : forall st, R st (set_shutdown_flag true st).
Hypothesis R_loop : forall st, R st (set_loop_stopped true st).
Hypothesis R_write : forall data, respects R (serial_write data).
Hypothesis R_close : respects R serial_close.

Lemma respects_shutdown_if (sd : M unit) :
  respects R sd -> respects R (shutdown_if_configured sd).
Proof.
  intros H. apply respects_bind; [apply respects_get|].
  intros b. now apply respects_when.
Qed.

Lemma respects_send_command_with sd command :
  respects R sd -> respects R (_send_command_with sd command).
Proof.
  intros H. unfold _send_command_with.
  apply respects_bind; [apply respects_get|]. intros [p|].
  - destruct (frame command); [|apply respects_raise].
    apply respects_try; [apply R_write|].
    apply respects_bind; [now apply respects_shutdown_if|].
    intros _. apply respects_raise.
  - apply respects_bind; [now apply respects_shutdown_if|].
    intros _. apply respects_raise.
Qed.

(** What follows the first [_send_command] in the body of [shutdown]. *)
Lemma respects_shutdown_rest nested :
  respects R nested ->
  respects R
    (bind (get (fun st => reset_on_shutdown (config st))) (fun ros =>
     bind (when ros (_send_command_with nested [RESET_BOARD pc])) (fun _ =>
     bind serial_close (fun _ =>
     bind (get (fun st => close_loop_on_shutdown (config st))) (fun cl =>
     when cl (modify (set_loop_stopped true))))))).
Proof.
  intros H.
  apply respects_bind; [apply respects_get|]. intros ros.
  apply respects_bind;
    [apply respects_when; now apply respects_send_command_with|].
  intros _. apply respects_bind; [apply R_close|].
  intros _. apply respects_bind; [apply respects_get|]. intros cl.
  apply respects_when. intros st. apply R_loop.
Qed.

Lemma respects_shutdown_body nested :
  respects R nested -> respects R (shutdown_body pc nested).
Proof.
  intros H. unfold shutdown_body.
  apply respects_bind; [intros st; apply R_flag|]. intros _.
  apply respects_try; [|apply respects_ret].
  apply respects_bind; [now apply respects_send_command_with|]. intros _.
  now apply respects_shutdown_rest.
Qed.

Lemma respects_shutdown_at budget : respects R (shutdown_at pc budget).
Proof.
  induction budget as [|b IH]; cbn [shutdown_at];
    apply respects_shutdown_body; [apply respects_raise | exact IH].
Qed.

Lemma respects_shutdown : respects R (shutdown pc).
Proof. intros st. unfold shutdown. apply respects_shutdown_at. Qed.

Lemma respects_fail_with msg : respects R (fail_with pc msg).
Proof.
  unfold fail_with. apply respects_bind.
  - apply respects_shutdown_if, respects_shutdown.
  - intros _. apply respects_raise.
Qed.

End Respects.

(** ** [shutdown] touches the port, the flag and the loop only *)

Lemma teardown_only_refl st : teardown_only st st.
Proof. reflexivity. Qed.

Lemma teardown_only_trans a b c :
  teardown_only a b -> teardown_only b c -> teardown_only a c.
Proof. unfold teardown_only. congruence. Qed.

Lemma teardown_only_write data : respects teardown_only (serial_write data).
Proof.
  intros st. unfold serial_write. destruct (serial_port st) as [p|]; [|reflexivity].
  destruct (port_write data p). reflexivity.
Qed.

Lemma teardown_only_close : respects teardown_only serial_close.
Proof. intros st. unfold serial_close. destruct (serial_port st); reflexivity. Qed.

Lemma teardown_only_flag st : teardown_only st (set_shutdown_flag true st).
Proof. reflexivity. Qed.

Lemma teardown_only_loop st : teardown_only st (set_loop_stopped true st).
Proof. reflexivity. Qed.

Lemma teardown_only_shutdown pc : respects teardown_only (shutdown pc).
Proof.
  exact (respects_shutdown pc teardown_only teardown_only_refl
           teardown_only_trans teardown_only_flag teardown_only_loop
           teardown_only_write teardown_only_close).
Qed.

Lemma teardown_only_fail_with pc msg : respects teardown_only (fail_with pc msg).
Proof.
  exact (respects_fail_with pc teardown_only teardown_only_refl
           teardown_only_trans teardown_only_flag teardown_only_loop
           teardown_only_write teardown_only_close msg).
Qed.

Lemma teardown_only_pico_pins st st' :
  teardown_only st st' -> pico_pins st' = pico_pins st.
Proof. intros H. exact (f_equal pico_pins H). Qed.

Lemma teardown_only_pwm_active_count st st' :
  teardown_only st st' -> pwm_active_count st' = pwm_active_count st.
Proof. intros H. exact (f_equal pwm_active_count H). Qed.

(** ** On a closed port [shutdown] keeps the port closed *)

Lemma stays_closed_refl st : stays_closed st st.
Proof. split; [auto|]. intros p Hp Ho. exists p. repeat split; auto. Qed.

Lemma stays_closed_trans a b c :
  stays_closed a b -> stays_closed b c -> stays_closed a c.
Proof.
  intros [Hf1 H1] [Hf2 H2]. split; [auto|]. intros p Hp Ho.
  destruct (H1 p Hp Ho) as (p1 & Hp1 & Ho1 & Htx1 & Hrx1 & Hw1 & Hc1).
  destruct (H2 p1 Hp1 Ho1) as (p2 & Hp2 & Ho2 & Htx2 & Hrx2 & Hw2 & Hc2).
  exists p2. repeat split; try congruence. now transitivity (port_calls p1).
Qed.

Lemma stays_closed_write data : respects stays_closed (serial_write data).
Proof.
  intros st. split.
  - unfold serial_write. destruct (serial_port st) as [p|]; [|auto].
    destruct (port_write data p). auto.
  - intros p Hp Ho. unfold serial_write, port_write. rewrite Hp, Ho. cbn.
    eexists. repeat split. now apply prefix_app_r.
Qed.

Lemma stays_closed_close : respects stays_closed serial_close.
Proof.
  intros st. split.
  - unfold serial_close. destruct (serial_port st); auto.
  - intros p Hp Ho. unfold serial_close. rewrite Hp. cbn.
    eexists. repeat split. now apply prefix_app_r.
Qed.

Lemma stays_closed_flag st : stays_closed st (set_shutdown_flag true st).
Proof. split; [auto|]. intros p Hp Ho. exists p. repeat split; auto. Qed.

Lemma stays_closed_loop st : stays_closed st (set_loop_stopped true st).
Proof. split; [auto|]. intros p Hp Ho. exists p. repeat split; auto. Qed.

Section Properties.

Variable pc : PrivateConstants.

(** ** [_send_command] and [shutdown] *)

Lemma frame_bytes (command : list Z) :
  forallb is_byte command = true ->
  (length command <= 255)%nat ->
  frame command = Some (Z.of_nat (length command) :: command).
Proof.
  intros Hb Hl. unfold frame, bytes. cbn [forallb]. rewrite Hb.
  replace (is_byte (Z.of_nat (length command))) with true; [reflexivity|].
  unfold is_byte. symmetry. apply andb_true_iff. split; [apply Z.leb_le|apply Z.leb_le]; lia.
Qed.

Lemma send_command_with_open sd command f st p :
  serial_port st = Some p -> port_open p = true ->
  frame command = Some f ->
  _send_command_with sd command st
  = (Ok tt, set_serial_port (Some (port_accept f p)) st).
Proof.
  intros Hp Ho Hf. unfold _send_command_with, bind, get, try_except, serial_write.
  rewrite Hp, Hf, Hp. unfold port_write. now rewrite Ho.
Qed.

Lemma frame_single id :
  is_byte id = true -> frame [id] = Some [1; id].
Proof. intros H. rewrite frame_bytes; cbn; [reflexivity | now rewrite H | lia]. Qed.

Lemma shutdown_at_open budget st p :
  serial_port st = Some p -> port_open p = true ->
  is_byte (STOP_ALL_REPORTS pc) = true -> is_byte (RESET_BOARD pc) = true ->
  shutdown_at pc budget st = (Ok tt, after_shutdown pc st p).
Proof.
  intros Hp Ho Hstop Hreset.
  assert (Hbody : forall nested,
    shutdown_body pc nested st = (Ok tt, after_shutdown pc st p)).
  { intros nested. unfold shutdown_body, after_shutdown.
    unfold bind at 1. cbn [modify]. unfold try_except.
    erewrite bind_Ok;
      [|apply send_command_with_open with (p := p);
        [exact Hp | exact Ho | now apply frame_single]].
    unfold bind at 1, get at 1. cbn [config set_serial_port set_shutdown_flag].
    destruct (reset_on_shutdown (config st)); cbn [when].
    - erewrite bind_Ok;
        [|apply send_command_with_open
            with (p := port_accept [1; STOP_ALL_REPORTS pc] p);
          [reflexivity | reflexivity | now apply frame_single]].
      unfold bind, serial_close, get. cbn.
      destruct (close_loop_on_shutdown (config st)); reflexivity.
    - unfold bind, serial_close, get, ret. cbn.
      destruct (close_loop_on_shutdown (config st)); reflexivity. }
  destruct budget; cbn [shutdown_at]; apply Hbody.
Qed.

Lemma shutdown_open st p :
  serial_port st = Some p -> port_open p = true ->
  is_byte (STOP_ALL_REPORTS pc) = true -> is_byte (RESET_BOARD pc) = true ->
  shutdown pc st = (Ok tt, after_shutdown pc st p).
Proof. intros. unfold shutdown. now apply shutdown_at_open. Qed.

Lemma sent_after_shutdown st p :
  serial_port st = Some p ->
  sent (after_shutdown pc st p) = sent st ++ shutdown_frames pc (config st).
Proof.
  intros Hp. unfold after_shutdown, shutdown_frames, sent. rewrite Hp.
  destruct (reset_on_shutdown (config st)), (close_loop_on_shutdown (config st));
    cbn; now rewrite <- ?app_assoc.
Qed.

(** [fail_with] on an open port: the shutdown sequence if configured,
    then the [RuntimeError]. *)
Lemma fail_with_open msg st p :
  serial_port st = Some p -> port_open p = true ->
  is_byte (STOP_ALL_REPORTS pc) = true -> is_byte (RESET_BOARD pc) = true ->
  fail_with pc msg st
  = (Raise (RuntimeError msg),
     if shutdown_on_exception (config st) then after_shutdown pc st p else st).
Proof.
  intros Hp Ho Hstop Hreset. unfold fail_with, shutdown_if_configured, bind, get.
  destruct (shutdown_on_exception (config st)); unfold when.
  - now rewrite (shutdown_open st p).
  - reflexivity.
Qed.

Lemma sent_fail_with msg st p :
  serial_port st = Some p -> port_open p = true ->
  is_byte (STOP_ALL_REPORTS pc) = true -> is_byte (RESET_BOARD pc) = true ->
  sent (snd (fail_with pc msg st)) = sent st ++ frames_before_raise pc (config st).
Proof.
  intros Hp Ho Hstop Hreset. rewrite (fail_with_open msg st p) by assumption.
  unfold frames_before_raise. cbn [snd].
  destruct (shutdown_on_exception (config st)).
  - now apply sent_after_shutdown.
  - now rewrite app_nil_r.
Qed.

(** Whatever [shutdown] does, [fail_with] raises. *)
Lemma fail_with_raises msg st : exists e, fst (fail_with pc msg st) = Raise e.
Proof.
  unfold fail_with, bind.
  destruct (shutdown_if_configured (shutdown pc) st) as [[[]|e] st1]; cbn; eauto.
Qed.

(** ** Mode-assigning methods on an open port *)

Lemma send_set_pin_mode_open st p pin params :
  serial_port st = Some p -> port_open p = true ->
  is_byte (SET_PIN_MODE pc) = true -> is_byte pin = true ->
  forallb is_byte params = true -> (length params <= 10)%nat ->
  _send_command pc (SET_PIN_MODE pc :: pin :: params) st
  = (Ok tt,
     set_serial_port
       (Some (port_accept
                (Z.of_nat (2 + length params) :: SET_PIN_MODE pc :: pin :: params)
                p)) st).
Proof.
  intros Hp Ho Hset Hpin Hb Hl. unfold _send_command.
  apply send_command_with_open; auto.
  rewrite frame_bytes; cbn [length forallb];
    [reflexivity | now rewrite Hset, Hpin, Hb | lia].
Qed.

(** On an open port, for a pin of the table and a plain mode,
    [_set_pin_mode] returns, stores the mode and writes one frame. *)
Lemma set_pin_mode_open st p pin m d v cb :
  serial_port st = Some p -> port_open p = true ->
  is_Some (pico_pins st !! pin) ->
  is_byte (SET_PIN_MODE pc) = true -> is_byte pin = true ->
  In m plain_modes ->
  exists st1 params,
    _set_pin_mode pc pin m d v cb st = (Ok tt, st1)
    /\ serial_port st1
       = Some (port_accept
                 (Z.of_nat (2 + length params) :: SET_PIN_MODE pc :: pin :: params) p)
    /\ pico_pins st1 = <[pin := m]> (pico_pins st)
    /\ pwm_active_count st1 = pwm_active_count st
    /\ config st1 = config st.
Proof.
  intros Hp Ho [old Hold] Hset Hpin Hm.
  unfold plain_modes in Hm. cbn [In] in Hm.
  pose proof (fun params st0 H => send_set_pin_mode_open st0 p pin params H Ho Hset Hpin)
    as Hsend.
  destruct Hm as [<-|[<-|[<-|[<-|[<-|[<-|[]]]]]]];
    unfold _set_pin_mode, set_pin, bind, get, modify, ret;
    cbn [Z.eqb AT_INPUT AT_INPUT_PULLUP AT_INPUT_PULL_DOWN AT_OUTPUT
         AT_PWM_OUTPUT AT_SERVO AT_ANALOG Pos.eqb orb];
    rewrite Hold; destruct cb;
    cbn [pico_pins set_pico_pins set_digital_callbacks set_servo_ranges];
    match goal with
    | |- context [_send_command pc (_ :: _ :: ?ps) _] =>
        eexists _, ps; split;
          [ apply Hsend; [exact Hp | reflexivity | cbn; lia]
          | cbn; repeat split; apply insert_insert_eq ]
    end.
Qed.

(** ** PWM reservations *)

(** C10: called on a pin of the table while [pwm_active_count] is at the
    ceiling the method tests (15 or more), [set_pin_mode_pwm_output]
    raises, the table holds PWM output for the pin all the same and the
    counter is what it was; on an open port the exception is the
    [RuntimeError] of the ceiling test. *)
Theorem C10_failed_pwm_reservation_marks_pin st pin :
  is_Some (pico_pins st !! pin) ->
  15 <= pwm_active_count st ->
  exists e st',
    set_pin_mode_pwm_output pc pin st = (Raise e, st')
    /\ pico_pins st' = <[pin := AT_PWM_OUTPUT]> (pico_pins st)
    /\ pico_pins st' !! pin = Some AT_PWM_OUTPUT
    /\ pwm_active_count st' = pwm_active_count st
    /\ (forall p, serial_port st = Some p -> port_open p = true ->
          is_byte (STOP_ALL_REPORTS pc) = true ->
          is_byte (RESET_BOARD pc) = true ->
          e = RuntimeError
                "pwm or servo set mode: number of active PWM pins is at maximum").
Proof.
  intros [old Hold] Hcount.
  set (msg := "pwm or servo set mode: number of active PWM pins is at maximum"%string).
  set (st1 := set_pico_pins (<[pin := AT_PWM_OUTPUT]> (pico_pins st)) st).
  destruct (fail_with pc msg st1) as [r st'] eqn:Hfail.
  destruct (fail_with_raises msg st1) as [e He]. rewrite Hfail in He.
  cbn [fst] in He. subst r.
  pose proof (teardown_only_fail_with pc msg st1) as Hkeep.
  rewrite Hfail in Hkeep. cbn [snd] in Hkeep.
  assert (Hpins : pico_pins st' = <[pin := AT_PWM_OUTPUT]> (pico_pins st))
    by exact (teardown_only_pico_pins _ _ Hkeep).
  exists e, st'. split; [|split; [exact Hpins|split; [|split]]].
  - unfold set_pin_mode_pwm_output, set_pin, bind at 1, get at 1.
    rewrite Hold. unfold bind at 1, modify at 1. unfold bind at 1, get at 1.
    fold st1. cbn [pwm_active_count st1 set_pico_pins].
    replace (15 <=? pwm_active_count st) with true
      by (symmetry; now apply Z.leb_le).
    fold msg. unfold bind. now rewrite Hfail.
  - rewrite Hpins. apply lookup_insert_eq.
  - exact (teardown_only_pwm_active_count _ _ Hkeep).
  - intros p Hp Ho Hstop Hreset.
    rewrite (fail_with_open msg st1 p) in Hfail by assumption. congruence.
Qed.

(** Below the ceiling the reservation goes through: one frame, the pin
    marked, the counter one up. *)
Lemma pwm_output_below_ceiling st p pin :
  serial_port st = Some p -> port_open p = true ->
  is_Some (pico_pins st !! pin) ->
  is_byte (SET_PIN_MODE pc) = true -> is_byte pin = true ->
  pwm_active_count st < 15 ->
  exists st1 f,
    set_pin_mode_pwm_output pc pin st = (Ok tt, st1)
    /\ serial_port st1 = Some (port_accept f p)
    /\ pico_pins st1 = <[pin := AT_PWM_OUTPUT]> (pico_pins st)
    /\ pwm_active_count st1 = pwm_active_count st + 1.
Proof.
  intros Hp Ho [old Hold] Hset Hpin Hcount.
  set (st' := set_pwm_active_count (pwm_active_count st + 1)
                (set_pico_pins (<[pin := AT_PWM_OUTPUT]> (pico_pins st)) st)).
  destruct (set_pin_mode_open st' p pin AT_PWM_OUTPUT 0 0 None)
    as (st1 & ps & Hrun & Hport & Hpins & Hcnt & _); auto.
  { exists AT_PWM_OUTPUT. apply lookup_insert_eq. }
  { cbn; tauto. }
  exists st1. eexists. split; [|split; [exact Hport|split]].
  - unfold set_pin_mode_pwm_output, set_pin, bind at 1, get at 1.
    rewrite Hold. unfold bind at 1, modify at 1. unfold bind at 1, get at 1.
    cbn [pwm_active_count set_pico_pins].
    replace (15 <=? pwm_active_count st) with false
      by (symmetry; apply Z.leb_gt; lia).
    unfold bind at 1, ret at 1. unfold bind at 1, modify at 1.
    exact Hrun.
  - rewrite Hpins. cbn. apply insert_insert_eq.
  - rewrite Hcnt. reflexivity.
Qed.

Lemma run_pwm_below_ceiling pins :
  forall st p,
    serial_port st = Some p -> port_open p = true ->
    is_byte (SET_PIN_MODE pc) = true ->
    Forall (fun pin => is_Some (pico_pins st !! pin) /\ is_byte pin = true) pins ->
    pwm_active_count st + Z.of_nat (length pins) <= 15 ->
    exists st1 p1,
      run_all (set_pin_mode_pwm_output pc <$> pins) st
      = (replicate (length pins) (Ok tt), st1)
      /\ serial_port st1 = Some p1 /\ port_open p1 = true
      /\ pwm_active_count st1 = pwm_active_count st + Z.of_nat (length pins)
      /\ forall pin, is_Some (pico_pins st !! pin) -> is_Some (pico_pins st1 !! pin).
Proof.
  induction pins as [|pin pins IH]; intros st p Hp Ho Hset Hall Hcount.
  - exists st, p. cbn. repeat split; auto. lia.
  - apply Forall_cons in Hall as [[Hin Hb] Hall].
    cbn [length] in Hcount.
    destruct (pwm_output_below_ceiling st p pin Hp Ho Hin Hset Hb)
      as (st1 & f & Hrun & Hp1 & Hpins1 & Hcnt1); [lia|].
    assert (Hkeep : forall q, is_Some (pico_pins st !! q) ->
                              is_Some (pico_pins st1 !! q)).
    { intros q Hq. rewrite Hpins1. destruct (decide (pin = q)) as [->|Hne].
      - rewrite lookup_insert_eq. eauto.
      - now rewrite lookup_insert_ne. }
    destruct (IH st1 _ Hp1 eq_refl Hset) as (st2 & p2 & Hrun2 & Hp2 & Ho2 & Hcnt2 & Hkeep2).
    { eapply Forall_impl; [exact Hall|]. intros q [Hq Hbq]. split; auto. }
    { lia. }
    exists st2, p2. split; [|split; [exact Hp2|split; [exact Ho2|split]]].
    + cbn [fmap list_fmap run_all length replicate].
      change (list_fmap _ _ (set_pin_mode_pwm_output pc) pins)
        with (set_pin_mode_pwm_output pc <$> pins).
      rewrite Hrun, Hrun2. reflexivity.
    + rewrite Hcnt2, Hcnt1. cbn [length]. lia.
    + intros q Hq. apply Hkeep2, Hkeep, Hq.
Qed.

Lemma run_all_app calls1 calls2 st :
  run_all (calls1 ++ calls2) st
  = let '(rs1, st1) := run_all calls1 st in
    let '(rs2, st2) := run_all calls2 st1 in
    (rs1 ++ rs2, st2).
Proof.
  revert st. induction calls1 as [|call calls1 IH]; intros st; cbn [app run_all].
  - now destruct (run_all calls2 st).
  - destruct (call st) as [r st1]. rewrite IH.
    destruct (run_all calls1 st1) as [rs1 st2].
    now destruct (run_all calls2 st2).
Qed.

Lemma pwm_output_at_ceiling_open st p pin :
  serial_port st = Some p -> port_open p = true ->
  is_byte (STOP_ALL_REPORTS pc) = true -> is_byte (RESET_BOARD pc) = true ->
  is_Some (pico_pins st !! pin) ->
  15 <= pwm_active_count st ->
  exists st',
    set_pin_mode_pwm_output pc pin st = (Raise (RuntimeError ceiling_message), st')
    /\ pwm_active_count st' = pwm_active_count st.
Proof.
  intros Hp Ho Hstop Hreset [old Hold] Hcount.
  set (st1 := set_pico_pins (<[pin := AT_PWM_OUTPUT]> (pico_pins st)) st).
  pose proof (fail_with_open ceiling_message st1 p Hp Ho Hstop Hreset) as Hfail.
  eexists. split.
  - unfold set_pin_mode_pwm_output, set_pin, bind at 1, get at 1.
    rewrite Hold. unfold bind at 1, modify at 1. unfold bind at 1, get at 1.
    fold st1. cbn [pwm_active_count st1 set_pico_pins].
    replace (15 <=? pwm_active_count st) with true
      by (symmetry; now apply Z.leb_le).
    fold ceiling_message. apply bind_Raise. exact Hfail.
  - destruct (shutdown_on_exception (config st1)); [|reflexivity].
    unfold after_shutdown.
    destruct (reset_on_shutdown (config st1)), (close_loop_on_shutdown (config st1));
      reflexivity.
Qed.

(** C2: on an open port, starting with no PWM pin active, fifteen calls of
    [set_pin_mode_pwm_output] on pins of the table return and the
    sixteenth raises the [RuntimeError] of the ceiling test, the counter
    staying at 15: the ceiling the code enforces is 15, one short of the
    16 its docstring promises. *)
Theorem C2_sixteenth_pwm_reservation_fails st p pins last :
  command_bytes pc = true ->
  serial_port st = Some p -> port_open p = true ->
  pwm_active_count st = 0 ->
  length pins = 15%nat ->
  Forall (fun pin => is_Some (pico_pins st !! pin) /\ is_byte pin = true)
    (pins ++ [last]) ->
  exists st',
    run_all (set_pin_mode_pwm_output pc <$> (pins ++ [last])) st
    = (replicate 15 (Ok tt) ++ [Raise (RuntimeError ceiling_message)], st')
    /\ pwm_active_count st' = 15.
Proof.
  intros Hbytes Hp Ho Hzero Hlen Hall.
  unfold command_bytes in Hbytes. cbn [forallb] in Hbytes.
  repeat (apply andb_prop in Hbytes as [? Hbytes]).
  apply Forall_app in Hall as [Hpins Hlast].
  apply Forall_singleton in Hlast as [Hlast_in Hlast_byte].
  destruct (run_pwm_below_ceiling pins st p Hp Ho) as
    (st1 & p1 & Hrun & Hp1 & Ho1 & Hcnt & Hkeep); auto.
  { rewrite Hzero, Hlen. cbn. lia. }
  rewrite Hlen in Hrun.
  destruct (pwm_output_at_ceiling_open st1 p1 last Hp1 Ho1) as (st2 & Hrun2 & Hcnt2);
    auto.
  { rewrite Hcnt, Hzero, Hlen. cbn. lia. }
  exists st2. split.
  - rewrite fmap_app, run_all_app, Hrun. cbn [fmap list_fmap run_all].
    now rewrite Hrun2.
  - rewrite Hcnt2, Hcnt, Hzero, Hlen. reflexivity.
Qed.

(** The same on the fresh session, pins 0 to 15. *)
Example pwm_sixteen_calls_on_fresh_session :
  let calls := set_pin_mode_pwm_output sample_constants <$> py_range 0 16 1 in
  let '(results, st) := run_all calls (fresh default_config []) in
  results = replicate 15 (Ok tt) ++ [Raise (RuntimeError ceiling_message)]
  /\ pwm_active_count st = 15.
Proof. vm_compute. split; reflexivity. Qed.

(** ** Pins outside the table *)

(** For a pin that is not a key of [pico_pins], [_set_pin_mode] with a
    state other than analog raises and leaves the table as it was. *)
Lemma set_pin_mode_unknown_pin st pin m d v cb :
  pico_pins st !! pin = None -> m <> AT_ANALOG ->
  exists e st',
    _set_pin_mode pc pin m d v cb st = (Raise e, st')
    /\ pico_pins st' = pico_pins st.
Proof.
  intros Hnone Hm.
  set (msg := "Gpio Pin Number is invalid"%string).
  destruct (fail_with pc msg st) as [r st'] eqn:Hfail.
  destruct (fail_with_raises msg st) as [e He]. rewrite Hfail in He.
  cbn [fst] in He. subst r.
  pose proof (teardown_only_fail_with pc msg st) as Hkeep.
  rewrite Hfail in Hkeep. cbn [snd] in Hkeep.
  exists e, st'. split; [|exact (teardown_only_pico_pins _ _ Hkeep)].
  unfold _set_pin_mode. apply bind_Raise.
  replace (m =? AT_ANALOG) with false by (symmetry; now apply Z.eqb_neq).
  unfold bind, get. rewrite Hnone. exact Hfail.
Qed.

(** C4: [set_pin_mode_sonar] has no test of its pins against the table.
    On an open port, with room for one more sonar, it returns for a
    trigger pin that is not a key of [pico_pins], writes its command and
    adds the pin to the table. *)
Theorem C4_sonar_adds_unknown_pin st p trigger_pin echo_pin cb :
  serial_port st = Some p -> port_open p = true ->
  is_byte (SONAR_NEW pc) = true ->
  is_byte trigger_pin = true -> is_byte echo_pin = true ->
  sonar_count st < MAX_SONARS pc ->
  pico_pins st !! trigger_pin = None ->
  exists st',
    set_pin_mode_sonar pc trigger_pin echo_pin (Some cb) st = (Ok tt, st')
    /\ pico_pins st'
       = <[echo_pin := AT_SONAR]> (<[trigger_pin := AT_SONAR]> (pico_pins st))
    /\ pico_pins st' !! trigger_pin = Some AT_SONAR
    /\ pico_pins st' <> pico_pins st
    /\ sent st' = sent st ++ [[3; SONAR_NEW pc; trigger_pin; echo_pin]].
Proof.
  intros Hp Ho Hcmd Htrig Hecho Hcount Hnone.
  assert (Hlook :
    (<[echo_pin := AT_SONAR]> (<[trigger_pin := AT_SONAR]> (pico_pins st)))
      !! trigger_pin = Some AT_SONAR).
  { destruct (decide (echo_pin = trigger_pin)) as [->|Hne].
    - apply lookup_insert_eq.
    - rewrite lookup_insert_ne by exact Hne. apply lookup_insert_eq. }
  eexists. split; [|split; [|split; [|split]]].
  - unfold set_pin_mode_sonar. unfold bind at 1, get at 1.
    replace (sonar_count st <? MAX_SONARS pc) with true
      by (symmetry; now apply Z.ltb_lt).
    unfold set_pin, bind, modify. unfold _send_command.
    eapply send_command_with_open; [exact Hp | exact Ho |].
    rewrite frame_bytes; cbn [length forallb];
      [reflexivity | now rewrite Hcmd, Htrig, Hecho | lia].
  - reflexivity.
  - exact Hlook.
  - cbn. intros Heq. rewrite Heq, Hnone in Hlook. discriminate.
  - unfold sent. cbn. now rewrite Hp.
Qed.

(** [set_pin_mode_neopixel] does the same, and [set_pin_mode_pwm_output]
    leaves the table alone but raises [NameError], not the [RuntimeError]
    written below the test that fails. *)
Lemma neopixel_adds_unknown_pin st p pin_number num_pixels :
  serial_port st = Some p -> port_open p = true ->
  is_byte (INIT_NEOPIXELS pc) = true ->
  is_byte pin_number = true -> is_byte num_pixels = true ->
  pico_pins st !! pin_number = None ->
  exists st',
    set_pin_mode_neopixel pc pin_number num_pixels 0 0 0 st = (Ok tt, st')
    /\ pico_pins st' !! pin_number = Some AT_NEO_PIXEL.
Proof.
  intros Hp Ho Hcmd Hpin Hnum Hnone. eexists. split.
  - unfold set_pin_mode_neopixel.
    erewrite bind_Ok; [|reflexivity].
    erewrite bind_Ok; [|reflexivity].
    erewrite bind_Ok.
    2:{ unfold _send_command. eapply send_command_with_open; [exact Hp | exact Ho |].
        rewrite frame_bytes; cbn [length forallb];
          [reflexivity | now rewrite Hcmd, Hpin, Hnum | lia]. }
    unfold set_pin, bind, modify. reflexivity.
  - cbn. apply lookup_insert_eq.
Qed.

Lemma pwm_output_unknown_pin st pin :
  pico_pins st !! pin = None ->
  set_pin_mode_pwm_output pc pin st = (Raise NameError, st).
Proof.
  intros H. unfold set_pin_mode_pwm_output, bind, get. now rewrite H.
Qed.

(** On the fresh session GPIO 23 and 24 are not keys of the table:
    [set_pin_mode_digital_output] refuses pin 23, the other three behave
    as above. *)
Example unknown_pin_on_fresh_session :
  let st0 := fresh default_config [] in
  pico_pins st0 !! 23 = None /\ pico_pins st0 !! 24 = None
  /\ (let '(r, st) := set_pin_mode_digital_output sample_constants 23 st0 in
      r = Raise (RuntimeError "Gpio Pin Number is invalid")
      /\ pico_pins st = pico_pins st0)
  /\ (let '(r, st) := set_pin_mode_sonar sample_constants 23 24 (Some 1%nat) st0 in
      r = Ok tt /\ pico_pins st !! 23 = Some AT_SONAR
      /\ pico_pins st !! 24 = Some AT_SONAR /\ sent st = [[3; 13; 23; 24]])
  /\ (let '(r, st) := set_pin_mode_neopixel sample_constants 23 8 0 0 0 st0 in
      r = Ok tt /\ pico_pins st !! 23 = Some AT_NEO_PIXEL
      /\ sent st = [[6; 19; 23; 8; 0; 0; 0]])
  /\ (let '(r, st) := set_pin_mode_pwm_output sample_constants 23 st0 in
      r = Raise NameError /\ st = st0).
Proof. vm_compute. repeat split; reflexivity. Qed.

(** ** Assigning a mode twice *)



(** ** Data methods and the mode they need *)

Lemma fail_with_not_Ok {B} msg (k : unit -> M B) st b st1 :
  bind (fail_with pc msg) k st = (Ok b, st1) -> False.
Proof.
  unfold bind. destruct (fail_with_raises msg st) as [e He].
  destruct (fail_with pc msg st) as [[[]|e'] st']; cbn in He; discriminate.
Qed.

Lemma guard_inv {B} (c : bool) msg (k : unit -> M B) st b st1 :
  bind (if c then ret tt else fail_with pc msg) k st = (Ok b, st1) ->
  c = true /\ k tt st = (Ok b, st1).
Proof.
  destruct c; [now split|]. intros H. now apply fail_with_not_Ok in H.
Qed.

Lemma send_command_open_inv st p command st1 :
  serial_port st = Some p -> port_open p = true ->
  _send_command pc command st = (Ok tt, st1) ->
  exists f, frame command = Some f
    /\ st1 = set_serial_port (Some (port_accept f p)) st.
Proof.
  intros Hp Ho H. destruct (frame command) as [f|] eqn:Hf.
  - exists f. split; [reflexivity|].
    unfold _send_command in H.
    rewrite (send_command_with_open _ command f st p Hp Ho Hf) in H. congruence.
  - unfold _send_command, _send_command_with, bind, get in H.
    rewrite Hp, Hf in H. discriminate.
Qed.

Lemma set_pin_mode_i2c_Ok st p i2c_port sda scl st1 :
  serial_port st = Some p -> port_open p = true ->
  set_pin_mode_i2c pc i2c_port sda scl st = (Ok tt, st1) ->
  (if i2c_port =? 0 then i2c_0_active st1 else i2c_1_active st1) = true
  /\ (i2c_port = 0 \/ i2c_port = 1)
  /\ exists f, serial_port st1 = Some (port_accept f p).
Proof.
  intros Hp Ho H. unfold set_pin_mode_i2c in H.
  apply guard_inv in H as [Hport H].
  unfold bind at 1, get at 1 in H. apply guard_inv in H as [Hsda H].
  unfold bind at 1, get at 1 in H. apply guard_inv in H as [Hscl H].
  unfold bind at 1, dict_get at 1 in H.
  destruct (i2c_sda_pins st !! sda) as [o1|]; [|discriminate].
  apply guard_inv in H as [Ho1 H].
  unfold bind at 1, dict_get at 1 in H.
  destruct (i2c_scl_pins st !! scl) as [o2|]; [|discriminate].
  apply guard_inv in H as [Ho2 H].
  unfold bind, modify, set_pin in H.
  assert (Hports : i2c_port = 0 \/ i2c_port = 1).
  { apply orb_prop in Hport as [E|E]; apply Z.eqb_eq in E; auto. }
  destruct (i2c_port =? 0) eqn:E0;
    (eapply send_command_open_inv in H as (f & _ & ->); [|exact Hp|exact Ho]);
    (split; [reflexivity|split; [exact Hports|now exists f]]).
Qed.

Lemma set_pin_mode_digital_output_Ok st p pin st1 :
  serial_port st = Some p -> port_open p = true ->
  set_pin_mode_digital_output pc pin st = (Ok tt, st1) ->
  pico_pins st1 !! pin = Some AT_OUTPUT
  /\ is_byte pin = true
  /\ exists f, serial_port st1 = Some (port_accept f p).
Proof.
  intros Hp Ho H. unfold set_pin_mode_digital_output, _set_pin_mode in H.
  cbn [Z.eqb AT_INPUT AT_INPUT_PULLUP AT_INPUT_PULL_DOWN AT_OUTPUT
         AT_PWM_OUTPUT AT_SERVO AT_ANALOG Pos.eqb orb] in H.
  unfold bind at 1 2, get at 1 in H.
  destruct (pico_pins st !! pin) as [old|].
  2:{ destruct (fail_with_raises "Gpio Pin Number is invalid" st) as [e He].
      destruct (fail_with pc _ st) as [[[]|e'] st']; cbn in He; discriminate. }
  unfold set_pin, bind, modify, ret in H.
  eapply send_command_open_inv in H as (f & Hf & ->); [|exact Hp|exact Ho].
  split; [apply lookup_insert_eq|]. split; [|now exists f].
  unfold frame, bytes in Hf. destruct (forallb _ _) eqn:Hb; [|discriminate].
  cbn [forallb] in Hb. repeat (apply andb_prop in Hb as [? Hb]). assumption.
Qed.

Lemma digital_write_unset st p pin value mode :
  serial_port st = Some p -> port_open p = true ->
  is_byte (STOP_ALL_REPORTS pc) = true -> is_byte (RESET_BOARD pc) = true ->
  pico_pins st !! pin = Some mode -> mode <> AT_OUTPUT ->
  exists msg st',
    digital_write pc pin value st = (Raise (RuntimeError msg), st')
    /\ sent st' = sent st ++ frames_before_raise pc (config st).
Proof.
  intros Hp Ho Hs Hr Hmode Hne. eexists _, _. split.
  - unfold digital_write. unfold bind at 1, dict_get. rewrite Hmode.
    replace (mode =? AT_OUTPUT) with false by (symmetry; now apply Z.eqb_neq).
    apply bind_Raise. apply (fail_with_open _ st p Hp Ho Hs Hr).
  - rewrite <- (sent_fail_with "" st p Hp Ho Hs Hr).
    now rewrite !(fail_with_open _ st p Hp Ho Hs Hr).
Qed.

Lemma digital_write_output st p pin value :
  serial_port st = Some p -> port_open p = true ->
  is_byte (DIGITAL_WRITE pc) = true -> is_byte pin = true -> is_byte value = true ->
  pico_pins st !! pin = Some AT_OUTPUT ->
  exists st',
    digital_write pc pin value st = (Ok tt, st')
    /\ sent st' = sent st ++ [[3; DIGITAL_WRITE pc; pin; value]].
Proof.
  intros Hp Ho Hdw Hpin Hv Hmode. eexists. split.
  - unfold digital_write. unfold bind at 1, dict_get. rewrite Hmode.
    cbn [Z.eqb AT_OUTPUT Pos.eqb]. unfold bind at 1, ret.
    unfold _send_command. eapply send_command_with_open; [exact Hp|exact Ho|].
    rewrite frame_bytes; cbn [length forallb]; [reflexivity| now rewrite Hdw, Hpin, Hv | lia].
  - unfold sent. cbn. now rewrite Hp.
Qed.

Lemma i2c_write_inactive st p address args i2c_port no_stop :
  serial_port st = Some p -> port_open p = true ->
  is_byte (STOP_ALL_REPORTS pc) = true -> is_byte (RESET_BOARD pc) = true ->
  (if i2c_port =? 0 then i2c_0_active st else i2c_1_active st) = false ->
  exists msg st',
    i2c_write pc address args i2c_port no_stop st = (Raise (RuntimeError msg), st')
    /\ sent st' = sent st ++ frames_before_raise pc (config st).
Proof.
  intros Hp Ho Hs Hr Hin.
  destruct (i2c_port =? 0) eqn:E; eexists _, _; (split;
    [ unfold i2c_write; rewrite E; unfold bind at 1 2, get at 1; rewrite Hin;
      apply bind_Raise; apply (fail_with_open _ st p Hp Ho Hs Hr)
    | rewrite <- (sent_fail_with "" st p Hp Ho Hs Hr);
      now rewrite !(fail_with_open _ st p Hp Ho Hs Hr) ]).
Qed.

Lemma i2c_write_active st p address args i2c_port no_stop :
  serial_port st = Some p -> port_open p = true ->
  is_byte (I2C_WRITE pc) = true ->
  (if i2c_port =? 0 then i2c_0_active st else i2c_1_active st) = true ->
  is_byte i2c_port = true -> is_byte address = true ->
  forallb is_byte args = true -> (length args <= 250)%nat ->
  exists st',
    i2c_write pc address args i2c_port no_stop st = (Ok tt, st')
    /\ sent st'
       = sent st
         ++ [Z.of_nat (5 + length args) :: I2C_WRITE pc :: i2c_port :: address
               :: Z.of_nat (length args) :: Z.b2z no_stop :: args].
Proof.
  intros Hp Ho Hw Hact Hport Haddr Hargs Hlen. eexists. split.
  - unfold i2c_write.
    assert (Hguard : forall msg0 msg1,
      (if i2c_port =? 0
       then bind (get i2c_0_active) (fun active =>
              if active then ret tt else fail_with pc msg0)
       else bind (get i2c_1_active) (fun active =>
              if active then ret tt else fail_with pc msg1)) st = (Ok tt, st)).
    { intros. destruct (i2c_port =? 0); unfold bind, get; now rewrite Hact. }
    erewrite bind_Ok; [|apply Hguard].
    unfold _send_command. eapply send_command_with_open; [exact Hp|exact Ho|].
    rewrite frame_bytes.
    + reflexivity.
    + cbn [app forallb]. rewrite Hw, Hport, Haddr, Hargs.
      replace (is_byte (Z.of_nat (length args))) with true
        by (symmetry; unfold is_byte; apply andb_true_iff; split; apply Z.leb_le; lia).
      now destruct no_stop.
    + cbn [length app]. lia.
  - unfold sent. cbn. rewrite Hp. cbn. reflexivity.
Qed.

Lemma i2c_read_port0_inactive st p address register n cb no_stop :
  serial_port st = Some p -> port_open p = true ->
  is_byte (STOP_ALL_REPORTS pc) = true -> is_byte (RESET_BOARD pc) = true ->
  i2c_0_active st = false ->
  exists msg st',
    i2c_read pc address register n (Some cb) 0 no_stop st
    = (Raise (RuntimeError msg), st')
    /\ sent st' = sent st ++ frames_before_raise pc (config st).
Proof.
  intros Hp Ho Hs Hr Hin. eexists _, _. split.
  - unfold i2c_read. unfold bind at 1, ret at 1. cbn [Z.eqb].
    unfold bind at 1 2, get at 1. rewrite Hin.
    apply bind_Raise. apply (fail_with_open _ st p Hp Ho Hs Hr).
  - rewrite <- (sent_fail_with "" st p Hp Ho Hs Hr).
    now rewrite !(fail_with_open _ st p Hp Ho Hs Hr).
Qed.

Lemma is_byte_register_byte register :
  is_byte (I2C_NO_REGISTER pc) = true ->
  match register with Some r => is_byte r | None => true end = true ->
  is_byte (register_byte pc register) = true.
Proof.
  intros Hnr Hreg. unfold register_byte.
  destruct register as [r|]; [destruct (r =? 0)|]; assumption.
Qed.

Lemma i2c_read_port0_active st p address register n cb no_stop :
  serial_port st = Some p -> port_open p = true ->
  is_byte (I2C_READ pc) = true -> is_byte (I2C_NO_REGISTER pc) = true ->
  i2c_0_active st = true ->
  is_byte address = true -> is_byte n = true ->
  match register with Some r => is_byte r | None => true end = true ->
  exists st',
    i2c_read pc address register n (Some cb) 0 no_stop st = (Ok tt, st')
    /\ sent st'
       = sent st
         ++ [[6; I2C_READ pc; 0; address; register_byte pc register; n;
              Z.b2z no_stop]]
    /\ i2c_callback st' = Some cb.
Proof.
  intros Hp Ho Hrd Hnr Hact Haddr Hn Hreg.
  pose proof (is_byte_register_byte register Hnr Hreg) as Hrb.
  eexists. split; [|split].
  - unfold i2c_read. unfold bind at 1, ret at 1. cbn [Z.eqb].
    unfold bind at 1 2, get at 1. rewrite Hact. unfold modify.
    fold (register_byte pc register).
    unfold _send_command. eapply send_command_with_open; [exact Hp|exact Ho|].
    rewrite frame_bytes; [reflexivity| |cbn; lia].
    cbn [forallb]. rewrite Hrd, Haddr, Hn, Hrb. now destruct no_stop.
  - unfold sent. cbn. rewrite Hp. reflexivity.
  - reflexivity.
Qed.

(** Port 1 of [i2c_read] is not guarded: the test sits under
    [if not i2c_port == 1], so whether or not the port is active the call
    returns, writes its frame and registers no callback. *)
Lemma i2c_read_port1_unguarded st p address register n cb no_stop :
  serial_port st = Some p -> port_open p = true ->
  is_byte (I2C_READ pc) = true -> is_byte (I2C_NO_REGISTER pc) = true ->
  is_byte address = true -> is_byte n = true ->
  match register with Some r => is_byte r | None => true end = true ->
  exists st',
    i2c_read pc address register n (Some cb) 1 no_stop st = (Ok tt, st')
    /\ sent st'
       = sent st
         ++ [[6; I2C_READ pc; 1; address; register_byte pc register; n;
              Z.b2z no_stop]]
    /\ i2c_1_active st' = i2c_1_active st
    /\ i2c_callback2 st' = i2c_callback2 st.
Proof.
  intros Hp Ho Hrd Hnr Haddr Hn Hreg.
  pose proof (is_byte_register_byte register Hnr Hreg) as Hrb.
  eexists. split; [|split; [|split]].
  - unfold i2c_read. unfold bind at 1, ret at 1. cbn [Z.eqb negb].
    unfold bind at 1, ret at 1.
    fold (register_byte pc register).
    unfold _send_command. eapply send_command_with_open; [exact Hp|exact Ho|].
    rewrite frame_bytes; [reflexivity| |cbn; lia].
    cbn [forallb]. rewrite Hrd, Haddr, Hn, Hrb. now destruct no_stop.
  - unfold sent. cbn. rewrite Hp. reflexivity.
  - reflexivity.
  - reflexivity.
Qed.

(** C1: what the data methods test.  On an open port, with byte-sized
    command identifiers:
    - [digital_write] on a pin of the table whose mode is not digital
      output, [i2c_write] on a port that is not active and [i2c_read] on
      port 0 while it is not active raise a [RuntimeError]; their own
      command is not written, the frames written on the way are those of
      the shutdown sequence when [shutdown_on_exception] is set and none
      otherwise;
    - after [set_pin_mode_digital_output] returned, [digital_write] with a
      byte value returns and writes the one frame [3, DIGITAL_WRITE, pin,
      value]; after [set_pin_mode_i2c] returned, [i2c_write] on that port
      and [i2c_read] on port 0 return and write their one frame, the
      length byte first, [i2c_read] with [I2C_NO_REGISTER] for the
      register when none or register 0 is given;
    - [i2c_read] on port 1 makes no test: whether or not
      [set_pin_mode_i2c] was called for port 1, it returns and writes its
      [I2C_READ] frame, and it neither activates the port nor stores the
      callback. *)
Theorem C1_i2c_read_port1_is_not_guarded st p :
  command_bytes pc = true ->
  serial_port st = Some p -> port_open p = true ->
  (forall pin value mode,
      pico_pins st !! pin = Some mode -> mode <> AT_OUTPUT ->
      exists msg st',
        digital_write pc pin value st = (Raise (RuntimeError msg), st')
        /\ sent st' = sent st ++ frames_before_raise pc (config st))
  /\ (forall address args i2c_port no_stop,
      (if i2c_port =? 0 then i2c_0_active st else i2c_1_active st) = false ->
      exists msg st',
        i2c_write pc address args i2c_port no_stop st
        = (Raise (RuntimeError msg), st')
        /\ sent st' = sent st ++ frames_before_raise pc (config st))
  /\ (forall address register n cb no_stop,
      i2c_0_active st = false ->
      exists msg st',
        i2c_read pc address register n (Some cb) 0 no_stop st
        = (Raise (RuntimeError msg), st')
        /\ sent st' = sent st ++ frames_before_raise pc (config st))
  /\ (forall pin value st1,
      set_pin_mode_digital_output pc pin st = (Ok tt, st1) ->
      is_byte value = true ->
      exists st2,
        digital_write pc pin value st1 = (Ok tt, st2)
        /\ sent st2 = sent st1 ++ [[3; DIGITAL_WRITE pc; pin; value]])
  /\ (forall i2c_port sda scl st1 address args no_stop,
      set_pin_mode_i2c pc i2c_port sda scl st = (Ok tt, st1) ->
      is_byte address = true -> forallb is_byte args = true ->
      (length args <= 250)%nat ->
      exists st2,
        i2c_write pc address args i2c_port no_stop st1 = (Ok tt, st2)
        /\ sent st2
           = sent st1
             ++ [Z.of_nat (5 + length args) :: I2C_WRITE pc :: i2c_port
                   :: address :: Z.of_nat (length args) :: Z.b2z no_stop
                   :: args])
  /\ (forall sda scl st1 address register n cb no_stop,
      set_pin_mode_i2c pc 0 sda scl st = (Ok tt, st1) ->
      is_byte address = true -> is_byte n = true ->
      match register with Some r => is_byte r | None => true end = true ->
      exists st2,
        i2c_read pc address register n (Some cb) 0 no_stop st1 = (Ok tt, st2)
        /\ sent st2
           = sent st1
             ++ [[6; I2C_READ pc; 0; address; register_byte pc register; n;
                  Z.b2z no_stop]])
  /\ (forall address register n cb no_stop,
      is_byte address = true -> is_byte n = true ->
      match register with Some r => is_byte r | None => true end = true ->
      exists st',
        i2c_read pc address register n (Some cb) 1 no_stop st = (Ok tt, st')
        /\ sent st'
           = sent st
             ++ [[6; I2C_READ pc; 1; address; register_byte pc register; n;
                  Z.b2z no_stop]]
        /\ i2c_1_active st' = i2c_1_active st
        /\ i2c_callback2 st' = i2c_callback2 st).
Proof.
  intros Hbytes Hp Ho.
  unfold command_bytes in Hbytes. cbn [forallb] in Hbytes.
  repeat (apply andb_prop in Hbytes as [? Hbytes]).
  split; [|split; [|split; [|split; [|split; [|split]]]]].
  - intros. now apply (digital_write_unset st p pin value mode).
  - intros. now apply (i2c_write_inactive st p).
  - intros. now apply (i2c_read_port0_inactive st p).
  - intros pin value st1 Hset Hv.
    destruct (set_pin_mode_digital_output_Ok st p pin st1 Hp Ho Hset)
      as (Hmode & Hpin & f & Hp1).
    now apply (digital_write_output st1 _ pin value Hp1).
  - intros i2c_port sda scl st1 address args no_stop Hset Ha Hargs Hlen.
    destruct (set_pin_mode_i2c_Ok st p i2c_port sda scl st1 Hp Ho Hset)
      as (Hact & Hports & f & Hp1).
    apply (i2c_write_active st1 _ address args i2c_port no_stop Hp1);
      auto; now destruct Hports as [-> | ->].
  - intros sda scl st1 address register n cb no_stop Hset Ha Hn Hreg.
    destruct (set_pin_mode_i2c_Ok st p 0 sda scl st1 Hp Ho Hset)
      as (Hact & Hports & f & Hp1).
    destruct (i2c_read_port0_active st1 _ address register n cb no_stop Hp1)
      as (st2 & Hrun & Hsent & _); auto.
    now exists st2.
  - intros address register n cb no_stop Ha Hn Hreg.
    now apply (i2c_read_port1_unguarded st p).
Qed.

(** ** Framing *)

Lemma unframe_app (packet rest : list Z) :
  unframe (Z.of_nat (length packet) :: packet ++ rest) = Some (packet, rest).
Proof.
  unfold unframe. rewrite Nat2Z.id.
  replace (Nat.leb (length packet) (length (packet ++ rest))) with true.
  - now rewrite take_app_length, drop_app_length.
  - symmetry. apply Nat.leb_le. rewrite length_app. lia.
Qed.

(** The two reads of the dispatcher on a stream that starts with a whole
    frame: the length byte, then the packet. *)
Lemma port_read_packet p report data rest :
  port_rx p = Z.of_nat (S (length data)) :: report :: data ++ rest ->
  port_read 1 p = Some ([Z.of_nat (S (length data))], port_consume 1 p)
  /\ port_read (S (length data)) (port_consume 1 p)
     = Some (report :: data, port_consume (S (S (length data))) p).
Proof.
  intros Hrx. unfold port_read, port_consume. cbn [port_rx port_open port_tx
    port_calls port_write_closed port_read_fault]. rewrite Hrx.
  cbn [length Nat.leb take drop]. split; [reflexivity|].
  replace (Nat.leb (length data) (length (data ++ rest))) with true
    by (symmetry; apply Nat.leb_le; rewrite length_app; lia).
  now rewrite take_app_length.
Qed.

(** The dispatcher's pass on a stream that starts with a whole frame. *)
Lemma dispatcher_pass_frame st p report data rest :
  shutdown_flag st = false -> serial_port st = Some p ->
  port_read_fault p = None ->
  port_rx p = Z.of_nat (S (length data)) :: report :: data ++ rest ->
  dispatcher_pass pc st
  = let st1 := set_serial_port (Some (port_consume (S (S (length data))) p)) st in
    match report_dispatch pc !! report with
    | None => Passed (Raise KeyError) st1
    | Some h =>
        match run_handler pc h data st1 with
        | (Ok _, st2) => Passed (Ok Continue) st2
        | (Raise e, st2) => Passed (Raise e) st2
        end
    end.
Proof.
  intros Hflag Hp Hfault Hrx. unfold dispatcher_pass.
  rewrite Hflag, Hp, Hfault.
  destruct (port_read_packet p report data rest Hrx) as [Hlength Hpacket].
  rewrite Hlength. cbn [hd]. rewrite Nat2Z.id, Hpacket. reflexivity.
Qed.

(** C3: for a byte [id] and a list [payload] of bytes, when [payload] has
    at most 254 items [_send_command] frames [id :: payload] as the length
    byte [1 + len(payload)], then [id], then [payload], writes exactly
    that on an open port, and the dispatcher reading it back takes [id] as
    the report and hands [payload] to its handler; when [payload] has 255
    items the framing fails and [_send_command] raises without writing. *)
Theorem C3_frame_roundtrip id payload :
  is_byte id = true -> forallb is_byte payload = true ->
  ((length payload <= 254)%nat ->
     let f := Z.of_nat (1 + length payload) :: id :: payload in
     frame (id :: payload) = Some f
     /\ unframe f = Some (id :: payload, [])
     /\ (forall st p, serial_port st = Some p -> port_open p = true ->
           exists st', _send_command pc (id :: payload) st = (Ok tt, st')
             /\ sent st' = sent st ++ [f])
     /\ (forall st p rest h,
           shutdown_flag st = false -> serial_port st = Some p ->
           port_read_fault p = None -> port_rx p = f ++ rest ->
           report_dispatch pc !! id = Some h ->
           dispatcher_pass pc st
           = match run_handler pc h payload
                     (set_serial_port
                        (Some (port_consume (length f) p)) st) with
             | (Ok _, st2) => Passed (Ok Continue) st2
             | (Raise e, st2) => Passed (Raise e) st2
             end))
  /\ (length payload = 255%nat ->
      frame (id :: payload) = None
      /\ (forall st p, serial_port st = Some p ->
            _send_command pc (id :: payload) st = (Raise UnboundLocalError, st))
      /\ (forall st, exists e st',
            _send_command pc (id :: payload) st = (Raise e, st'))).
Proof.
  intros Hid Hpay. split.
  - intros Hlen f.
    assert (Hf : frame (id :: payload) = Some f).
    { rewrite frame_bytes; [reflexivity| cbn [forallb]; now rewrite Hid | cbn; lia]. }
    split; [exact Hf|]. split; [|split].
    + pose proof (unframe_app (id :: payload) []) as Hu.
      rewrite app_nil_r in Hu. exact Hu.
    + intros st p Hp Ho. eexists. split.
      * unfold _send_command. now apply (send_command_with_open _ _ f st p).
      * unfold sent. cbn. now rewrite Hp.
    + intros st p rest h Hflag Hp Hfault Hrx Hh.
      rewrite (dispatcher_pass_frame st p id payload rest Hflag Hp Hfault Hrx).
      cbn zeta. now rewrite Hh.
  - intros Hlen.
    assert (Hf : frame (id :: payload) = None).
    { unfold frame, bytes. cbn [length forallb]. now rewrite Hlen. }
    assert (Hsome : forall st p, serial_port st = Some p ->
              _send_command pc (id :: payload) st = (Raise UnboundLocalError, st)).
    { intros st p Hp.
      unfold _send_command, _send_command_with, bind, get. now rewrite Hp, Hf. }
    split; [exact Hf|]. split; [exact Hsome|]. intros st.
    destruct (serial_port st) as [p|] eqn:Hp; [eauto|].
    unfold _send_command, _send_command_with. unfold bind at 1, get at 1.
    rewrite Hp. destruct (fail_with_raises "Is your USB cable plugged in?" st)
      as [e He].
    unfold fail_with in He.
    destruct (bind _ _ st) as [r st'] eqn:E. cbn [fst] in He. subst r. eauto.
Qed.

(** ** The dispatcher *)

(** C7, as amended: when the frame the dispatcher reads carries a report
    identifier that is not a key of [report_dispatch], the lookup raises
    [KeyError] and the exception leaves the coroutine.  [shutdown] is not
    called: the flag stays unset, no call is made on the transport and it
    is as open as it was. *)
Theorem C7_unknown_report_id_crashes_dispatcher st p report data rest fuel :
  shutdown_flag st = false -> serial_port st = Some p ->
  port_read_fault p = None ->
  port_rx p = Z.of_nat (S (length data)) :: report :: data ++ rest ->
  report_dispatch pc !! report = None ->
  exists st',
    _pico_report_dispatcher pc (S fuel) st = Crashed KeyError st'
    /\ shutdown_flag st' = false
    /\ transport_open st' = port_open p
    /\ transport_calls st' = port_calls p
    /\ sent st' = port_tx p
    /\ teardown_only st st'.
Proof.
  intros Hflag Hp Hfault Hrx Hnone. eexists. split.
  - cbn [_pico_report_dispatcher].
    rewrite (dispatcher_pass_frame st p report data rest Hflag Hp Hfault Hrx).
    cbn zeta. rewrite Hnone. reflexivity.
  - cbn. repeat split; auto.
Qed.

Lemma digital_message_unbound st pin value more :
  digital_callbacks st !! pin = None ->
  _digital_message pc (pin :: value :: more) st = (Raise KeyError, st).
Proof.
  intros H. unfold _digital_message.
  change (py_index (pin :: value :: more) 0) with (Some pin).
  change (py_index (pin :: value :: more) 1) with (Some value).
  unfold bind, dict_get. now rewrite H.
Qed.

Lemma analog_message_unbound st pin hi lo more :
  analog_callbacks st !! pin = None ->
  _analog_message pc (pin :: hi :: lo :: more) st = (Raise KeyError, st).
Proof.
  intros H. unfold _analog_message, list_get.
  change (py_index (pin :: hi :: lo :: more) 0) with (Some pin).
  change (py_index (pin :: hi :: lo :: more) 1) with (Some hi).
  change (py_index (pin :: hi :: lo :: more) 2) with (Some lo).
  unfold bind, ret, dict_get. now rewrite H.
Qed.

Lemma sonar_distance_report_unbound st pin whole hundredths more :
  sonar_callbacks st !! pin = None ->
  _sonar_distance_report pc (pin :: whole :: hundredths :: more) st
  = (Raise KeyError, st).
Proof.
  intros H. unfold _sonar_distance_report, list_get.
  change (py_index (pin :: whole :: hundredths :: more) 0) with (Some pin).
  unfold bind, ret, dict_get. now rewrite H.
Qed.

(** The valid-data branch of [_dht_report] catches the [KeyError]: there
    the report is dropped. *)
Lemma dht_report_unbound_dropped st pin b2 b3 b4 b5 b6 b7 more :
  dht_callbacks st !! pin = None ->
  _dht_report pc (0 :: pin :: b2 :: b3 :: b4 :: b5 :: b6 :: b7 :: more) st
  = (Ok tt, st).
Proof.
  intros H. unfold _dht_report, list_get.
  set (report := 0 :: pin :: b2 :: b3 :: b4 :: b5 :: b6 :: b7 :: more).
  change (py_index report 0) with (Some 0).
  change (py_index report 1) with (Some pin).
  change (py_index report 2) with (Some b2).
  change (py_index report 3) with (Some b3).
  change (py_index report 4) with (Some b4).
  change (py_index report 5) with (Some b5).
  change (py_index report 6) with (Some b6).
  change (py_index report 7) with (Some b7).
  unfold bind, ret, dict_get, try_except. cbn [Z.eqb negb].
  now rewrite H.
Qed.

(** C8: a digital report for a pin that has no entry in
    [digital_callbacks] is not dropped: [_digital_message] raises
    [KeyError] and the exception leaves the dispatcher. *)
Theorem C8_missing_digital_callback_crashes_dispatcher st p pin value rest fuel :
  shutdown_flag st = false -> serial_port st = Some p ->
  port_read_fault p = None ->
  port_rx p = 3 :: DIGITAL_REPORT pc :: pin :: value :: rest ->
  report_dispatch pc !! DIGITAL_REPORT pc = Some H_digital_message ->
  digital_callbacks st !! pin = None ->
  exists st',
    _pico_report_dispatcher pc (S fuel) st = Crashed KeyError st'
    /\ delivered st' = delivered st.
Proof.
  intros Hflag Hp Hfault Hrx Hh Hnone. eexists. split.
  - cbn [_pico_report_dispatcher].
    rewrite (dispatcher_pass_frame st p (DIGITAL_REPORT pc) [pin; value] rest
               Hflag Hp Hfault Hrx).
    cbn zeta. rewrite Hh. cbn [run_handler].
    rewrite digital_message_unbound by exact Hnone. reflexivity.
  - reflexivity.
Qed.

(** ** [servo_write] *)

Lemma teardown_only_send_command command :
  respects teardown_only (_send_command pc command).
Proof.
  unfold _send_command.
  apply (respects_send_command_with teardown_only teardown_only_refl
           teardown_only_trans teardown_only_write).
  apply teardown_only_shutdown.
Qed.

Section ServoWrite.

(** The duty-cycle arithmetic of [servo_write]. *)
Variable ss : Z -> Z -> result Z.

Lemma servo_write_TypeError st pin value lo hi min_duty max_duty scaled :
  pico_pins st !! pin = Some AT_SERVO ->
  servo_ranges st !! pin = Some [lo; hi] ->
  py_index [lo; hi] (MIN_SERVO_DUTY_CYCLE pc) = Some min_duty ->
  py_index [lo; hi] (MAX_SERVO_DUTY_CYCLE pc) = Some max_duty ->
  ss value (max_duty - min_duty) = Ok scaled ->
  servo_write pc ss pin value st = (Raise TypeError, st).
Proof.
  intros Hmode Hrange Hmin Hmax Hscale.
  unfold servo_write, bind, dict_get, list_get, ret.
  rewrite Hmode. cbn [Z.eqb AT_SERVO Pos.eqb].
  rewrite Hrange, Hmin. cbn beta iota. rewrite Hrange, Hmax. cbn beta iota.
  rewrite Hscale. reflexivity.
Qed.

Lemma set_pin_mode_servo_Ok st0 pin lo hi st :
  set_pin_mode_servo pc pin lo hi st0 = (Ok tt, st) ->
  pico_pins st !! pin = Some AT_SERVO
  /\ servo_ranges st !! pin = Some [lo; hi].
Proof.
  intros H. unfold set_pin_mode_servo in H.
  unfold bind at 1 in H.
  destruct (_set_pin_mode pc pin AT_SERVO lo hi None st0) as [[[]|e] st1] eqn:E;
    [|discriminate].
  unfold set_pin, modify in H. injection H as <-.
  split; [apply lookup_insert_eq|]. 
  unfold _set_pin_mode in E.
  cbn [Z.eqb AT_INPUT AT_INPUT_PULLUP AT_INPUT_PULL_DOWN AT_OUTPUT
         AT_PWM_OUTPUT AT_SERVO AT_ANALOG Pos.eqb orb] in E.
  unfold bind at 1 2, get at 1 in E.
  destruct (pico_pins st0 !! pin) as [old|].
  2:{ destruct (fail_with_raises "Gpio Pin Number is invalid" st0) as [e He].
      destruct (fail_with pc _ st0) as [[[]|e'] st']; cbn in He; discriminate. }
  unfold set_pin, bind, modify, ret in E.
  match type of E with _send_command pc ?c ?s = _ =>
    pose proof (teardown_only_send_command c s) as Hkeep end.
  rewrite E in Hkeep. cbn [snd] in Hkeep.
  cbn [servo_ranges set_pico_pins].
  rewrite (f_equal servo_ranges Hkeep : servo_ranges st1 = _).
  cbn. apply lookup_insert_eq.
Qed.

(** C9: after [set_pin_mode_servo] returned for a pin, [servo_write] on
    that pin raises [TypeError], the one of the call to [pwm_write] with
    three positional arguments, and leaves the session as it was, so
    nothing is written.  The duty-cycle arithmetic before the call is
    taken to return. *)
Theorem C9_servo_write_raises_TypeError st0 st pin lo hi value min_duty max_duty scaled :
  set_pin_mode_servo pc pin lo hi st0 = (Ok tt, st) ->
  py_index [lo; hi] (MIN_SERVO_DUTY_CYCLE pc) = Some min_duty ->
  py_index [lo; hi] (MAX_SERVO_DUTY_CYCLE pc) = Some max_duty ->
  ss value (max_duty - min_duty) = Ok scaled ->
  servo_write pc ss pin value st = (Raise TypeError, st).
Proof.
  intros Hset Hmin Hmax Hscale.
  destruct (set_pin_mode_servo_Ok st0 pin lo hi st Hset) as [Hmode Hrange].
  exact (servo_write_TypeError st pin value lo hi min_duty max_duty scaled
           Hmode Hrange Hmin Hmax Hscale).
Qed.

End ServoWrite.

(** ** Calling [shutdown] twice *)

Lemma stays_closed_shutdown_at budget :
  respects stays_closed (shutdown_at pc budget).
Proof.
  exact (respects_shutdown_at pc stays_closed stays_closed_refl
           stays_closed_trans stays_closed_flag stays_closed_loop
           stays_closed_write stays_closed_close budget).
Qed.

Lemma send_command_closed sd command f st p :
  respects stays_closed sd ->
  serial_port st = Some p -> port_open p = false ->
  frame command = Some f ->
  stays_closed (set_serial_port (Some (port_refuse f p)) st)
    (snd (_send_command_with sd command st)).
Proof.
  intros Hsd Hp Ho Hf.
  unfold _send_command_with, bind, get, try_except, serial_write, port_write.
  rewrite Hp, Hf, Hp, Ho.
  destruct (port_write_closed p) as [[]|e]; cbn [snd]; [apply stays_closed_refl|].
  destruct (is_AttributeError e); cbn [snd]; [|apply stays_closed_refl].
  pose proof (respects_shutdown_if stays_closed stays_closed_refl
                stays_closed_trans sd Hsd
                (set_serial_port (Some (port_refuse f p)) st)) as H.
  destruct (shutdown_if_configured sd _) as [[[]|e'] st']; exact H.
Qed.

Lemma shutdown_body_closed nested st p :
  respects stays_closed nested ->
  serial_port st = Some p -> port_open p = false ->
  is_byte (STOP_ALL_REPORTS pc) = true ->
  stays_closed
    (set_serial_port (Some (port_refuse [1; STOP_ALL_REPORTS pc] p))
       (set_shutdown_flag true st))
    (snd (shutdown_body pc nested st)).
Proof.
  intros Hn Hp Ho Hstop. unfold shutdown_body.
  unfold bind at 1, modify at 1. unfold try_except.
  pose proof (send_command_closed nested [STOP_ALL_REPORTS pc] _
                (set_shutdown_flag true st) p Hn Hp Ho (frame_single _ Hstop))
    as Hfirst.
  unfold bind at 1.
  destruct (_send_command_with nested [STOP_ALL_REPORTS pc] (set_shutdown_flag true st))
    as [[[]|e] sta]; cbn [snd] in Hfirst.
  - eapply stays_closed_trans; [exact Hfirst|].
    pose proof (respects_shutdown_rest pc stays_closed stays_closed_refl
                stays_closed_trans stays_closed_loop stays_closed_write
                stays_closed_close nested Hn sta) as Hrest.
    match goal with |- context [snd (match ?m with _ => _ end)] =>
      destruct m as [[[]|e] stb] eqn:E end; cbn [snd] in *.
    + exact Hrest.
    + destruct (_ || _); exact Hrest.
  - destruct (_ || _); exact Hfirst.
Qed.

Lemma after_shutdown_closed st p :
  exists p1,
    serial_port (after_shutdown pc st p) = Some p1
    /\ port_open p1 = false
    /\ shutdown_flag (after_shutdown pc st p) = true.
Proof.
  unfold after_shutdown.
  destruct (reset_on_shutdown (config st)), (close_loop_on_shutdown (config st));
    eexists; repeat split.
Qed.

(** C6, as amended: [shutdown] does not look at [shutdown_flag].  Called
    on an open port it returns with the flag set and the port closed;
    called again it runs the same sequence, so its first step is one more
    [write] call, of the STOP_ALL_REPORTS frame, on the closed port.  The
    second call leaves the flag set, the port closed, the frames the port
    accepted and every field [shutdown] does not own as they were. *)
Theorem C6_second_shutdown_writes_again st p :
  serial_port st = Some p -> port_open p = true ->
  is_byte (STOP_ALL_REPORTS pc) = true -> is_byte (RESET_BOARD pc) = true ->
  exists st1,
    shutdown pc st = (Ok tt, st1)
    /\ shutdown_flag st1 = true
    /\ transport_open st1 = false
    /\ (let st2 := snd (shutdown pc st1) in
        shutdown_flag st2 = true
        /\ transport_open st2 = false
        /\ sent st2 = sent st1
        /\ teardown_only st1 st2
        /\ (transport_calls st1 ++ [PWrite [1; STOP_ALL_REPORTS pc]])
             `prefix_of` transport_calls st2).
Proof.
  intros Hp Ho Hstop Hreset.
  exists (after_shutdown pc st p).
  destruct (after_shutdown_closed st p) as (p1 & Hp1 & Ho1 & Hflag1).
  set (st1 := after_shutdown pc st p) in *.
  split; [now apply shutdown_open|]. split; [exact Hflag1|].
  split; [unfold transport_open; now rewrite Hp1|].
  cbn zeta.
  assert (Hclosed :
    stays_closed
      (set_serial_port (Some (port_refuse [1; STOP_ALL_REPORTS pc] p1))
         (set_shutdown_flag true st1))
      (snd (shutdown pc st1))).
  { unfold shutdown. destruct (recursion_budget (config st1)) as [|b];
      cbn [shutdown_at]; apply shutdown_body_closed; auto.
    - apply (respects_raise stays_closed stays_closed_refl).
    - apply stays_closed_shutdown_at. }
  destruct Hclosed as [Hflag Hport].
  destruct (Hport _ eq_refl eq_refl) as (p2 & Hp2 & Ho2 & Htx & _ & _ & Hcalls).
  split; [now apply Hflag|].
  unfold transport_open, sent, transport_calls. rewrite Hp2, Hp1.
  repeat split; auto.
  apply teardown_only_shutdown.
Qed.

End Properties.

(** * More of the engine *)

(** ** The tables [__init__] builds *)

Lemma elem_of_py_range k start stop step :
  0 < step ->
  k ∈ py_range start stop step
  <-> start <= k < stop /\ (k - start) mod step = 0.
Proof.
  intros Hstep. unfold py_range. rewrite list_elem_of_fmap. split.
  - intros (i & -> & Hi). apply elem_of_seq in Hi as [_ Hi]. cbn in Hi.
    assert (Hlt : Z.of_nat i < (stop - start + step - 1) / step)
      by (destruct (Z_lt_le_dec 0 ((stop - start + step - 1) / step)); lia).
    split.
    + assert (step * (Z.of_nat i + 1) <= stop - start + step - 1).
      { etransitivity; [|apply (Z.mul_div_le _ step); lia].
        apply Z.mul_le_mono_nonneg_l; lia. }
      nia.
    + replace (start + step * Z.of_nat i - start) with (Z.of_nat i * step) by lia.
      apply Z_mod_mult.
  - intros [[Hlo Hhi] Hmod].
    exists (Z.to_nat ((k - start) / step)).
    assert (Hq : 0 <= (k - start) / step) by (apply Z.div_pos; lia).
    assert (Heq : k - start = step * ((k - start) / step))
      by (rewrite (Z_div_mod_eq_full (k - start) step) at 1; lia).
    split; [rewrite Z2Nat.id by lia; lia|].
    apply elem_of_seq. split; [lia|]. cbn.
    apply Nat2Z.inj_lt. rewrite Z2Nat.id by lia.
    assert (Hc : (k - start) / step + 1 <= (stop - start + step - 1) / step)
      by (apply Z.div_le_lower_bound; lia).
    lia.
Qed.

Lemma lookup_dict_of_keys {V} (keys : list Z) (value : V) k :
  dict_of_keys keys value !! k
  = if bool_decide (k ∈ keys) then Some value else None.
Proof.
  unfold dict_of_keys. induction keys as [|key keys IH].
  - rewrite fmap_nil, list_to_map_nil, lookup_empty.
    now rewrite bool_decide_eq_false_2 by apply not_elem_of_nil.
  - rewrite fmap_cons, list_to_map_cons, lookup_insert.
    destruct (decide (key = k)) as [->|Hne].
    + rewrite bool_decide_eq_true_2 by (left). reflexivity.
    + rewrite IH. apply option_eq. intros v.
      destruct (bool_decide (k ∈ keys)) eqn:E.
      * apply bool_decide_eq_true_1 in E.
        rewrite bool_decide_eq_true_2 by now right. reflexivity.
      * apply bool_decide_eq_false_1 in E.
        rewrite bool_decide_eq_false_2; [reflexivity|].
        intros [->|H]%elem_of_cons; congruence.
Qed.

(** ** The shutdown flag is never cleared *)

Lemma flag_kept_refl st : flag_kept st st.
Proof. intros H; exact H. Qed.

Lemma flag_kept_trans a b c : flag_kept a b -> flag_kept b c -> flag_kept a c.
Proof. unfold flag_kept. auto. Qed.

Lemma flag_kept_write data : respects flag_kept (serial_write data).
Proof.
  intros st. unfold serial_write, flag_kept.
  destruct (serial_port st) as [p|]; [|auto]. destruct (port_write data p). auto.
Qed.

Lemma flag_kept_close : respects flag_kept serial_close.
Proof.
  intros st. unfold serial_close, flag_kept. destruct (serial_port st); auto.
Qed.

Lemma flag_kept_flag st : flag_kept st (set_shutdown_flag true st).
Proof. intros _. reflexivity. Qed.

Lemma flag_kept_loop st : flag_kept st (set_loop_stopped true st).
Proof. intros H; exact H. Qed.

Section MoreProperties.

Variable pc : PrivateConstants.

(** X1: the pin table [__init__] builds has exactly the keys 0 to 22, 25 to
    28 and 64, each with the mode "not set" (23 and 24 are the only GPIO
    numbers below 29 left out; 25 is a key); [servo_ranges] has the same
    keys but 64, each with the range [1000, 2000]. *)
Theorem init_pico_pins cfg k :
  (gpio_pin k -> pico_pins (init pc cfg) !! k = Some AT_MODE_NOT_SET)
  /\ (~ gpio_pin k -> pico_pins (init pc cfg) !! k = None)
  /\ (servo_ranges (init pc cfg) !! k
      = if bool_decide (gpio_pin k /\ k <> 64) then Some [1000; 2000] else None).
Proof.
  assert (Hkeys : k ∈ py_range 0 23 1 ++ py_range 25 29 1
                  <-> 0 <= k <= 22 \/ 25 <= k <= 28).
  { rewrite elem_of_app, !elem_of_py_range by lia. rewrite !Z.mod_1_r. lia. }
  unfold gpio_pin. cbn [init pico_pins servo_ranges].
  rewrite lookup_insert, !lookup_dict_of_keys.
  split; [|split].
  - intros H. destruct (decide (64 = k)); [reflexivity|].
    rewrite bool_decide_eq_true_2; [reflexivity|]. apply Hkeys. lia.
  - intros H. destruct (decide (64 = k)); [lia|].
    rewrite bool_decide_eq_false_2; [reflexivity|]. rewrite Hkeys. lia.
  - apply (f_equal (fun b : bool => if b then Some [1000; 2000] else None)).
    apply bool_decide_ext. rewrite Hkeys. lia.
Qed.

(** X2: the SDA table of [__init__] has exactly the even pins 2 to 20 and
    pin 26, the SCL table exactly the odd pins 3 to 21 and pin 27, all
    free (255); every i2c pin is a key of the pin table. *)
Theorem init_i2c_pins cfg k :
  (i2c_sda_pins (init pc cfg) !! k
   = if bool_decide (sda_pin k) then Some 255 else None)
  /\ (i2c_scl_pins (init pc cfg) !! k
      = if bool_decide (scl_pin k) then Some 255 else None)
  /\ (sda_pin k \/ scl_pin k -> gpio_pin k).
Proof.
  unfold sda_pin, scl_pin, gpio_pin. cbn [init i2c_sda_pins i2c_scl_pins].
  rewrite !lookup_insert, !lookup_dict_of_keys.
  assert (Hsda : k ∈ py_range 2 21 2 <-> 2 <= k <= 20 /\ k mod 2 = 0).
  { rewrite elem_of_py_range by lia.
    replace (k - 2) with (k + (-1) * 2) by lia. rewrite Z_mod_plus_full. lia. }
  assert (Hscl : k ∈ py_range 3 22 2 <-> 3 <= k <= 21 /\ k mod 2 = 1).
  { rewrite elem_of_py_range by lia.
    replace (k - 3) with (k - 1 + (-1) * 2) by lia. rewrite Z_mod_plus_full.
    pose proof (Z.mod_pos_bound k 2). pose proof (Z.mod_pos_bound (k - 1) 2).
    pose proof (Z_div_mod_eq_full k 2). pose proof (Z_div_mod_eq_full (k - 1) 2).
    lia. }
  split; [|split].
  - destruct (decide (26 = k)) as [<-|Hne].
    + now rewrite bool_decide_eq_true_2 by (right; reflexivity).
    + apply (f_equal (fun b : bool => if b then Some 255 else None)).
      apply bool_decide_ext. rewrite Hsda. lia.
  - destruct (decide (27 = k)) as [<-|Hne].
    + now rewrite bool_decide_eq_true_2 by (right; reflexivity).
    + apply (f_equal (fun b : bool => if b then Some 255 else None)).
      apply bool_decide_ext. rewrite Hscl. lia.
  - lia.
Qed.

(** ** Helpers *)

(** [_send_command] on an open port, for a command of bytes. *)
Lemma send_command_open st p command :
  serial_port st = Some p -> port_open p = true ->
  forallb is_byte command = true -> (length command <= 255)%nat ->
  _send_command pc command st
  = (Ok tt,
     set_serial_port
       (Some (port_accept (Z.of_nat (length command) :: command) p)) st).
Proof.
  intros Hp Ho Hb Hl. unfold _send_command.
  apply send_command_with_open; auto. now apply frame_bytes.
Qed.

(** [n >> 8] and [n & 0xff] of a 16-bit [n] are its two bytes. *)
Lemma two_bytes_big_endian n :
  0 <= n < 65536 ->
  is_byte (Z.shiftr n 8) = true /\ is_byte (Z.land n 255) = true
  /\ 256 * Z.shiftr n 8 + Z.land n 255 = n.
Proof.
  intros Hn. rewrite Z.shiftr_div_pow2 by lia.
  change 255 with (Z.ones 8). rewrite Z.land_ones by lia.
  change (2 ^ 8) with 256.
  pose proof (Z.mod_pos_bound n 256). pose proof (Z_div_mod_eq_full n 256).
  assert (0 <= n / 256 < 256)
    by (split; [apply Z.div_pos; lia | apply Z.div_lt_upper_bound; lia]).
  unfold is_byte. repeat split; try lia; apply andb_true_iff; split; apply Z.leb_le; lia.
Qed.

Lemma shiftr_8_not_byte n : ~ 0 <= n < 65536 -> is_byte (Z.shiftr n 8) = false.
Proof.
  intros Hn. rewrite Z.shiftr_div_pow2 by lia. change (2 ^ 8) with 256.
  unfold is_byte. apply andb_false_iff.
  destruct (Z_lt_le_dec n 0) as [Hneg|Hpos].
  - left. apply Z.leb_gt. apply Z.div_lt_upper_bound; lia.
  - right. apply Z.leb_gt.
    assert (256 <= n / 256) by (apply Z.div_le_lower_bound; lia). lia.
Qed.

Lemma is_byte_b2z b : is_byte (Z.b2z b) = true.
Proof. now destruct b. Qed.

(** A failed test raises and leaves all but the port, the flag and the
    loop as it found them. *)
Lemma fail_with_teardown msg st :
  exists e st', fail_with pc msg st = (Raise e, st') /\ teardown_only st st'.
Proof.
  destruct (fail_with pc msg st) as [r st'] eqn:Hfail.
  destruct (fail_with_raises pc msg st) as [e He]. rewrite Hfail in He.
  cbn [fst] in He. subst r.
  pose proof (teardown_only_fail_with pc msg st) as Hkeep.
  rewrite Hfail in Hkeep. exists e, st'. split; [reflexivity|exact Hkeep].
Qed.

Lemma guard_fails {B} msg (k : unit -> M B) st :
  exists e st',
    bind (fail_with pc msg) k st = (Raise e, st')
    /\ teardown_only st st'.
Proof.
  destruct (fail_with_teardown msg st) as (e & st' & Hf & Hk).
  exists e, st'. split; [now apply bind_Raise|exact Hk].
Qed.

(** ** Without a port *)

Lemma shutdown_at_no_port budget st :
  serial_port st = None ->
  shutdown_at pc budget st = (Ok tt, set_shutdown_flag true st).
Proof.
  revert st. induction budget as [|b IH]; intros st Hp; cbn [shutdown_at].
  - unfold shutdown_body, bind at 1, modify at 1, try_except.
    unfold bind at 1, _send_command_with, bind at 1, get at 1.
    cbn [serial_port set_shutdown_flag]. rewrite Hp.
    unfold bind, shutdown_if_configured, bind, get, when, raise, ret.
    cbn [config set_shutdown_flag].
    destruct (shutdown_on_exception (config st)); reflexivity.
  - unfold shutdown_body, bind at 1, modify at 1, try_except.
    unfold bind at 1, _send_command_with, bind at 1, get at 1.
    cbn [serial_port set_shutdown_flag]. rewrite Hp.
    unfold bind at 1, shutdown_if_configured, bind at 1, get at 1, when.
    cbn [config set_shutdown_flag].
    destruct (shutdown_on_exception (config st)).
    + rewrite IH by exact Hp. reflexivity.
    + reflexivity.
Qed.

(** X3: on a session without a port, [shutdown] returns normally having
    only set the shutdown flag, at every depth of the interpreter's stack
    (the re-entry of [shutdown] from [_send_command] ends in a
    [RecursionError] that the innermost [shutdown] swallows), and
    [_send_command] raises the "Is your USB cable plugged in?" error,
    with the flag set if [shutdown_on_exception] is. *)
Theorem no_port_means_RuntimeError st command :
  serial_port st = None ->
  shutdown pc st = (Ok tt, set_shutdown_flag true st)
  /\ _send_command pc command st
     = (Raise (RuntimeError "Is your USB cable plugged in?"),
        if shutdown_on_exception (config st)
        then set_shutdown_flag true st else st).
Proof.
  intros Hp. split.
  - unfold shutdown. now apply shutdown_at_no_port.
  - unfold _send_command, _send_command_with, bind at 1, get at 1. rewrite Hp.
    unfold bind, shutdown_if_configured, bind, get, when, shutdown.
    destruct (shutdown_on_exception (config st)).
    + rewrite shutdown_at_no_port by exact Hp. reflexivity.
    + reflexivity.
Qed.

(** ** [shutdown] and the dispatcher *)

Lemma shutdown_at_sets_flag budget st :
  shutdown_flag (snd (shutdown_at pc budget st)) = true.
Proof.
  assert (Hnested : respects flag_kept
            match budget with
            | O => raise RecursionError
            | S b => shutdown_at pc b
            end).
  { destruct budget as [|b].
    - apply respects_raise, flag_kept_refl.
    - apply (respects_shutdown_at pc flag_kept flag_kept_refl flag_kept_trans
               flag_kept_flag flag_kept_loop flag_kept_write flag_kept_close). }
  assert (Hbody : forall nested, respects flag_kept nested ->
            shutdown_flag (snd (shutdown_body pc nested st)) = true).
  { intros nested Hn. unfold shutdown_body. unfold bind at 1, modify at 1.
    refine (respects_try flag_kept flag_kept_trans _ _ _ _ _ _ _).
    - apply (respects_bind flag_kept flag_kept_trans).
      + now apply (respects_send_command_with flag_kept flag_kept_refl
                     flag_kept_trans flag_kept_write).
      + intros _.
        now apply (respects_shutdown_rest pc flag_kept flag_kept_refl
                     flag_kept_trans flag_kept_loop flag_kept_write
                     flag_kept_close).
    - apply respects_ret, flag_kept_refl.
    - reflexivity. }
  destruct budget as [|b]; cbn [shutdown_at]; apply Hbody; exact Hnested.
Qed.

(** X4: whatever the port does, [shutdown] leaves the shutdown flag set, so
    the next pass of the report dispatcher leaves the loop without
    reading; with [shutdown_on_exception] the same holds after every
    failed test of a method. *)
Theorem shutdown_ends_the_dispatcher st fuel :
  shutdown_flag (snd (shutdown pc st)) = true
  /\ _pico_report_dispatcher pc (S fuel) (snd (shutdown pc st))
     = Returned (snd (shutdown pc st))
  /\ (shutdown_on_exception (config st) = true ->
      forall msg,
        _pico_report_dispatcher pc (S fuel) (snd (fail_with pc msg st))
        = Returned (snd (fail_with pc msg st))).
Proof.
  assert (Hflag : forall st0, shutdown_flag (snd (shutdown pc st0)) = true).
  { intros st0. unfold shutdown. apply shutdown_at_sets_flag. }
  assert (Hret : forall st0, shutdown_flag st0 = true ->
            _pico_report_dispatcher pc (S fuel) st0 = Returned st0).
  { intros st0 H. cbn [_pico_report_dispatcher]. unfold dispatcher_pass.
    now rewrite H. }
  split; [apply Hflag|]. split; [apply Hret, Hflag|].
  intros Hsoe msg. apply Hret.
  unfold fail_with, bind at 1, shutdown_if_configured, bind at 1, get at 1.
  rewrite Hsoe. cbn [when]. specialize (Hflag st).
  destruct (shutdown pc st) as [[[]|e] st1]; exact Hflag.
Qed.

(** ** [pwm_write] *)

Lemma pwm_write_open st p pin duty_cycle mode :
  serial_port st = Some p -> port_open p = true ->
  is_byte (ANALOG_WRITE pc) = true -> is_byte pin = true ->
  pico_pins st !! pin = Some mode ->
  mode = AT_PWM_OUTPUT \/ mode = AT_SERVO ->
  0 <= duty_cycle <= maximum_pwm_duty_cycle st ->
  duty_cycle < 65536 ->
  pwm_write pc pin duty_cycle st
  = (Ok tt,
     set_serial_port
       (Some (port_accept [4; ANALOG_WRITE pc; pin; Z.shiftr duty_cycle 8;
                           Z.land duty_cycle 255] p)) st).
Proof.
  intros Hp Ho Hcmd Hpin Hmode Hm Hrange Hlt.
  destruct (two_bytes_big_endian duty_cycle) as (Hhi & Hlo & Hsum); [lia|].
  unfold pwm_write. unfold bind at 1, dict_get at 1. rewrite Hmode.
  replace (negb (mode =? AT_PWM_OUTPUT) && negb (mode =? AT_SERVO)) with false
    by (destruct Hm as [-> | ->]; reflexivity).
  unfold bind at 1, ret at 1. unfold bind at 1, get at 1.
  replace ((0 <=? duty_cycle) && (duty_cycle <=? maximum_pwm_duty_cycle st))
    with true
    by (symmetry; apply andb_true_iff; split; apply Z.leb_le; lia).
  unfold bind at 1, ret at 1. unfold to_bytes_2_big.
  replace ((0 <=? duty_cycle) && (duty_cycle <? 65536)) with true
    by (symmetry; apply andb_true_iff; split; [apply Z.leb_le|apply Z.ltb_lt]; lia).
  unfold bind at 1, ret at 1.
  change (list_get [Z.shiftr duty_cycle 8; Z.land duty_cycle 255] 0)
    with (@ret Z (Z.shiftr duty_cycle 8)).
  change (list_get [Z.shiftr duty_cycle 8; Z.land duty_cycle 255] 1)
    with (@ret Z (Z.land duty_cycle 255)).
  unfold bind at 1, ret at 1. unfold bind at 1, ret at 1.
  rewrite (send_command_open st p); auto.
  - cbn [forallb]. now rewrite Hcmd, Hpin, Hhi, Hlo.
  - cbn; lia.
Qed.

(** X5: on a pin in PWM-output or servo mode, [pwm_write] with a duty cycle
    from 0 to the session's maximum (and below 65536) returns and writes
    one frame, [4, ANALOG_WRITE, pin, hi, lo], with [hi] and [lo] the
    high and low byte of the duty cycle; nothing but the port changes. *)
Theorem pwm_write_big_endian st p pin duty_cycle mode :
  serial_port st = Some p -> port_open p = true ->
  is_byte (ANALOG_WRITE pc) = true -> is_byte pin = true ->
  pico_pins st !! pin = Some mode ->
  mode = AT_PWM_OUTPUT \/ mode = AT_SERVO ->
  0 <= duty_cycle <= maximum_pwm_duty_cycle st ->
  duty_cycle < 65536 ->
  exists st' hi lo,
    pwm_write pc pin duty_cycle st = (Ok tt, st')
    /\ sent st' = sent st ++ [[4; ANALOG_WRITE pc; pin; hi; lo]]
    /\ 0 <= hi <= 255 /\ 0 <= lo <= 255
    /\ 256 * hi + lo = duty_cycle
    /\ teardown_only st st'
    /\ shutdown_flag st' = shutdown_flag st
    /\ loop_stopped st' = loop_stopped st.
Proof.
  intros Hp Ho Hcmd Hpin Hmode Hm Hrange Hlt.
  destruct (two_bytes_big_endian duty_cycle) as (Hhi & Hlo & Hsum); [lia|].
  eexists _, (Z.shiftr duty_cycle 8), (Z.land duty_cycle 255).
  split; [now apply (pwm_write_open st p pin duty_cycle mode)|].
  split; [unfold sent; cbn; now rewrite Hp|].
  unfold is_byte in Hhi, Hlo.
  apply andb_true_iff in Hhi as [?%Z.leb_le ?%Z.leb_le].
  apply andb_true_iff in Hlo as [?%Z.leb_le ?%Z.leb_le].
  split; [lia|]. split; [lia|]. split; [exact Hsum|].
  repeat split.
Qed.

(** X6: [pwm_write] on a pin of the table whose mode is neither PWM output
    nor servo, or with a duty cycle below 0 or above the session's
    maximum, raises [RuntimeError]; its own command is not written, only
    the shutdown sequence when [shutdown_on_exception] is set. *)
Theorem pwm_write_guards st p pin duty_cycle mode :
  serial_port st = Some p -> port_open p = true ->
  is_byte (STOP_ALL_REPORTS pc) = true -> is_byte (RESET_BOARD pc) = true ->
  pico_pins st !! pin = Some mode ->
  (mode <> AT_PWM_OUTPUT /\ mode <> AT_SERVO)
  \/ duty_cycle < 0 \/ maximum_pwm_duty_cycle st < duty_cycle ->
  exists msg st',
    pwm_write pc pin duty_cycle st = (Raise (RuntimeError msg), st')
    /\ sent st' = sent st ++ frames_before_raise pc (config st)
    /\ teardown_only st st'.
Proof.
  intros Hp Ho Hs Hr Hmode Hbad.
  pose proof (fun msg => fail_with_open pc msg st p Hp Ho Hs Hr) as Hfail.
  pose proof (sent_fail_with pc "" st p Hp Ho Hs Hr) as Hsent.
  rewrite Hfail in Hsent. cbn [snd] in Hsent.
  pose proof (teardown_only_fail_with pc "" st) as Hkeep.
  rewrite Hfail in Hkeep. cbn [snd] in Hkeep.
  destruct (negb (mode =? AT_PWM_OUTPUT) && negb (mode =? AT_SERVO)) eqn:Emode.
  - eexists _, _. split; [|split; [exact Hsent|exact Hkeep]].
    unfold pwm_write. unfold bind at 1, dict_get at 1. rewrite Hmode, Emode.
    apply bind_Raise. apply Hfail.
  - assert (Hrange : (0 <=? duty_cycle) && (duty_cycle <=? maximum_pwm_duty_cycle st)
                     = false).
    { apply andb_false_iff. destruct Hbad as [[H1 H2]|[H|H]].
      - apply andb_false_iff in Emode as [E|E]; apply negb_false_iff, Z.eqb_eq in E;
          congruence.
      - left. apply Z.leb_gt. lia.
      - right. apply Z.leb_gt. lia. }
    eexists _, _. split; [|split; [exact Hsent|exact Hkeep]].
    unfold pwm_write. unfold bind at 1, dict_get at 1. rewrite Hmode, Emode.
    unfold bind at 1, ret at 1. unfold bind at 1, get at 1. rewrite Hrange.
    apply bind_Raise. apply Hfail.
Qed.

(** X7: [set_pin_mode_servo] on a pin of the table sends the PWM-output
    pin mode, records the pulse range given, marks the pin as servo and
    does not count it against the PWM ceiling; [pwm_write] then accepts
    the pin. *)
Theorem servo_pin_takes_raw_pwm st p pin min_pulse max_pulse duty_cycle :
  serial_port st = Some p -> port_open p = true ->
  is_Some (pico_pins st !! pin) ->
  is_byte (SET_PIN_MODE pc) = true -> is_byte (ANALOG_WRITE pc) = true ->
  is_byte pin = true ->
  0 <= duty_cycle <= maximum_pwm_duty_cycle st -> duty_cycle < 65536 ->
  exists st1 st2,
    set_pin_mode_servo pc pin min_pulse max_pulse st = (Ok tt, st1)
    /\ sent st1 = sent st ++ [[3; SET_PIN_MODE pc; pin; AT_PWM_OUTPUT]]
    /\ pico_pins st1 !! pin = Some AT_SERVO
    /\ servo_ranges st1 !! pin = Some [min_pulse; max_pulse]
    /\ pwm_active_count st1 = pwm_active_count st
    /\ pwm_write pc pin duty_cycle st1 = (Ok tt, st2)
    /\ sent st2
       = sent st1 ++ [[4; ANALOG_WRITE pc; pin; Z.shiftr duty_cycle 8;
                       Z.land duty_cycle 255]].
Proof.
  intros Hp Ho [old Hold] Hset Hwrite Hpin Hrange Hlt.
  assert (Hrun : set_pin_mode_servo pc pin min_pulse max_pulse st
    = (Ok tt,
       set_pico_pins
         (<[pin := AT_SERVO]> (<[pin := AT_SERVO]> (<[pin := AT_SERVO]> (pico_pins st))))
         (set_serial_port
            (Some (port_accept [3; SET_PIN_MODE pc; pin; AT_PWM_OUTPUT] p))
            (set_servo_ranges (<[pin := [min_pulse; max_pulse]]> (servo_ranges st))
               st)))).
  { unfold set_pin_mode_servo, _set_pin_mode, set_pin, bind, get, modify, ret.
    cbn [Z.eqb AT_INPUT AT_INPUT_PULLUP AT_INPUT_PULL_DOWN AT_OUTPUT
         AT_PWM_OUTPUT AT_SERVO AT_ANALOG Pos.eqb orb].
    rewrite Hold.
    rewrite (send_command_open _ p);
      [reflexivity | exact Hp | exact Ho
      | cbn [forallb]; now rewrite Hset, Hpin | cbn; lia]. }
  rewrite Hrun. eexists _, _. split; [reflexivity|].
  split; [unfold sent; cbn; now rewrite Hp|].
  split; [cbn; apply lookup_insert_eq|].
  split; [cbn; apply lookup_insert_eq|].
  split; [reflexivity|].
  split.
  - apply (pwm_write_open _ (port_accept [3; SET_PIN_MODE pc; pin; AT_PWM_OUTPUT] p)
             pin duty_cycle AT_SERVO);
      [reflexivity | reflexivity | exact Hwrite | exact Hpin
      | cbn; apply lookup_insert_eq | now right | exact Hrange | exact Hlt].
  - unfold sent. cbn. reflexivity.
Qed.

(** ** From registering a callback to its call *)

Lemma set_pin_mode_input_open st p pin mode cb :
  serial_port st = Some p -> port_open p = true ->
  is_Some (pico_pins st !! pin) ->
  is_byte (SET_PIN_MODE pc) = true -> is_byte pin = true ->
  In mode input_modes ->
  _set_pin_mode pc pin mode 0 0 (Some cb) st
  = (Ok tt,
     set_serial_port (Some (port_accept [4; SET_PIN_MODE pc; pin; mode; 1] p))
       (set_pico_pins (<[pin := mode]> (<[pin := mode]> (pico_pins st)))
          (set_digital_callbacks (<[pin := cb]> (digital_callbacks st))
             (set_pico_pins (<[pin := mode]> (pico_pins st)) st)))).
Proof.
  intros Hp Ho [old Hold] Hset Hpin Hm.
  unfold input_modes in Hm. cbn [In] in Hm.
  destruct Hm as [<-|[<-|[<-|[]]]];
    unfold _set_pin_mode, set_pin, bind, get, modify, ret;
    cbn [Z.eqb AT_INPUT AT_INPUT_PULLUP AT_INPUT_PULL_DOWN AT_OUTPUT
         AT_PWM_OUTPUT AT_SERVO AT_ANALOG Pos.eqb orb];
    rewrite Hold;
    cbn [pico_pins set_pico_pins set_digital_callbacks];
    (rewrite (send_command_open _ p);
       [reflexivity | exact Hp | exact Ho
       | cbn [forallb]; now rewrite Hset, Hpin | cbn; lia]).
Qed.

Lemma digital_message_bound st pin value more cb :
  digital_callbacks st !! pin = Some cb ->
  _digital_message pc (pin :: value :: more) st
  = (Ok tt, deliver cb [DIGITAL_REPORT pc; pin; value] st).
Proof.
  intros H. unfold _digital_message.
  change (py_index (pin :: value :: more) 0) with (Some pin).
  change (py_index (pin :: value :: more) 1) with (Some value).
  unfold bind, dict_get. rewrite H. cbn beta iota zeta. rewrite H. reflexivity.
Qed.

(** X8: after a digital input mode (plain, pull-up, pull-down) has been set
    for a pin with a callback, a digital report for that pin read by the
    dispatcher calls that callback with [DIGITAL_REPORT, pin, value]
    (time stamp apart), and the dispatcher goes on with the bytes that
    follow the frame. *)
Theorem digital_report_reaches_callback st p pin mode cb value rest :
  serial_port st = Some p -> port_open p = true ->
  is_Some (pico_pins st !! pin) ->
  is_byte (SET_PIN_MODE pc) = true -> is_byte pin = true ->
  In mode input_modes ->
  shutdown_flag st = false -> port_read_fault p = None ->
  port_rx p = 3 :: DIGITAL_REPORT pc :: pin :: value :: rest ->
  report_dispatch pc !! DIGITAL_REPORT pc = Some H_digital_message ->
  exists st1 st2,
    _set_pin_mode pc pin mode 0 0 (Some cb) st = (Ok tt, st1)
    /\ digital_callbacks st1 !! pin = Some cb
    /\ dispatcher_pass pc st1 = Passed (Ok Continue) st2
    /\ delivered st2 = delivered st ++ [(cb, [DIGITAL_REPORT pc; pin; value])]
    /\ (exists p2, serial_port st2 = Some p2 /\ port_rx p2 = rest).
Proof.
  intros Hp Ho Hin Hset Hpin Hm Hflag Hfault Hrx Hh.
  eexists _, _. split; [now apply (set_pin_mode_input_open st p)|].
  split; [cbn; apply lookup_insert_eq|]. split; [|split].
  - erewrite (dispatcher_pass_frame pc _ _ (DIGITAL_REPORT pc) [pin; value] rest);
      [|exact Hflag|reflexivity|exact Hfault|exact Hrx].
    cbn zeta. rewrite Hh. cbn [run_handler].
    rewrite (digital_message_bound _ pin value [] cb) by (cbn; apply lookup_insert_eq).
    reflexivity.
  - reflexivity.
  - eexists. split; [reflexivity|]. cbn. rewrite Hrx. reflexivity.
Qed.

(** X9: a stream of digital reports for pins with callbacks is delivered
    whole and in arrival order: the dispatcher calls the callback of each
    report's pin, one call per report, and is then left suspended in a
    read.  When nothing follows the reports it waits for the next length
    byte; when the start of a further frame follows, it has taken that
    frame's length byte and waits for that many bytes, the bytes that
    came after the length byte still unread. *)
Theorem digital_reports_in_arrival_order (cbs : Z -> Callback) reports :
  report_dispatch pc !! DIGITAL_REPORT pc = Some H_digital_message ->
  forall st p rest fuel,
    serial_port st = Some p -> shutdown_flag st = false ->
    port_read_fault p = None ->
    (forall r, r ∈ reports -> digital_callbacks st !! r.1 = Some (cbs r.1)) ->
    port_rx p = digital_frames pc reports ++ rest ->
    unframe rest = None ->
    (length reports < fuel)%nat ->
    exists wanted st' p',
      _pico_report_dispatcher pc fuel st = Waiting wanted st'
      /\ delivered st'
         = delivered st
           ++ map (fun r => (cbs r.1, [DIGITAL_REPORT pc; r.1; r.2])) reports
      /\ serial_port st' = Some p'
      /\ match rest with
         | [] => wanted = 1%nat /\ port_rx p' = []
         | packet_length :: partial =>
             wanted = Z.to_nat packet_length
             /\ port_rx p' = partial
             /\ (length partial < wanted)%nat
         end.
Proof.
  intros Hh. induction reports as [|[pin value] reports IH];
    intros st p rest fuel Hp Hflag Hfault Hcbs Hrx Hrest Hfuel.
  - destruct fuel as [|fuel]; [cbn in Hfuel; lia|].
    cbn [_pico_report_dispatcher]. unfold dispatcher_pass, port_read.
    cbn [digital_frames flat_map app] in Hrx.
    rewrite Hflag, Hp, Hfault, Hrx.
    destruct rest as [|packet_length partial].
    + exists 1%nat, st, p. cbn [length Nat.leb].
      split; [reflexivity|]. split; [cbn; now rewrite app_nil_r|].
      split; [exact Hp|]. split; [reflexivity|exact Hrx].
    + unfold unframe in Hrest.
      destruct (Nat.leb (Z.to_nat packet_length) (length partial)) eqn:Hshort;
        [discriminate|].
      cbn [length Nat.leb take hd port_consume port_rx]. rewrite Hrx.
      cbn [drop]. change (drop 0 partial) with partial. rewrite Hshort.
      exists (Z.to_nat packet_length),
        (set_serial_port (Some (port_consume 1 p)) st), (port_consume 1 p).
      split; [reflexivity|]. split; [cbn; now rewrite app_nil_r|].
      split; [reflexivity|]. split; [reflexivity|].
      split; [cbn; now rewrite Hrx|]. now apply Nat.leb_gt.
  - destruct fuel as [|fuel]; [cbn in Hfuel; lia|].
    cbn [_pico_report_dispatcher].
    assert (Hrx' : port_rx p
                   = Z.of_nat (S (length [pin; value])) :: DIGITAL_REPORT pc
                     :: [pin; value] ++ (digital_frames pc reports ++ rest)).
    { rewrite Hrx. reflexivity. }
    rewrite (dispatcher_pass_frame pc st p (DIGITAL_REPORT pc) [pin; value]
               (digital_frames pc reports ++ rest) Hflag Hp Hfault Hrx').
    cbn zeta. rewrite Hh. cbn [run_handler].
    rewrite (digital_message_bound _ pin value [] (cbs pin)).
    2:{ cbn. apply (Hcbs (pin, value)). apply list_elem_of_here. }
    destruct (IH (deliver (cbs pin) [DIGITAL_REPORT pc; pin; value]
                    (set_serial_port
                       (Some (port_consume (S (S (length [pin; value]))) p)) st))
                (port_consume (S (S (length [pin; value]))) p) rest fuel)
      as (wanted & st' & p' & Hrun & Hdel & Hport & Hwait).
    + reflexivity.
    + exact Hflag.
    + exact Hfault.
    + intros r Hr. cbn. apply Hcbs. now apply list_elem_of_further.
    + cbn. rewrite Hrx. reflexivity.
    + exact Hrest.
    + cbn [length] in Hfuel. lia.
    + exists wanted, st', p'. split; [exact Hrun|].
      split; [|split; [exact Hport|exact Hwait]].
      rewrite Hdel. cbn. now rewrite <- app_assoc.
Qed.

Lemma set_pin_mode_analog_input_open st p adc differential cb :
  serial_port st = Some p -> port_open p = true ->
  is_byte (SET_PIN_MODE pc) = true ->
  0 <= adc < 5 -> 0 <= differential < 65536 ->
  exists st1,
    set_pin_mode_analog_input pc adc differential (Some cb) st = (Ok tt, st1)
    /\ pico_pins st1 = <[26 + adc := AT_ANALOG]> (pico_pins st)
    /\ analog_callbacks st1 = <[adc := cb]> (analog_callbacks st)
    /\ serial_port st1
       = Some (port_accept
                 [6; SET_PIN_MODE pc; adc; AT_ANALOG; Z.shiftr differential 8;
                  Z.land differential 255; 1] p)
    /\ delivered st1 = delivered st
    /\ shutdown_flag st1 = shutdown_flag st.
Proof.
  intros Hp Ho Hset Hadc Hdiff.
  destruct (two_bytes_big_endian differential Hdiff) as (Hhi & Hlo & _).
  assert (Hcases : adc = 0 \/ adc = 1 \/ adc = 2 \/ adc = 3 \/ adc = 4) by lia.
  destruct Hcases as [->|[->|[->|[->| ->]]]];
    (eexists; split;
     [ unfold set_pin_mode_analog_input, _set_pin_mode, set_pin, bind, get, modify, ret;
       cbn [Z.eqb Z.leb Z.ltb Z.compare Pos.compare Pos.compare_cont andb orb
            AT_INPUT AT_INPUT_PULLUP AT_INPUT_PULL_DOWN AT_OUTPUT
            AT_PWM_OUTPUT AT_SERVO AT_ANALOG Pos.eqb];
       rewrite (send_command_open _ p);
         [reflexivity | exact Hp | exact Ho
         | cbn [forallb]; now rewrite Hset, Hhi, Hlo | cbn; lia]
     | cbn; repeat split; try reflexivity; now rewrite ?insert_insert_eq ]).
Qed.

Lemma analog_message_bound st pin hi lo more cb :
  analog_callbacks st !! pin = Some cb ->
  _analog_message pc (pin :: hi :: lo :: more) st
  = (Ok tt, deliver cb [ANALOG_REPORT pc; pin; 256 * hi + lo] st).
Proof.
  intros H. unfold _analog_message, list_get.
  change (py_index (pin :: hi :: lo :: more) 0) with (Some pin).
  change (py_index (pin :: hi :: lo :: more) 1) with (Some hi).
  change (py_index (pin :: hi :: lo :: more) 2) with (Some lo).
  unfold bind, ret, dict_get. rewrite H. cbn beta iota zeta. rewrite H.
  rewrite Z.shiftl_mul_pow2 by lia. change (2 ^ 8) with 256.
  now rewrite (Z.mul_comm hi 256).
Qed.

(** X10: [set_pin_mode_analog_input] for ADC 0 to 4 marks GPIO 26 + ADC,
    sends the threshold as its two bytes, high byte first, and files the
    callback under the ADC number; an analog report for that ADC then
    calls it with [ANALOG_REPORT, adc, 256 * hi + lo]. *)
Theorem analog_report_reaches_callback st p adc differential cb hi lo rest :
  serial_port st = Some p -> port_open p = true ->
  is_byte (SET_PIN_MODE pc) = true ->
  0 <= adc < 5 -> 0 <= differential < 65536 ->
  shutdown_flag st = false -> port_read_fault p = None ->
  port_rx p = 4 :: ANALOG_REPORT pc :: adc :: hi :: lo :: rest ->
  report_dispatch pc !! ANALOG_REPORT pc = Some H_analog_message ->
  exists st1 st2,
    set_pin_mode_analog_input pc adc differential (Some cb) st = (Ok tt, st1)
    /\ pico_pins st1 !! (26 + adc) = Some AT_ANALOG
    /\ sent st1
       = sent st ++ [[6; SET_PIN_MODE pc; adc; AT_ANALOG; Z.shiftr differential 8;
                      Z.land differential 255; 1]]
    /\ 256 * Z.shiftr differential 8 + Z.land differential 255 = differential
    /\ dispatcher_pass pc st1 = Passed (Ok Continue) st2
    /\ delivered st2
       = delivered st ++ [(cb, [ANALOG_REPORT pc; adc; 256 * hi + lo])].
Proof.
  intros Hp Ho Hset Hadc Hdiff Hflag Hfault Hrx Hh.
  destruct (set_pin_mode_analog_input_open st p adc differential cb Hp Ho Hset Hadc Hdiff)
    as (st1 & Hrun & Hpins & Hcbs & Hport & Hdel & Hfl).
  eexists st1, _. split; [exact Hrun|].
  split; [rewrite Hpins; apply lookup_insert_eq|].
  split; [unfold sent; now rewrite Hport, Hp|].
  split; [now apply two_bytes_big_endian|]. 
  assert (Hpass : dispatcher_pass pc st1
    = Passed (Ok Continue)
        (deliver cb [ANALOG_REPORT pc; adc; 256 * hi + lo]
           (consumed 4 (port_accept
                 [6; SET_PIN_MODE pc; adc; AT_ANALOG; Z.shiftr differential 8;
                  Z.land differential 255; 1] p) st1))).
  { erewrite (dispatcher_pass_frame pc st1 _ (ANALOG_REPORT pc) [adc; hi; lo] rest);
      [|congruence|exact Hport|exact Hfault|exact Hrx].
    cbn zeta. rewrite Hh. cbn [run_handler].
    rewrite (analog_message_bound _ adc hi lo [] cb)
      by (cbn; rewrite Hcbs; apply lookup_insert_eq).
    reflexivity. }
  split; [exact Hpass|]. cbn. now rewrite Hdel.
Qed.

(** X11: [set_pin_mode_analog_input] with an ADC number outside 0 to 4
    raises "Invalid ADC Number" having changed neither a table nor a
    callback and having written nothing of its own. *)
Theorem analog_input_rejects_unknown_adc st p adc differential callback :
  serial_port st = Some p -> port_open p = true ->
  is_byte (STOP_ALL_REPORTS pc) = true -> is_byte (RESET_BOARD pc) = true ->
  ~ 0 <= adc < 5 ->
  exists st',
    set_pin_mode_analog_input pc adc differential callback st
    = (Raise (RuntimeError "Invalid ADC Number"), st')
    /\ sent st' = sent st ++ frames_before_raise pc (config st)
    /\ teardown_only st st'.
Proof.
  intros Hp Ho Hs Hr Hadc.
  pose proof (fail_with_open pc "Invalid ADC Number" st p Hp Ho Hs Hr) as Hfail.
  pose proof (sent_fail_with pc "Invalid ADC Number" st p Hp Ho Hs Hr) as Hsent.
  rewrite Hfail in Hsent. cbn [snd] in Hsent.
  pose proof (teardown_only_fail_with pc "Invalid ADC Number" st) as Hkeep.
  rewrite Hfail in Hkeep. cbn [snd] in Hkeep.
  eexists. split; [|split; [exact Hsent|exact Hkeep]].
  unfold set_pin_mode_analog_input.
  replace ((0 <=? adc) && (adc <? 5)) with false.
  - apply bind_Raise. exact Hfail.
  - symmetry. apply andb_false_iff.
    destruct (Z.leb_spec 0 adc); [right; apply Z.ltb_ge; lia | now left].
Qed.

(** X12: the threshold of [set_pin_mode_analog_input] is not tested: with
    one outside 0 to 65535 the call marks the pin and files the callback,
    then fails in [_send_command], where [bytes] rejects the high byte,
    with [UnboundLocalError]; nothing is written and [shutdown] is not
    run. *)
Theorem analog_input_threshold_is_checked_late st p adc differential cb :
  serial_port st = Some p ->
  0 <= adc < 5 -> ~ 0 <= differential < 65536 ->
  exists st',
    set_pin_mode_analog_input pc adc differential (Some cb) st
    = (Raise UnboundLocalError, st')
    /\ sent st' = sent st
    /\ serial_port st' = serial_port st
    /\ shutdown_flag st' = shutdown_flag st
    /\ pico_pins st' = <[26 + adc := AT_ANALOG]> (pico_pins st)
    /\ analog_callbacks st' = <[adc := cb]> (analog_callbacks st).
Proof.
  intros Hp Hadc Hdiff.
  pose proof (shiftr_8_not_byte differential Hdiff) as Hhi.
  assert (Hframe : forall cmd m,
            frame [cmd; adc; m; Z.shiftr differential 8;
                   Z.land differential 255; 1] = None).
  { intros cmd m. unfold frame, bytes. cbn [forallb length]. rewrite Hhi.
    now rewrite !andb_false_r. }
  assert (Hcases : adc = 0 \/ adc = 1 \/ adc = 2 \/ adc = 3 \/ adc = 4) by lia.
  destruct Hcases as [->|[->|[->|[->| ->]]]];
    (eexists; split;
     [ unfold set_pin_mode_analog_input, _set_pin_mode, set_pin, bind, get,
         modify, ret;
       cbn [Z.eqb Z.leb Z.ltb Z.compare Pos.compare Pos.compare_cont andb orb
            AT_INPUT AT_INPUT_PULLUP AT_INPUT_PULL_DOWN AT_OUTPUT
            AT_PWM_OUTPUT AT_SERVO AT_ANALOG Pos.eqb];
       unfold _send_command, _send_command_with, bind, get;
       cbn [serial_port set_pico_pins set_analog_callbacks];
       rewrite Hp, Hframe; reflexivity
     | cbn; unfold sent; cbn; rewrite ?insert_insert_eq;
       repeat split; reflexivity ]).
Qed.

Lemma set_pin_mode_sonar_open st p trigger_pin echo_pin cb :
  serial_port st = Some p -> port_open p = true ->
  is_byte (SONAR_NEW pc) = true ->
  is_byte trigger_pin = true -> is_byte echo_pin = true ->
  sonar_count st < MAX_SONARS pc ->
  set_pin_mode_sonar pc trigger_pin echo_pin (Some cb) st
  = (Ok tt,
     set_serial_port
       (Some (port_accept [3; SONAR_NEW pc; trigger_pin; echo_pin] p))
       (set_pico_pins
          (<[echo_pin := AT_SONAR]> (<[trigger_pin := AT_SONAR]> (pico_pins st)))
          (set_sonar_count (sonar_count st + 1)
             (set_sonar_callbacks (<[trigger_pin := cb]> (sonar_callbacks st)) st)))).
Proof.
  intros Hp Ho Hcmd Htrig Hecho Hcount.
  unfold set_pin_mode_sonar. unfold bind at 1, get at 1.
  replace (sonar_count st <? MAX_SONARS pc) with true
    by (symmetry; now apply Z.ltb_lt).
  unfold set_pin, bind, modify.
  rewrite (send_command_open _ p);
    [reflexivity | exact Hp | exact Ho
    | cbn [forallb]; now rewrite Hcmd, Htrig, Hecho | cbn; lia].
Qed.

Lemma sonar_distance_report_bound st pin whole hundredths more cb :
  sonar_callbacks st !! pin = Some cb ->
  _sonar_distance_report pc (pin :: whole :: hundredths :: more) st
  = (Ok tt, deliver cb [SONAR_DISTANCE pc; pin; whole; hundredths] st).
Proof.
  intros H. unfold _sonar_distance_report, list_get.
  change (py_index (pin :: whole :: hundredths :: more) 0) with (Some pin).
  change (py_index (pin :: whole :: hundredths :: more) 1) with (Some whole).
  change (py_index (pin :: whole :: hundredths :: more) 2) with (Some hundredths).
  unfold bind, ret, dict_get. now rewrite H.
Qed.

(** X13: below the ceiling [set_pin_mode_sonar] counts the device, marks
    the trigger pin and the echo pin as sonar pins, sends
    [3, SONAR_NEW, trigger, echo] and files the callback under the
    trigger pin; a distance report for that trigger pin then calls it
    with [SONAR_DISTANCE, trigger, whole, hundredths]. *)
Theorem sonar_report_reaches_callback st p trigger_pin echo_pin cb whole hundredths rest :
  serial_port st = Some p -> port_open p = true ->
  is_byte (SONAR_NEW pc) = true ->
  is_byte trigger_pin = true -> is_byte echo_pin = true ->
  sonar_count st < MAX_SONARS pc ->
  shutdown_flag st = false -> port_read_fault p = None ->
  port_rx p = 4 :: SONAR_DISTANCE pc :: trigger_pin :: whole :: hundredths :: rest ->
  report_dispatch pc !! SONAR_DISTANCE pc = Some H_sonar_distance_report ->
  exists st1 st2,
    set_pin_mode_sonar pc trigger_pin echo_pin (Some cb) st = (Ok tt, st1)
    /\ sonar_count st1 = sonar_count st + 1
    /\ pico_pins st1 !! trigger_pin = Some AT_SONAR
    /\ pico_pins st1 !! echo_pin = Some AT_SONAR
    /\ sonar_callbacks st1 !! trigger_pin = Some cb
    /\ sent st1 = sent st ++ [[3; SONAR_NEW pc; trigger_pin; echo_pin]]
    /\ dispatcher_pass pc st1 = Passed (Ok Continue) st2
    /\ delivered st2
       = delivered st
         ++ [(cb, [SONAR_DISTANCE pc; trigger_pin; whole; hundredths])].
Proof.
  intros Hp Ho Hcmd Htrig Hecho Hcount Hflag Hfault Hrx Hh.
  eexists _, _. split; [now apply (set_pin_mode_sonar_open st p)|].
  split; [reflexivity|].
  split.
  { cbn. rewrite lookup_insert. case_decide; [reflexivity|].
    apply lookup_insert_eq. }
  split; [cbn; apply lookup_insert_eq|].
  split; [cbn; apply lookup_insert_eq|].
  split; [unfold sent; cbn; now rewrite Hp|]. split.
  - erewrite (dispatcher_pass_frame pc _ _ (SONAR_DISTANCE pc)
                [trigger_pin; whole; hundredths] rest);
      [|exact Hflag|reflexivity|exact Hfault|exact Hrx].
    cbn zeta. rewrite Hh. cbn [run_handler].
    rewrite (sonar_distance_report_bound _ trigger_pin whole hundredths [] cb)
      by (cbn; apply lookup_insert_eq).
    reflexivity.
  - reflexivity.
Qed.

(** X14: at the ceiling [MAX_SONARS], or without a callback,
    [set_pin_mode_sonar] raises before it has changed anything: count,
    pin table and callbacks are as before, and on an open port the error
    is a [RuntimeError] with only the shutdown sequence written. *)
Theorem sonar_ceiling_is_exact st trigger_pin echo_pin callback :
  callback = None \/ MAX_SONARS pc <= sonar_count st ->
  exists e st',
    set_pin_mode_sonar pc trigger_pin echo_pin callback st = (Raise e, st')
    /\ teardown_only st st'
    /\ sonar_count st' = sonar_count st
    /\ pico_pins st' = pico_pins st
    /\ sonar_callbacks st' = sonar_callbacks st
    /\ (forall p, serial_port st = Some p -> port_open p = true ->
          is_byte (STOP_ALL_REPORTS pc) = true ->
          is_byte (RESET_BOARD pc) = true ->
          (exists msg, e = RuntimeError msg)
          /\ sent st' = sent st ++ frames_before_raise pc (config st)).
Proof.
  intros Hbad.
  assert (Hmsg : exists msg,
    set_pin_mode_sonar pc trigger_pin echo_pin callback st = fail_with pc msg st).
  { unfold set_pin_mode_sonar. destruct callback as [cb|]; [|eauto].
    destruct Hbad as [H|H]; [discriminate|].
    unfold bind at 1, get at 1.
    replace (sonar_count st <? MAX_SONARS pc) with false
      by (symmetry; apply Z.ltb_ge; lia). eauto. }
  destruct Hmsg as [msg Hrun]. rewrite Hrun.
  destruct (fail_with pc msg st) as [r st'] eqn:Hfail.
  destruct (fail_with_raises pc msg st) as [e He]. rewrite Hfail in He.
  cbn [fst] in He. subst r.
  pose proof (teardown_only_fail_with pc msg st) as Hkeep.
  rewrite Hfail in Hkeep. cbn [snd] in Hkeep.
  exists e, st'. split; [reflexivity|]. split; [exact Hkeep|].
  split; [exact (f_equal sonar_count Hkeep)|].
  split; [exact (f_equal pico_pins Hkeep)|].
  split; [exact (f_equal sonar_callbacks Hkeep)|].
  intros p Hp Ho Hs Hr.
  pose proof (sent_fail_with pc msg st p Hp Ho Hs Hr) as Hsent.
  rewrite Hfail in Hsent. cbn [snd] in Hsent.
  rewrite (fail_with_open pc msg st p) in Hfail by assumption.
  split; [exists msg; congruence|exact Hsent].
Qed.

Lemma set_pin_mode_dht_open st p pin cb :
  serial_port st = Some p -> port_open p = true ->
  is_byte (DHT_NEW pc) = true -> is_byte pin = true ->
  dht_count st < MAX_DHTS pc ->
  set_pin_mode_dht pc pin (Some cb) st
  = (Ok tt,
     set_serial_port (Some (port_accept [2; DHT_NEW pc; pin] p))
       (set_pico_pins (<[pin := AT_DHT]> (pico_pins st))
          (set_dht_count (dht_count st + 1)
             (set_dht_callbacks (<[pin := cb]> (dht_callbacks st)) st)))).
Proof.
  intros Hp Ho Hcmd Hpin Hcount.
  unfold set_pin_mode_dht. unfold bind at 1, get at 1.
  replace (dht_count st <? MAX_DHTS pc) with true
    by (symmetry; now apply Z.ltb_lt).
  unfold set_pin, bind, modify.
  rewrite (send_command_open _ p);
    [reflexivity | exact Hp | exact Ho
    | cbn [forallb]; now rewrite Hcmd, Hpin | cbn; lia].
Qed.

(** X15: at the ceiling [MAX_DHTS], or without a callback,
    [set_pin_mode_dht] raises before it has changed anything: count, pin
    table and callbacks are as before, and on an open port the error is a
    [RuntimeError] with only the shutdown sequence written. *)
Theorem dht_ceiling_is_exact st pin callback :
  callback = None \/ MAX_DHTS pc <= dht_count st ->
  exists e st',
    set_pin_mode_dht pc pin callback st = (Raise e, st')
    /\ teardown_only st st'
    /\ dht_count st' = dht_count st
    /\ pico_pins st' = pico_pins st
    /\ dht_callbacks st' = dht_callbacks st
    /\ (forall p, serial_port st = Some p -> port_open p = true ->
          is_byte (STOP_ALL_REPORTS pc) = true ->
          is_byte (RESET_BOARD pc) = true ->
          (exists msg, e = RuntimeError msg)
          /\ sent st' = sent st ++ frames_before_raise pc (config st)).
Proof.
  intros Hbad.
  assert (Hmsg : exists msg,
    set_pin_mode_dht pc pin callback st = fail_with pc msg st).
  { unfold set_pin_mode_dht. destruct callback as [cb|]; [|eauto].
    destruct Hbad as [H|H]; [discriminate|].
    unfold bind at 1, get at 1.
    replace (dht_count st <? MAX_DHTS pc) with false
      by (symmetry; apply Z.ltb_ge; lia). eauto. }
  destruct Hmsg as [msg Hrun]. rewrite Hrun.
  destruct (fail_with pc msg st) as [r st'] eqn:Hfail.
  destruct (fail_with_raises pc msg st) as [e He]. rewrite Hfail in He.
  cbn [fst] in He. subst r.
  pose proof (teardown_only_fail_with pc msg st) as Hkeep.
  rewrite Hfail in Hkeep. cbn [snd] in Hkeep.
  exists e, st'. split; [reflexivity|]. split; [exact Hkeep|].
  split; [exact (f_equal dht_count Hkeep)|].
  split; [exact (f_equal pico_pins Hkeep)|].
  split; [exact (f_equal dht_callbacks Hkeep)|].
  intros p Hp Ho Hs Hr.
  pose proof (sent_fail_with pc msg st p Hp Ho Hs Hr) as Hsent.
  rewrite Hfail in Hsent. cbn [snd] in Hsent.
  rewrite (fail_with_open pc msg st p) in Hfail by assumption.
  split; [exists msg; congruence|exact Hsent].
Qed.

Lemma dht_report_data_bound st pin b2 b3 b4 b5 b6 b7 more cb :
  dht_callbacks st !! pin = Some cb ->
  _dht_report pc (0 :: pin :: b2 :: b3 :: b4 :: b5 :: b6 :: b7 :: more) st
  = (Ok tt, deliver cb [DHT_REPORT pc; 0; pin; b2; b4; b5; b3; b6; b7] st).
Proof.
  intros H. unfold _dht_report, list_get.
  set (report := 0 :: pin :: b2 :: b3 :: b4 :: b5 :: b6 :: b7 :: more).
  change (py_index report 0) with (Some 0).
  change (py_index report 1) with (Some pin).
  change (py_index report 2) with (Some b2).
  change (py_index report 3) with (Some b3).
  change (py_index report 4) with (Some b4).
  change (py_index report 5) with (Some b5).
  change (py_index report 6) with (Some b6).
  change (py_index report 7) with (Some b7).
  unfold bind, ret, dict_get, try_except. cbn [Z.eqb negb].
  now rewrite H.
Qed.

Lemma dht_report_error_not_delivered st kind pin more cb :
  kind <> 0 -> dht_callbacks st !! pin = Some cb ->
  _dht_report pc (kind :: pin :: more) st = (Ok tt, st).
Proof.
  intros Hk H. unfold _dht_report, list_get.
  change (py_index (kind :: pin :: more) 0) with (Some kind).
  change (py_index (kind :: pin :: more) 1) with (Some pin).
  unfold bind at 1, ret at 1.
  replace (negb (kind =? 0)) with true
    by (symmetry; apply negb_true_iff; now apply Z.eqb_neq).
  unfold bind, ret, dict_get. rewrite H. cbn beta iota zeta. now rewrite H.
Qed.

(** X16: below the ceiling [set_pin_mode_dht] counts the device, marks the
    pin, sends [2, DHT_NEW, pin] and files the callback; a data report
    (first byte 0) for the pin then calls it with the report's sign,
    integer and fraction bytes, humidity first, while an error report
    (first byte not 0) for the pin returns without any call. *)
Theorem dht_reports_after_registration st p pin cb :
  serial_port st = Some p -> port_open p = true ->
  is_byte (DHT_NEW pc) = true -> is_byte pin = true ->
  dht_count st < MAX_DHTS pc ->
  exists st1,
    set_pin_mode_dht pc pin (Some cb) st = (Ok tt, st1)
    /\ dht_count st1 = dht_count st + 1
    /\ pico_pins st1 !! pin = Some AT_DHT
    /\ sent st1 = sent st ++ [[2; DHT_NEW pc; pin]]
    /\ (forall b2 b3 b4 b5 b6 b7 more,
          _dht_report pc (0 :: pin :: b2 :: b3 :: b4 :: b5 :: b6 :: b7 :: more) st1
          = (Ok tt, deliver cb [DHT_REPORT pc; 0; pin; b2; b4; b5; b3; b6; b7] st1))
    /\ (forall kind more, kind <> 0 ->
          _dht_report pc (kind :: pin :: more) st1 = (Ok tt, st1)).
Proof.
  intros Hp Ho Hcmd Hpin Hcount.
  eexists. split; [now apply (set_pin_mode_dht_open st p)|].
  split; [reflexivity|]. split; [cbn; apply lookup_insert_eq|].
  split; [unfold sent; cbn; now rewrite Hp|]. split.
  - intros. apply dht_report_data_bound. cbn. apply lookup_insert_eq.
  - intros kind more Hk. apply (dht_report_error_not_delivered _ kind pin more cb Hk).
    cbn. apply lookup_insert_eq.
Qed.

(** ** The i2c ports *)

(** A request [set_pin_mode_i2c] turns down fails in one of its five
    tests, each a [fail_with]. *)
Lemma set_pin_mode_i2c_refused st i2c_port sda_gpio scl_gpio :
  i2c_request_ok st i2c_port sda_gpio scl_gpio = false ->
  exists e st',
    set_pin_mode_i2c pc i2c_port sda_gpio scl_gpio st = (Raise e, st')
    /\ teardown_only st st'.
Proof.
  intros Hbad. unfold set_pin_mode_i2c.
  destruct ((i2c_port =? 0) || (i2c_port =? 1)) eqn:Eport;
    [|apply guard_fails].
  unfold bind at 1, ret at 1. unfold bind at 1, get at 1.
  destruct (i2c_sda_pins st !! sda_gpio) as [o1|] eqn:Esda;
    [|apply guard_fails].
  rewrite bool_decide_eq_true_2 by eauto.
  unfold bind at 1, ret at 1. unfold bind at 1, get at 1.
  destruct (i2c_scl_pins st !! scl_gpio) as [o2|] eqn:Escl;
    [|apply guard_fails].
  rewrite bool_decide_eq_true_2 by eauto.
  unfold bind at 1, ret at 1. unfold bind at 1, dict_get at 1. rewrite Esda.
  destruct (o1 =? 255) eqn:E1; [|apply guard_fails].
  unfold bind at 1, ret at 1. unfold bind at 1, dict_get at 1. rewrite Escl.
  destruct (o2 =? 255) eqn:E2; [|apply guard_fails].
  exfalso. apply Z.eqb_eq in E1, E2. subst o1 o2.
  unfold i2c_request_ok in Hbad. rewrite Eport, Esda, Escl in Hbad.
  rewrite !bool_decide_eq_true_2 in Hbad by reflexivity. discriminate.
Qed.

(** X17: [set_pin_mode_i2c] with a port other than 0 and 1, a pin that is
    not an SDA (SCL) pin, or a pin already given to a port, raises before
    it has changed anything: pin table, SDA and SCL tables and the two
    activity flags are as before. *)
Theorem set_pin_mode_i2c_validates_first st i2c_port sda_gpio scl_gpio :
  i2c_request_ok st i2c_port sda_gpio scl_gpio = false ->
  exists e st',
    set_pin_mode_i2c pc i2c_port sda_gpio scl_gpio st = (Raise e, st')
    /\ teardown_only st st'
    /\ pico_pins st' = pico_pins st
    /\ i2c_sda_pins st' = i2c_sda_pins st
    /\ i2c_scl_pins st' = i2c_scl_pins st
    /\ i2c_0_active st' = i2c_0_active st
    /\ i2c_1_active st' = i2c_1_active st.
Proof.
  intros Hbad.
  destruct (set_pin_mode_i2c_refused st i2c_port sda_gpio scl_gpio Hbad)
    as (e & st' & Hrun & Hkeep).
  exists e, st'. split; [exact Hrun|]. split; [exact Hkeep|].
  repeat split.
  - exact (f_equal pico_pins Hkeep).
  - exact (f_equal i2c_sda_pins Hkeep).
  - exact (f_equal i2c_scl_pins Hkeep).
  - exact (f_equal i2c_0_active Hkeep).
  - exact (f_equal i2c_1_active Hkeep).
Qed.

Lemma set_pin_mode_i2c_open st p i2c_port sda_gpio scl_gpio :
  serial_port st = Some p -> port_open p = true ->
  is_byte (I2C_BEGIN pc) = true ->
  is_byte sda_gpio = true -> is_byte scl_gpio = true ->
  i2c_request_ok st i2c_port sda_gpio scl_gpio = true ->
  set_pin_mode_i2c pc i2c_port sda_gpio scl_gpio st
  = (Ok tt,
     set_serial_port
       (Some (port_accept [4; I2C_BEGIN pc; i2c_port; sda_gpio; scl_gpio] p))
       ((if i2c_port =? 0 then set_i2c_0_active true else set_i2c_1_active true)
          (set_pico_pins
             (<[scl_gpio := AT_I2C]> (<[sda_gpio := AT_I2C]> (pico_pins st)))
             (set_i2c_scl_pins (<[scl_gpio := i2c_port]> (i2c_scl_pins st))
                (set_i2c_sda_pins (<[sda_gpio := i2c_port]> (i2c_sda_pins st))
                   st))))).
Proof.
  intros Hp Ho Hcmd Hsda Hscl Hok. unfold i2c_request_ok in Hok.
  apply andb_prop in Hok as [Hok Escl]. apply andb_prop in Hok as [Eport Esda].
  apply bool_decide_eq_true_1 in Esda, Escl.
  assert (Hpb : is_byte i2c_port = true).
  { apply orb_prop in Eport as [E|E]; apply Z.eqb_eq in E; now subst. }
  unfold set_pin_mode_i2c. rewrite Eport.
  unfold bind at 1, ret at 1. unfold bind at 1, get at 1.
  rewrite Esda. rewrite bool_decide_eq_true_2 by eauto.
  unfold bind at 1, ret at 1. unfold bind at 1, get at 1.
  rewrite Escl. rewrite bool_decide_eq_true_2 by eauto.
  unfold bind at 1, ret at 1. unfold bind at 1, dict_get at 1. rewrite Esda.
  cbn [Z.eqb Pos.eqb]. unfold bind at 1, ret at 1.
  unfold bind at 1, dict_get at 1. rewrite Escl.
  cbn [Z.eqb Pos.eqb]. unfold bind at 1, ret at 1.
  unfold set_pin, bind, modify.
  destruct (i2c_port =? 0);
    (rewrite (send_command_open _ p);
       [reflexivity | exact Hp | exact Ho
       | cbn [forallb]; now rewrite Hcmd, Hpb, Hsda, Hscl | cbn; lia]).
Qed.

(** X18: a successful [set_pin_mode_i2c] gives the two pins to the port,
    marks them as i2c in the pin table and sends
    [4, I2C_BEGIN, port, sda, scl]; from then on every
    [set_pin_mode_i2c] that names the same SDA or the same SCL pin
    fails, for either port, and changes nothing. *)
Theorem i2c_pins_are_exclusive st p i2c_port sda_gpio scl_gpio :
  serial_port st = Some p -> port_open p = true ->
  is_byte (I2C_BEGIN pc) = true ->
  is_byte sda_gpio = true -> is_byte scl_gpio = true ->
  i2c_request_ok st i2c_port sda_gpio scl_gpio = true ->
  exists st1,
    set_pin_mode_i2c pc i2c_port sda_gpio scl_gpio st = (Ok tt, st1)
    /\ i2c_sda_pins st1 !! sda_gpio = Some i2c_port
    /\ i2c_scl_pins st1 !! scl_gpio = Some i2c_port
    /\ pico_pins st1 !! sda_gpio = Some AT_I2C
    /\ pico_pins st1 !! scl_gpio = Some AT_I2C
    /\ sent st1 = sent st ++ [[4; I2C_BEGIN pc; i2c_port; sda_gpio; scl_gpio]]
    /\ (forall port' sda' scl',
          sda' = sda_gpio \/ scl' = scl_gpio ->
          exists e st2,
            set_pin_mode_i2c pc port' sda' scl' st1 = (Raise e, st2)
            /\ teardown_only st1 st2).
Proof.
  intros Hp Ho Hcmd Hsda Hscl Hok.
  assert (Hport : i2c_port <> 255).
  { unfold i2c_request_ok in Hok. apply andb_prop in Hok as [Hok _].
    apply andb_prop in Hok as [Eport _].
    apply orb_prop in Eport as [E|E]; apply Z.eqb_eq in E; lia. }
  eexists. split; [now apply (set_pin_mode_i2c_open st p)|].
  assert (Hs : forall st0, i2c_sda_pins
            ((if i2c_port =? 0 then set_i2c_0_active true else set_i2c_1_active true) st0)
            = i2c_sda_pins st0) by (intros; now destruct (i2c_port =? 0)).
  assert (Hc : forall st0, i2c_scl_pins
            ((if i2c_port =? 0 then set_i2c_0_active true else set_i2c_1_active true) st0)
            = i2c_scl_pins st0) by (intros; now destruct (i2c_port =? 0)).
  assert (Hpp : forall st0, pico_pins
            ((if i2c_port =? 0 then set_i2c_0_active true else set_i2c_1_active true) st0)
            = pico_pins st0) by (intros; now destruct (i2c_port =? 0)).
  cbn [i2c_sda_pins i2c_scl_pins pico_pins set_serial_port].
  rewrite Hs, Hc, Hpp. cbn [i2c_sda_pins i2c_scl_pins pico_pins set_pico_pins
                            set_i2c_scl_pins set_i2c_sda_pins].
  split; [apply lookup_insert_eq|]. split; [apply lookup_insert_eq|].
  split.
  { destruct (decide (scl_gpio = sda_gpio)) as [->|Hne].
    - apply lookup_insert_eq.
    - rewrite lookup_insert_ne by exact Hne. apply lookup_insert_eq. }
  split; [apply lookup_insert_eq|].
  split; [unfold sent; cbn; now rewrite Hp|].
  intros port' sda' scl' Hsame.
  destruct (set_pin_mode_i2c_refused
              (set_serial_port
                 (Some (port_accept [4; I2C_BEGIN pc; i2c_port; sda_gpio; scl_gpio] p))
                 ((if i2c_port =? 0 then set_i2c_0_active true
                   else set_i2c_1_active true)
                    (set_pico_pins
                       (<[scl_gpio := AT_I2C]> (<[sda_gpio := AT_I2C]> (pico_pins st)))
                       (set_i2c_scl_pins (<[scl_gpio := i2c_port]> (i2c_scl_pins st))
                          (set_i2c_sda_pins
                             (<[sda_gpio := i2c_port]> (i2c_sda_pins st)) st)))))
              port' sda' scl') as (e & st2 & Hrun & Hkeep).
  - unfold i2c_request_ok. cbn [i2c_sda_pins i2c_scl_pins set_serial_port].
    rewrite Hs, Hc. cbn [i2c_sda_pins i2c_scl_pins set_pico_pins
                          set_i2c_scl_pins set_i2c_sda_pins].
    destruct Hsame as [-> | ->].
    + rewrite lookup_insert_eq.
      rewrite (bool_decide_eq_false_2 (Some i2c_port = Some 255)) by congruence.
      now rewrite andb_false_r.
    + rewrite lookup_insert_eq.
      rewrite (bool_decide_eq_false_2 (Some i2c_port = Some 255)) by congruence.
      now rewrite andb_false_r.
  - now exists e, st2.
Qed.

Lemma i2c_read_report_port0 st cb address more :
  i2c_callback st = Some cb ->
  _i2c_read_report pc (0 :: address :: more) st
  = (Ok tt,
     set_delivered
       (delivered st ++ [(cb, I2C_READ_REPORT pc :: 0 :: address :: more)]) st).
Proof.
  intros H. unfold _i2c_read_report, report_list, bind, list_get.
  change (py_index (0 :: address :: more) 0) with (Some 0).
  change (py_index (0 :: address :: more) 1) with (Some address).
  cbn [ret drop app]. change (drop 0 more) with more.
  change (py_index (I2C_READ_REPORT pc :: 0 :: address :: more) 1) with (Some 0).
  cbn [ret Z.eqb negb]. unfold get. rewrite H. reflexivity.
Qed.

(** X19: on an active port 0, [i2c_read] sends
    [6, I2C_READ, 0, address, register, count, no_stop], with
    [I2C_NO_REGISTER] for the register when none or register 0 is given,
    and a read report for port 0 then calls the callback given with the
    report, [I2C_READ_REPORT] first. *)
Theorem i2c_read_report_reaches_callback
    st p address register number_of_bytes cb no_stop reply more rest :
  serial_port st = Some p -> port_open p = true ->
  i2c_0_active st = true ->
  forallb is_byte [I2C_READ pc; address; register_byte pc register;
                   number_of_bytes] = true ->
  shutdown_flag st = false -> port_read_fault p = None ->
  port_rx p
  = Z.of_nat (S (length (0 :: reply :: more)))
    :: I2C_READ_REPORT pc :: (0 :: reply :: more) ++ rest ->
  report_dispatch pc !! I2C_READ_REPORT pc = Some H_i2c_read_report ->
  exists st1 st2,
    i2c_read pc address register number_of_bytes (Some cb) 0 no_stop st
    = (Ok tt, st1)
    /\ sent st1
       = sent st ++ [[6; I2C_READ pc; 0; address; register_byte pc register;
                      number_of_bytes; Z.b2z no_stop]]
    /\ dispatcher_pass pc st1 = Passed (Ok Continue) st2
    /\ delivered st2
       = delivered st ++ [(cb, I2C_READ_REPORT pc :: 0 :: reply :: more)].
Proof.
  intros Hp Ho Hact Hb Hflag Hfault Hrx Hh.
  cbn [forallb] in Hb. rewrite andb_true_r in Hb.
  apply andb_prop in Hb as [Hcmd Hb]. apply andb_prop in Hb as [Haddr Hb].
  apply andb_prop in Hb as [Hreg Hn].
  eexists _, _. split.
  { unfold i2c_read, bind at 1, ret at 1. unfold bind at 1, bind at 1, get at 1.
    cbn [Z.eqb]. rewrite Hact. cbn [modify].
    fold (register_byte pc register).
    rewrite (send_command_open _ p);
      [reflexivity | exact Hp | exact Ho
      | cbn [forallb]; now rewrite Hcmd, Haddr, Hreg, Hn, is_byte_b2z
      | cbn; lia]. }
  split; [unfold sent; cbn; now rewrite Hp|].
  split.
  - erewrite (dispatcher_pass_frame pc _ _ (I2C_READ_REPORT pc)
                (0 :: reply :: more) rest);
      [|exact Hflag|reflexivity|exact Hfault|exact Hrx].
    cbn zeta. rewrite Hh. cbn [run_handler].
    rewrite (i2c_read_report_port0 _ cb) by reflexivity. reflexivity.
  - reflexivity.
Qed.

Lemma i2c_read_report_port1 st port address more :
  port <> 0 -> i2c_callback2 st = None ->
  _i2c_read_report pc (port :: address :: more) st = (Raise TypeError, st).
Proof.
  intros Hport H. unfold _i2c_read_report, report_list, bind, list_get.
  change (py_index (port :: address :: more) 0) with (Some port).
  change (py_index (port :: address :: more) 1) with (Some address).
  cbn [ret drop app]. change (drop 0 more) with more.
  change (py_index (I2C_READ_REPORT pc :: port :: address :: more) 1)
    with (Some port).
  cbn [ret]. apply Z.eqb_neq in Hport. rewrite Hport. cbn [negb].
  unfold get. rewrite H. reflexivity.
Qed.

(** X20: [i2c_read] on port 1 sends its command but stores the callback
    nowhere: [i2c_callback2] stays unset, and a read report for a port
    other than 0 then ends the dispatcher with [TypeError], nothing
    delivered. *)
Theorem i2c_port1_read_registers_no_callback
    st p address register number_of_bytes cb no_stop port reply more rest :
  serial_port st = Some p -> port_open p = true ->
  i2c_callback2 st = None ->
  forallb is_byte [I2C_READ pc; address; register_byte pc register;
                   number_of_bytes] = true ->
  shutdown_flag st = false -> port_read_fault p = None ->
  port <> 0 ->
  port_rx p
  = Z.of_nat (S (length (port :: reply :: more)))
    :: I2C_READ_REPORT pc :: (port :: reply :: more) ++ rest ->
  report_dispatch pc !! I2C_READ_REPORT pc = Some H_i2c_read_report ->
  exists st1 st2,
    i2c_read pc address register number_of_bytes (Some cb) 1 no_stop st
    = (Ok tt, st1)
    /\ sent st1
       = sent st ++ [[6; I2C_READ pc; 1; address; register_byte pc register;
                      number_of_bytes; Z.b2z no_stop]]
    /\ i2c_callback2 st1 = None
    /\ i2c_callback st1 = i2c_callback st
    /\ dispatcher_pass pc st1 = Passed (Raise TypeError) st2
    /\ delivered st2 = delivered st.
Proof.
  intros Hp Ho Hcb2 Hb Hflag Hfault Hport Hrx Hh.
  cbn [forallb] in Hb. rewrite andb_true_r in Hb.
  apply andb_prop in Hb as [Hcmd Hb]. apply andb_prop in Hb as [Haddr Hb].
  apply andb_prop in Hb as [Hreg Hn].
  eexists _, _. split.
  { unfold i2c_read, bind at 1, ret at 1. unfold bind at 1.
    cbn [Z.eqb Pos.eqb negb ret].
    fold (register_byte pc register).
    rewrite (send_command_open _ p);
      [reflexivity | exact Hp | exact Ho
      | cbn [forallb]; now rewrite Hcmd, Haddr, Hreg, Hn, is_byte_b2z
      | cbn; lia]. }
  split; [unfold sent; cbn; now rewrite Hp|].
  split; [exact Hcb2|]. split; [reflexivity|].
  split.
  - erewrite (dispatcher_pass_frame pc _ _ (I2C_READ_REPORT pc)
                (port :: reply :: more) rest);
      [|exact Hflag|reflexivity|exact Hfault|exact Hrx].
    cbn zeta. rewrite Hh. cbn [run_handler].
    rewrite (i2c_read_report_port1 _ port reply more Hport) by exact Hcb2.
    reflexivity.
  - reflexivity.
Qed.

(** ** Reports that shut the session down *)

(** X21: an [I2C_TOO_FEW_BYTES_RECEIVED] or [I2C_TOO_MANY_BYTES_RECEIVED]
    report runs [shutdown] when [shutdown_on_exception] is set, after
    which the dispatcher returns with the shutdown sequence written and
    the port closed; when it is not set the report is only consumed and
    the dispatcher goes on.  No callback is called either way. *)
Theorem i2c_byte_count_report_shuts_down st p report port rest fuel :
  serial_port st = Some p -> port_open p = true ->
  shutdown_flag st = false -> port_read_fault p = None ->
  is_byte (STOP_ALL_REPORTS pc) = true -> is_byte (RESET_BOARD pc) = true ->
  port_rx p = 2 :: report :: port :: rest ->
  (report_dispatch pc !! report = Some H_i2c_too_few_bytes_received
   \/ report_dispatch pc !! report = Some H_i2c_too_many_bytes_received) ->
  exists st',
    _pico_report_dispatcher pc (S (S fuel)) st
    = (if shutdown_on_exception (config st) then Returned st'
       else _pico_report_dispatcher pc (S fuel) st')
    /\ sent st' = sent st ++ frames_before_raise pc (config st)
    /\ transport_open st' = negb (shutdown_on_exception (config st))
    /\ shutdown_flag st' = shutdown_on_exception (config st)
    /\ delivered st' = delivered st.
Proof.
  intros Hp Ho Hflag Hfault Hstop Hreset Hrx Hh.
  assert (Hrx' : port_rx p
                 = Z.of_nat (S (length [port])) :: report :: [port] ++ rest)
    by (rewrite Hrx; reflexivity).
  pose proof (dispatcher_pass_frame pc st p report [port] rest
                Hflag Hp Hfault Hrx') as Hpass. cbn zeta in Hpass.
  assert (Hrun : forall h,
            h = H_i2c_too_few_bytes_received
            \/ h = H_i2c_too_many_bytes_received ->
            run_handler pc h [port]
              (set_serial_port (Some (port_consume (S (S (length [port]))) p)) st)
            = (Ok tt,
               if shutdown_on_exception (config st)
               then after_shutdown pc
                      (set_serial_port
                         (Some (port_consume (S (S (length [port]))) p)) st)
                      (port_consume (S (S (length [port]))) p)
               else set_serial_port
                      (Some (port_consume (S (S (length [port]))) p)) st)).
  { intros h [-> | ->]; cbn [run_handler];
      unfold _i2c_too_few_bytes_received, _i2c_too_many_bytes_received,
        bind at 1, list_get at 1;
      change (py_index [port] 0) with (Some port); cbn [ret];
      unfold shutdown_if_configured, bind, get; cbn [config set_serial_port];
      (destruct (shutdown_on_exception (config st)); cbn [when];
       [ now rewrite (shutdown_open pc _ (port_consume (S (S (length [port]))) p))
       | reflexivity ]). }
  exists (if shutdown_on_exception (config st)
          then after_shutdown pc
                 (set_serial_port
                    (Some (port_consume (S (S (length [port]))) p)) st)
                 (port_consume (S (S (length [port]))) p)
          else set_serial_port
                 (Some (port_consume (S (S (length [port]))) p)) st).
  split; [|split; [|split; [|split]]].
  - cbn [_pico_report_dispatcher]. rewrite Hpass.
    destruct Hh as [Hh|Hh]; rewrite Hh; (rewrite Hrun by auto);
      (destruct (shutdown_on_exception (config st)) eqn:Hsoe;
       [ unfold dispatcher_pass, after_shutdown; cbn;
         destruct (close_loop_on_shutdown (config st)); reflexivity
       | reflexivity ]).
  - unfold frames_before_raise.
    destruct (shutdown_on_exception (config st)).
    + rewrite sent_after_shutdown by reflexivity. unfold sent. cbn. now rewrite Hp.
    + rewrite app_nil_r. unfold sent. cbn. now rewrite Hp.
  - unfold transport_open, after_shutdown.
    destruct (shutdown_on_exception (config st)); cbn;
      [destruct (reset_on_shutdown (config st)),
                (close_loop_on_shutdown (config st)); reflexivity
      | exact Ho].
  - unfold after_shutdown.
    destruct (shutdown_on_exception (config st)); cbn;
      [destruct (close_loop_on_shutdown (config st)); reflexivity | exact Hflag].
  - unfold after_shutdown.
    destruct (shutdown_on_exception (config st)); cbn;
      [destruct (close_loop_on_shutdown (config st)); reflexivity | reflexivity].
Qed.

(** X22: a [SERVO_UNAVAILABLE] report ends the dispatcher with the
    [RuntimeError] of [_servo_unavailable], after the shutdown sequence
    when [shutdown_on_exception] is set; no callback is called. *)
Theorem servo_unavailable_report_crashes_dispatcher st p pin more rest fuel :
  serial_port st = Some p -> port_open p = true ->
  shutdown_flag st = false -> port_read_fault p = None ->
  is_byte (STOP_ALL_REPORTS pc) = true -> is_byte (RESET_BOARD pc) = true ->
  port_rx p
  = Z.of_nat (S (length (pin :: more)))
    :: SERVO_UNAVAILABLE pc :: (pin :: more) ++ rest ->
  report_dispatch pc !! SERVO_UNAVAILABLE pc = Some H_servo_unavailable ->
  exists st',
    _pico_report_dispatcher pc (S fuel) st
    = Crashed
        (RuntimeError
           "Servo Attach For Pin {report[0]} Failed: No Available Servos") st'
    /\ sent st' = sent st ++ frames_before_raise pc (config st)
    /\ transport_open st' = negb (shutdown_on_exception (config st))
    /\ delivered st' = delivered st.
Proof.
  intros Hp Ho Hflag Hfault Hstop Hreset Hrx Hh.
  pose proof (dispatcher_pass_frame pc st p (SERVO_UNAVAILABLE pc) (pin :: more)
                rest Hflag Hp Hfault Hrx) as Hpass.
  cbn zeta in Hpass. rewrite Hh in Hpass. cbn [run_handler] in Hpass.
  set (p1 := port_consume (S (S (length (pin :: more)))) p) in *.
  set (st1 := set_serial_port (Some p1) st) in *.
  assert (Hrun : _servo_unavailable pc (pin :: more) st1
            = (Raise (RuntimeError
                 "Servo Attach For Pin {report[0]} Failed: No Available Servos"),
               if shutdown_on_exception (config st)
               then after_shutdown pc st1 p1 else st1)).
  { unfold _servo_unavailable, bind at 1, shutdown_if_configured, bind at 1,
      get at 1.
    change (config st1) with (config st).
    destruct (shutdown_on_exception (config st)); cbn [when].
    - rewrite (shutdown_open pc st1 p1) by (reflexivity || assumption).
      reflexivity.
    - reflexivity. }
  rewrite Hrun in Hpass.
  exists (if shutdown_on_exception (config st)
          then after_shutdown pc st1 p1 else st1).
  split; [cbn [_pico_report_dispatcher]; now rewrite Hpass|].
  unfold frames_before_raise.
  destruct (shutdown_on_exception (config st)).
  - split; [|split].
    + rewrite sent_after_shutdown by reflexivity. unfold sent. cbn. now rewrite Hp.
    + unfold transport_open, after_shutdown. cbn.
      destruct (reset_on_shutdown (config st)),
               (close_loop_on_shutdown (config st)); reflexivity.
    + unfold after_shutdown. cbn.
      destruct (close_loop_on_shutdown (config st)); reflexivity.
  - split; [|split].
    + rewrite app_nil_r. unfold sent. cbn. now rewrite Hp.
    + exact Ho.
    + reflexivity.
Qed.

(** ** The loop-back round trip *)

(** X23: [loop_back] of a one-character string sends
    [2, LOOP_COMMAND, code] and files the callback; the looped-back
    report then calls it with the report's data, or is dropped when no
    callback was given.  A string of any other length is a [TypeError]
    of [ord], with nothing changed. *)
Theorem loop_back_round_trip st p c callback data rest :
  serial_port st = Some p -> port_open p = true ->
  is_byte (LOOP_COMMAND pc) = true -> is_byte c = true ->
  shutdown_flag st = false -> port_read_fault p = None ->
  port_rx p = Z.of_nat (S (length data)) :: LOOP_COMMAND pc :: data ++ rest ->
  report_dispatch pc !! LOOP_COMMAND pc = Some H_report_loop_data ->
  exists st1 st2,
    loop_back pc [c] callback st = (Ok tt, st1)
    /\ sent st1 = sent st ++ [[2; LOOP_COMMAND pc; c]]
    /\ dispatcher_pass pc st1 = Passed (Ok Continue) st2
    /\ delivered st2
       = delivered st
         ++ match callback with Some cb => [(cb, data)] | None => [] end
    /\ (forall s, length s <> 1%nat ->
          loop_back pc s callback st = (Raise TypeError, st)).
Proof.
  intros Hp Ho Hcmd Hc Hflag Hfault Hrx Hh.
  assert (Hsend : loop_back pc [c] callback st
                  = (Ok tt,
                     set_serial_port
                       (Some (port_accept [2; LOOP_COMMAND pc; c] p))
                       (set_loop_back_callback callback st))).
  { unfold loop_back, bind at 1, ret at 1. unfold bind at 1, modify at 1.
    rewrite (send_command_open _ p);
      [reflexivity | exact Hp | exact Ho
      | cbn [forallb]; now rewrite Hcmd, Hc | cbn; lia]. }
  rewrite Hsend.
  pose proof (dispatcher_pass_frame pc
                (set_serial_port
                   (Some (port_accept [2; LOOP_COMMAND pc; c] p))
                   (set_loop_back_callback callback st))
                (port_accept [2; LOOP_COMMAND pc; c] p)
                (LOOP_COMMAND pc) data rest Hflag eq_refl Hfault Hrx) as Hpass.
  cbn zeta in Hpass. rewrite Hh in Hpass. cbn [run_handler] in Hpass.
  unfold _report_loop_data, bind, get in Hpass.
  cbn [loop_back_callback set_serial_port set_loop_back_callback] in Hpass.
  destruct callback as [cb|].
  - eexists _, _. split; [reflexivity|].
    split; [unfold sent; cbn; now rewrite Hp|].
    split; [exact Hpass|]. split; [reflexivity|].
    intros s Hlen. destruct s as [|c0 [|c1 s]]; try reflexivity. now cbn in Hlen.
  - eexists _, _. split; [reflexivity|].
    split; [unfold sent; cbn; now rewrite Hp|].
    split; [exact Hpass|]. split; [cbn; now rewrite app_nil_r|].
    intros s Hlen. destruct s as [|c0 [|c1 s]]; try reflexivity. now cbn in Hlen.
Qed.

(** ** The PWM range and the NeoPixel strip *)

Section MoreCommands.

Variable xc : MoreConstants.

Lemma pwm_range_accepts st p range_pwm :
  serial_port st = Some p -> port_open p = true ->
  is_byte (SET_PWM_RANGE xc) = true ->
  16 <= range_pwm <= 65535 ->
  pwm_range pc xc range_pwm st
  = (Ok tt,
     set_serial_port
       (Some (port_accept [5; SET_PWM_RANGE xc; 0; 0; Z.shiftr range_pwm 8;
                           Z.land range_pwm 255] p))
       (set_maximum_pwm_duty_cycle range_pwm st)).
Proof.
  intros Hp Ho Hcmd Hr.
  destruct (two_bytes_big_endian range_pwm) as (Hhi & Hlo & Hsum); [lia|].
  assert (H24 : Z.shiftr range_pwm 24 = 0).
  { rewrite Z.shiftr_div_pow2 by lia. apply Z.div_small. lia. }
  assert (H16 : Z.land (Z.shiftr range_pwm 16) 255 = 0).
  { rewrite Z.shiftr_div_pow2 by lia. rewrite Z.div_small by lia. reflexivity. }
  assert (H8 : Z.land (Z.shiftr range_pwm 8) 255 = Z.shiftr range_pwm 8).
  { change 255 with (Z.ones 8). rewrite Z.land_ones by lia.
    apply Z.mod_small. unfold is_byte in Hhi.
    apply andb_true_iff in Hhi as [?%Z.leb_le ?%Z.leb_le]. change (2^8) with 256. lia. }
  unfold pwm_range.
  replace ((16 <=? range_pwm) && (range_pwm <=? 65535)) with true
    by (symmetry; apply andb_true_iff; split; apply Z.leb_le; lia).
  unfold to_bytes_4_big.
  replace ((0 <=? range_pwm) && (range_pwm <? 4294967296)) with true
    by (symmetry; apply andb_true_iff; split; [apply Z.leb_le|apply Z.ltb_lt]; lia).
  rewrite H24, H16, H8.
  unfold bind at 1, ret at 1. unfold bind at 1, modify at 1.
  change (list_get [0; 0; Z.shiftr range_pwm 8; Z.land range_pwm 255] 0) with (@ret Z 0).
  change (list_get [0; 0; Z.shiftr range_pwm 8; Z.land range_pwm 255] 1) with (@ret Z 0).
  change (list_get [0; 0; Z.shiftr range_pwm 8; Z.land range_pwm 255] 2)
    with (@ret Z (Z.shiftr range_pwm 8)).
  change (list_get [0; 0; Z.shiftr range_pwm 8; Z.land range_pwm 255] 3)
    with (@ret Z (Z.land range_pwm 255)).
  unfold bind, ret.
  rewrite (send_command_open _ p); auto.
  - cbn [forallb]. now rewrite Hcmd, Hhi, Hlo.
  - cbn; lia.
Qed.

(** X24: [pwm_range] with a range from 16 to 65535 stores it as the
    session's maximum duty cycle and sends it as four bytes, high byte
    first; [pwm_write] then accepts exactly the duty cycles from 0 to the
    new range. *)
Theorem pwm_range_sets_the_ceiling st p range_pwm pin mode duty_cycle :
  serial_port st = Some p -> port_open p = true ->
  command_bytes pc = true -> is_byte (SET_PWM_RANGE xc) = true ->
  is_byte pin = true ->
  16 <= range_pwm <= 65535 ->
  pico_pins st !! pin = Some mode ->
  mode = AT_PWM_OUTPUT \/ mode = AT_SERVO ->
  exists st1,
    pwm_range pc xc range_pwm st = (Ok tt, st1)
    /\ maximum_pwm_duty_cycle st1 = range_pwm
    /\ sent st1
       = sent st ++ [[5; SET_PWM_RANGE xc; 0; 0; Z.shiftr range_pwm 8;
                      Z.land range_pwm 255]]
    /\ 256 * Z.shiftr range_pwm 8 + Z.land range_pwm 255 = range_pwm
    /\ (0 <= duty_cycle <= range_pwm ->
        exists st2, pwm_write pc pin duty_cycle st1 = (Ok tt, st2))
    /\ (range_pwm < duty_cycle ->
        exists st2,
          pwm_write pc pin duty_cycle st1
          = (Raise (RuntimeError "Raw PWM duty cycle out of range"), st2)).
Proof.
  intros Hp Ho Hbytes Hcmd Hpin Hr Hmode Hm.
  unfold command_bytes in Hbytes. cbn [forallb] in Hbytes.
  repeat (apply andb_prop in Hbytes as [? Hbytes]).
  eexists. split; [now apply (pwm_range_accepts st p)|].
  split; [reflexivity|]. split; [unfold sent; cbn; now rewrite Hp|].
  split; [apply two_bytes_big_endian; lia|]. split.
  - intros Hd. eexists.
    apply (pwm_write_open _
             (port_accept [5; SET_PWM_RANGE xc; 0; 0; Z.shiftr range_pwm 8;
                           Z.land range_pwm 255] p) pin duty_cycle mode);
      [reflexivity | reflexivity | assumption | exact Hpin | exact Hmode
      | exact Hm | cbn; lia | lia].
  - intros Hd. eexists.
    unfold pwm_write. unfold bind at 1, dict_get at 1.
    cbn [pico_pins set_serial_port set_maximum_pwm_duty_cycle]. rewrite Hmode.
    replace (negb (mode =? AT_PWM_OUTPUT) && negb (mode =? AT_SERVO)) with false
      by (destruct Hm as [-> | ->]; reflexivity).
    unfold bind at 1, ret at 1. unfold bind at 1, get at 1.
    cbn [maximum_pwm_duty_cycle set_serial_port set_maximum_pwm_duty_cycle].
    replace ((0 <=? duty_cycle) && (duty_cycle <=? range_pwm)) with false
      by (symmetry; apply andb_false_iff; right; apply Z.leb_gt; lia).
    apply bind_Raise. eapply fail_with_open; auto; reflexivity.
Qed.

(** X25: [pwm_range] with a range below 16 or above 65535 raises and
    leaves the maximum duty cycle as it was; on an open port the error
    is the "out of range" [RuntimeError] with only the shutdown sequence
    written. *)
Theorem pwm_range_rejects st range_pwm :
  range_pwm < 16 \/ 65535 < range_pwm ->
  exists e st',
    pwm_range pc xc range_pwm st = (Raise e, st')
    /\ maximum_pwm_duty_cycle st' = maximum_pwm_duty_cycle st
    /\ teardown_only st st'
    /\ (forall p, serial_port st = Some p -> port_open p = true ->
          is_byte (STOP_ALL_REPORTS pc) = true ->
          is_byte (RESET_BOARD pc) = true ->
          e = RuntimeError "pwm_range is out of range"
          /\ sent st' = sent st ++ frames_before_raise pc (config st)).
Proof.
  intros Hr. set (msg := "pwm_range is out of range"%string).
  destruct (fail_with pc msg st) as [r st'] eqn:Hfail.
  destruct (fail_with_raises pc msg st) as [e He]. rewrite Hfail in He.
  cbn [fst] in He. subst r.
  pose proof (teardown_only_fail_with pc msg st) as Hkeep.
  rewrite Hfail in Hkeep. cbn [snd] in Hkeep.
  exists e, st'. split; [|split; [|split]].
  - unfold pwm_range.
    replace ((16 <=? range_pwm) && (range_pwm <=? 65535)) with false; [exact Hfail|].
    symmetry. apply andb_false_iff.
    destruct Hr; [left|right]; apply Z.leb_gt; lia.
  - exact (f_equal maximum_pwm_duty_cycle Hkeep).
  - exact Hkeep.
  - intros p Hp Ho Hs Hrb.
    pose proof (sent_fail_with pc msg st p Hp Ho Hs Hrb) as Hsent.
    rewrite Hfail in Hsent. cbn [snd] in Hsent.
    rewrite (fail_with_open pc msg st p) in Hfail by assumption.
    split; [congruence|exact Hsent].
Qed.

Lemma require_neopixels_fails st p :
  serial_port st = Some p -> port_open p = true ->
  is_byte (STOP_ALL_REPORTS pc) = true -> is_byte (RESET_BOARD pc) = true ->
  neopixels_initiated st = false ->
  require_neopixels pc st
  = (Raise (RuntimeError neopixel_message),
     if shutdown_on_exception (config st) then after_shutdown pc st p else st).
Proof.
  intros Hp Ho Hs Hr Hinit. unfold require_neopixels, bind, get.
  rewrite Hinit. now apply fail_with_open.
Qed.

(** X26: before [set_pin_mode_neopixel], each of [neopixel_show],
    [neopixel_clear], [neopixel_fill] and [neo_pixel_set_value] raises
    the "You must call set_pin_mode_neopixel first" error without
    writing its command. *)
Theorem neopixel_methods_need_the_strip st p :
  serial_port st = Some p -> port_open p = true ->
  is_byte (STOP_ALL_REPORTS pc) = true -> is_byte (RESET_BOARD pc) = true ->
  neopixels_initiated st = false ->
  forall m,
    (m = neopixel_show pc xc
     \/ (exists auto_show, m = neopixel_clear pc xc auto_show)
     \/ (exists r g b auto_show, m = neopixel_fill pc xc r g b auto_show)
     \/ (exists n r g b auto_show,
           m = neo_pixel_set_value pc xc n r g b auto_show)) ->
    exists st',
      m st = (Raise (RuntimeError neopixel_message), st')
      /\ sent st' = sent st ++ frames_before_raise pc (config st)
      /\ teardown_only st st'.
Proof.
  intros Hp Ho Hs Hr Hinit m Hm.
  pose proof (require_neopixels_fails st p Hp Ho Hs Hr Hinit) as Hfail.
  pose proof (sent_fail_with pc neopixel_message st p Hp Ho Hs Hr) as Hsent.
  rewrite (fail_with_open pc _ st p Hp Ho Hs Hr) in Hsent. cbn [snd] in Hsent.
  pose proof (teardown_only_fail_with pc neopixel_message st) as Hkeep.
  rewrite (fail_with_open pc _ st p Hp Ho Hs Hr) in Hkeep. cbn [snd] in Hkeep.
  eexists. split; [|split; [exact Hsent|exact Hkeep]].
  destruct Hm as [-> | [[a ->] | [(r & g & b & a & ->) | (n & r & g & b & a & ->)]]];
    unfold neopixel_show, neopixel_clear, neopixel_fill, neo_pixel_set_value;
    now apply bind_Raise.
Qed.

Lemma check_colors_ok r g b st :
  forallb is_byte [r; g; b] = true ->
  check_colors pc [r; g; b] st = (Ok tt, st).
Proof.
  intros Hb. cbn [forallb] in Hb. rewrite andb_true_r in Hb.
  apply andb_prop in Hb as [Hr Hb]. apply andb_prop in Hb as [Hg Hb].
  unfold is_byte in Hr, Hg, Hb. cbn [check_colors].
  rewrite Hr, Hg, Hb. reflexivity.
Qed.

Lemma set_pin_mode_neopixel_open st p pin n r g b :
  serial_port st = Some p -> port_open p = true ->
  forallb is_byte [INIT_NEOPIXELS pc; pin; n] = true ->
  forallb is_byte [r; g; b] = true ->
  set_pin_mode_neopixel pc pin n r g b st
  = (Ok tt,
     set_neopixels_initiated true
       (set_pico_pins (<[pin := AT_NEO_PIXEL]> (pico_pins st))
          (set_serial_port
             (Some (port_accept [6; INIT_NEOPIXELS pc; pin; n; r; g; b] p))
             (set_number_of_pixels (Some n) st)))).
Proof.
  intros Hp Ho Hb Hcol. unfold set_pin_mode_neopixel.
  erewrite bind_Ok by (now apply check_colors_ok).
  unfold bind at 1, modify at 1.
  erewrite bind_Ok.
  2:{ apply (send_command_open _ p); [exact Hp | exact Ho | | cbn; lia].
      cbn [forallb] in Hb. rewrite andb_true_r in Hb.
      apply andb_prop in Hb as [Hi Hb]. apply andb_prop in Hb as [Hpin Hn].
      cbn [forallb] in Hcol. rewrite andb_true_r in Hcol.
      apply andb_prop in Hcol as [Hr Hcol]. apply andb_prop in Hcol as [Hg Hbl].
      cbn [forallb]. now rewrite Hi, Hpin, Hn, Hr, Hg, Hbl. }
  reflexivity.
Qed.

(** X27: after [set_pin_mode_neopixel] for a strip of [n] pixels,
    [neo_pixel_set_value] with colours in 0 to 255 accepts exactly the
    pixel numbers from 0 to [n - 1]: it sends
    [6, SET_NEOPIXEL, pixel, r, g, b, auto_show], followed by the
    [SHOW_NEOPIXELS] frame when [auto_show] is set; for any other pixel
    number it raises "Pixel number is out of legal range" without
    writing its command. *)
Theorem neopixel_set_value_after_init
    st p pin n r0 g0 b0 pixel r g b auto_show :
  serial_port st = Some p -> port_open p = true ->
  forallb is_byte [INIT_NEOPIXELS pc; pin; n] = true ->
  forallb is_byte [r0; g0; b0] = true ->
  forallb is_byte [SET_NEOPIXEL xc; SHOW_NEOPIXELS xc;
                   STOP_ALL_REPORTS pc; RESET_BOARD pc] = true ->
  forallb is_byte [r; g; b] = true ->
  exists st1 r2 st2,
    set_pin_mode_neopixel pc pin n r0 g0 b0 st = (Ok tt, st1)
    /\ number_of_pixels st1 = Some n
    /\ neo_pixel_set_value pc xc pixel r g b auto_show st1 = (r2, st2)
    /\ (0 <= pixel < n ->
        r2 = Ok tt
        /\ sent st2
           = sent st1
             ++ [6; SET_NEOPIXEL xc; pixel; r; g; b; Z.b2z auto_show]
                :: (if auto_show then [[1; SHOW_NEOPIXELS xc]] else []))
    /\ (~ 0 <= pixel < n ->
        r2 = Raise (RuntimeError "Pixel number is out of legal range")
        /\ sent st2 = sent st1 ++ frames_before_raise pc (config st)).
Proof.
  intros Hp Ho Hinit Hfill Hcmds Hcol.
  cbn [forallb] in Hcmds. rewrite andb_true_r in Hcmds.
  apply andb_prop in Hcmds as [Hset Hcmds]. apply andb_prop in Hcmds as [Hshow Hcmds].
  apply andb_prop in Hcmds as [Hstop Hreset].
  assert (Hn : is_byte n = true).
  { cbn [forallb] in Hinit. rewrite andb_true_r in Hinit.
    apply andb_prop in Hinit as [_ Hinit]. now apply andb_prop in Hinit as [_ ?]. }
  rewrite (set_pin_mode_neopixel_open st p pin n r0 g0 b0 Hp Ho Hinit Hfill).
  set (p1 := port_accept [6; INIT_NEOPIXELS pc; pin; n; r0; g0; b0] p).
  set (st1 := set_neopixels_initiated true _).
  assert (Hp1 : serial_port st1 = Some p1) by reflexivity.
  assert (Ho1 : port_open p1 = true) by reflexivity.
  destruct (neo_pixel_set_value pc xc pixel r g b auto_show st1) as [r2 st2] eqn:Erun.
  exists st1, r2, st2. split; [reflexivity|]. split; [reflexivity|].
  split; [exact Erun|].
  unfold neo_pixel_set_value in Erun.
  unfold bind at 1, require_neopixels, bind at 1, get at 1 in Erun.
  change (neopixels_initiated st1) with true in Erun. cbn [ret] in Erun.
  unfold bind at 1, get at 1 in Erun.
  change (number_of_pixels st1) with (Some n) in Erun.
  split.
  - intros [Hlo Hhi].
    replace (0 <=? pixel) with true in Erun by (symmetry; apply Z.leb_le; lia).
    replace (pixel <? n) with true in Erun by (symmetry; apply Z.ltb_lt; lia).
    unfold bind at 1, ret at 1 in Erun.
    erewrite bind_Ok in Erun by (now apply check_colors_ok).
    assert (Hpix : is_byte pixel = true).
    { unfold is_byte in *. apply andb_prop in Hn as [_ Hn%Z.leb_le].
      apply andb_true_iff. split; apply Z.leb_le; lia. }
    erewrite bind_Ok in Erun.
    2:{ apply (send_command_open _ p1); [exact Hp1 | exact Ho1 | | cbn; lia].
        pose proof Hcol as Hc3. cbn [forallb] in Hc3. rewrite andb_true_r in Hc3.
        apply andb_prop in Hc3 as [Hr Hc3]. apply andb_prop in Hc3 as [Hg Hb].
        cbn [forallb]. now rewrite Hset, Hpix, Hr, Hg, Hb, is_byte_b2z. }
    destruct auto_show; cbn [when] in Erun.
    + unfold neopixel_show, bind at 1, require_neopixels, bind at 1, get at 1 in Erun.
      cbn [neopixels_initiated set_serial_port ret] in Erun.
      change (neopixels_initiated st1) with true in Erun. cbn [ret] in Erun.
      rewrite (send_command_open _ (port_accept
                 (Z.of_nat (length [SET_NEOPIXEL xc; pixel; r; g; b; Z.b2z true])
                  :: [SET_NEOPIXEL xc; pixel; r; g; b; Z.b2z true]) p1)) in Erun;
        [ | reflexivity | exact Ho1 | cbn [forallb]; now rewrite Hshow | cbn; lia].
      injection Erun as <- <-. split; [reflexivity|].
      unfold sent. cbn. now rewrite <- app_assoc.
    + unfold ret in Erun. injection Erun as <- <-. split; [reflexivity|].
      reflexivity.
  - intros Hout.
    pose proof (fail_with_open pc "Pixel number is out of legal range" st1 p1
                  Hp1 Ho1 Hstop Hreset) as Hfail.
    pose proof (sent_fail_with pc "Pixel number is out of legal range" st1 p1
                  Hp1 Ho1 Hstop Hreset) as Hsent.
    rewrite Hfail in Hsent. cbn [snd] in Hsent.
    assert (Erun' : (Raise (RuntimeError "Pixel number is out of legal range"),
                     if shutdown_on_exception (config st1)
                     then after_shutdown pc st1 p1 else st1) = (r2, st2)).
    { rewrite <- Erun. symmetry.
      destruct (0 <=? pixel) eqn:E0.
      - destruct (pixel <? n) eqn:E1.
        + apply Z.leb_le in E0. apply Z.ltb_lt in E1. lia.
        + apply bind_Raise. exact Hfail.
      - apply bind_Raise. exact Hfail. }
    injection Erun' as <- <-. split; [reflexivity|]. exact Hsent.
Qed.

End MoreCommands.

End MoreProperties.

(** ** The SPI ports *)

Lemma four_bytes_big_endian n :
  0 <= n < 4294967296 ->
  forallb is_byte [Z.shiftr n 24; Z.land (Z.shiftr n 16) 255;
                   Z.land (Z.shiftr n 8) 255; Z.land n 255] = true
  /\ 16777216 * Z.shiftr n 24 + 65536 * Z.land (Z.shiftr n 16) 255
     + 256 * Z.land (Z.shiftr n 8) 255 + Z.land n 255 = n.
Proof.
  intros Hn. rewrite !Z.shiftr_div_pow2 by lia.
  change 255 with (Z.ones 8). rewrite !Z.land_ones by lia.
  change (2 ^ 8) with 256. change (2 ^ 16) with 65536.
  change (2 ^ 24) with 16777216.
  assert (Hb : 0 <= n / 16777216 <= 255 /\ 0 <= (n / 65536) mod 256 <= 255
               /\ 0 <= (n / 256) mod 256 <= 255 /\ 0 <= n mod 256 <= 255
               /\ 16777216 * (n / 16777216) + 65536 * ((n / 65536) mod 256)
                  + 256 * ((n / 256) mod 256) + n mod 256 = n)
    by (Z.to_euclidean_division_equations; lia).
  destruct Hb as (H3 & H2 & H1 & H0 & Hsum). split; [|exact Hsum].
  cbn [forallb]. unfold is_byte.
  repeat (apply andb_true_iff; split); try reflexivity; apply Z.leb_le; lia.
Qed.

Section SpiProperties.

Variable pc : PrivateConstants.
Variable sc : SpiConstants.

Lemma lift_Ok {A} (m : M A) s a st :
  m (session s) = (Ok a, st) -> lift m s = (Ok a, set_session st s).
Proof. intros H. unfold lift. now rewrite H. Qed.

Lemma lift_fail_with msg s :
  exists e s',
    lift (fail_with pc msg) s = (Raise e, s')
    /\ teardown_only (session s) (session s')
    /\ spi_fields s' = spi_fields s.
Proof.
  destruct (fail_with pc msg (session s)) as [r st'] eqn:Hfail.
  destruct (fail_with_raises pc msg (session s)) as [e He]. rewrite Hfail in He.
  cbn [fst] in He. subst r.
  pose proof (teardown_only_fail_with pc msg (session s)) as Hkeep.
  rewrite Hfail in Hkeep. cbn [snd] in Hkeep.
  exists e, (set_session st' s). unfold lift. rewrite Hfail.
  split; [reflexivity|]. split; [exact Hkeep|reflexivity].
Qed.

Lemma spi_guard_fails {B} msg (k : unit -> MS B) s :
  exists e s',
    bind_spi (lift (fail_with pc msg)) k s = (Raise e, s')
    /\ teardown_only (session s) (session s')
    /\ spi_fields s' = spi_fields s.
Proof.
  destruct (lift_fail_with msg s) as (e & s' & Hf & Hk).
  exists e, s'. split; [|exact Hk]. unfold bind_spi. now rewrite Hf.
Qed.

(** X28: [set_pin_mode_spi] with a port other than 0 and 1, a speed
    outside 1 to 49999999, a data order other than 0 and 1 or a data mode
    other than 0 to 3 raises before it has changed anything: the pin
    table, the activity flags and the chip selects are as before. *)
Theorem set_pin_mode_spi_validates_first
    s spi_port chip_select speed_maximum data_order data_mode :
  spi_request_ok spi_port speed_maximum data_order data_mode = false ->
  exists e s',
    set_pin_mode_spi pc sc spi_port chip_select speed_maximum data_order
      data_mode s = (Raise e, s')
    /\ teardown_only (session s) (session s')
    /\ pico_pins (session s') = pico_pins (session s)
    /\ spi_fields s' = spi_fields s.
Proof.
  intros Hbad.
  assert (Hmain : exists e s',
    set_pin_mode_spi pc sc spi_port chip_select speed_maximum data_order
      data_mode s = (Raise e, s')
    /\ teardown_only (session s) (session s')
    /\ spi_fields s' = spi_fields s).
  { unfold set_pin_mode_spi.
    destruct ((spi_port =? 0) || (spi_port =? 1)) eqn:Eport;
      [|apply spi_guard_fails].
    unfold bind_spi at 1, ret_spi at 1.
    destruct ((0 <? speed_maximum) && (speed_maximum <? 50000000)) eqn:Espeed;
      [|apply spi_guard_fails].
    unfold bind_spi at 1, ret_spi at 1.
    destruct ((data_order =? 0) || (data_order =? 1)) eqn:Eorder;
      [|apply spi_guard_fails].
    unfold bind_spi at 1, ret_spi at 1.
    destruct ((data_mode =? 0) || (data_mode =? 1) || (data_mode =? 2)
              || (data_mode =? 3)) eqn:Emode;
      [|apply spi_guard_fails].
    exfalso. unfold spi_request_ok in Hbad.
    rewrite Eport, Espeed, Eorder, Emode in Hbad. discriminate. }
  destruct Hmain as (e & s' & Hrun & Hkeep & Hspi).
  exists e, s'. split; [exact Hrun|]. split; [exact Hkeep|].
  split; [exact (f_equal pico_pins Hkeep)|exact Hspi].
Qed.

(** X29: a valid [set_pin_mode_spi] marks the port active, marks its MOSI,
    MISO and clock pins and the chip select as SPI pins, and sends
    [9, SPI_INIT, port, chip select, b3, b2, b1, b0, order, mode], the
    speed as four bytes, high byte first.  The chip select is the one
    given, or the port's default (17, 13) when none or pin 0 is given. *)
Theorem set_pin_mode_spi_claims_pins
    s p spi_port chip_select speed_maximum data_order data_mode :
  serial_port (session s) = Some p -> port_open p = true ->
  spi_request_ok spi_port speed_maximum data_order data_mode = true ->
  is_byte (SPI_INIT sc) = true ->
  is_byte (spi_chip_select spi_port chip_select) = true ->
  exists s1 b3 b2 b1 b0,
    set_pin_mode_spi pc sc spi_port chip_select speed_maximum data_order
      data_mode s = (Ok tt, s1)
    /\ (if spi_port =? 0 then spi_0_active s1 else spi_1_active s1) = true
    /\ Forall (fun pin => pico_pins (session s1) !! pin = Some (AT_SPI sc))
         (spi_pins spi_port chip_select)
    /\ sent (session s1)
       = sent (session s)
         ++ [[9; SPI_INIT sc; spi_port; spi_chip_select spi_port chip_select;
              b3; b2; b1; b0; data_order; data_mode]]
    /\ 16777216 * b3 + 65536 * b2 + 256 * b1 + b0 = speed_maximum
    /\ forallb is_byte [b3; b2; b1; b0] = true.
Proof.
  intros Hp Ho Hok Hcmd Hcs. unfold spi_request_ok in Hok.
  apply andb_prop in Hok as [Hok Emode]. apply andb_prop in Hok as [Hok Eorder].
  apply andb_prop in Hok as [Eport Espeed].
  pose proof Espeed as Hspeed. apply andb_prop in Hspeed as [Hlo%Z.ltb_lt Hhi%Z.ltb_lt].
  destruct (four_bytes_big_endian speed_maximum) as [Hbytes Hsum]; [lia|].
  assert (Hfour : to_bytes_4_big speed_maximum
                  = ret [Z.shiftr speed_maximum 24;
                         Z.land (Z.shiftr speed_maximum 16) 255;
                         Z.land (Z.shiftr speed_maximum 8) 255;
                         Z.land speed_maximum 255]).
  { unfold to_bytes_4_big.
    replace ((0 <=? speed_maximum) && (speed_maximum <? 4294967296)) with true;
      [reflexivity|].
    symmetry. apply andb_true_iff. split; [apply Z.leb_le|apply Z.ltb_lt]; lia. }
  assert (Hpb : is_byte spi_port = true).
  { apply orb_prop in Eport as [E|E]; apply Z.eqb_eq in E; now subst. }
  assert (Hob : is_byte data_order = true).
  { apply orb_prop in Eorder as [E|E]; apply Z.eqb_eq in E; now subst. }
  assert (Hmb : is_byte data_mode = true).
  { repeat (apply orb_prop in Emode as [Emode|Emode]);
      apply Z.eqb_eq in Emode; now subst. }
  cbn [forallb] in Hbytes. rewrite andb_true_r in Hbytes.
  apply andb_prop in Hbytes as [H3 Hbytes]. apply andb_prop in Hbytes as [H2 Hbytes].
  apply andb_prop in Hbytes as [H1 H0].
  set (b3 := Z.shiftr speed_maximum 24) in *.
  set (b2 := Z.land (Z.shiftr speed_maximum 16) 255) in *.
  set (b1 := Z.land (Z.shiftr speed_maximum 8) 255) in *.
  set (b0 := Z.land speed_maximum 255) in *.
  assert (Hget : list_get [b3; b2; b1; b0] 0 = ret b3
                 /\ list_get [b3; b2; b1; b0] 1 = ret b2
                 /\ list_get [b3; b2; b1; b0] 2 = ret b1
                 /\ list_get [b3; b2; b1; b0] 3 = ret b0)
    by (repeat split; reflexivity).
  destruct Hget as (Hg0 & Hg1 & Hg2 & Hg3).
  unfold spi_pins, spi_chip_select in *.
  unfold set_pin_mode_spi. rewrite Eport, Espeed, Eorder, Emode, Hfour.
  destruct (spi_port =? 0) eqn:E0;
    destruct (chip_select_given chip_select) as [c|];
    unfold bind_spi, modify_spi, ret_spi, lift, set_pin, modify, ret;
    cbn [session set_session set_spi_0_active set_spi_1_active
         set_spi0_chip_select set_spi1_chip_select];
    rewrite Hg0; unfold ret;
    cbn [session set_session set_spi_0_active set_spi_1_active
         set_spi0_chip_select set_spi1_chip_select];
    rewrite Hg1; unfold ret;
    cbn [session set_session set_spi_0_active set_spi_1_active
         set_spi0_chip_select set_spi1_chip_select];
    rewrite Hg2; unfold ret;
    cbn [session set_session set_spi_0_active set_spi_1_active
         set_spi0_chip_select set_spi1_chip_select];
    rewrite Hg3; unfold ret;
    cbn [session set_session set_spi_0_active set_spi_1_active
         set_spi0_chip_select set_spi1_chip_select];
    (rewrite (send_command_open pc _ p);
     [ | exact Hp | exact Ho
       | cbn [forallb]; now rewrite Hcmd, Hpb, Hcs, H3, H2, H1, H0, Hob, Hmb
       | cbn; lia ]);
    (eexists _, b3, b2, b1, b0; split; [reflexivity|];
     split; [reflexivity|];
     split;
     [ cbn [app];
       repeat (constructor;
               [cbn; rewrite !lookup_insert; repeat case_decide;
                first [reflexivity | congruence]|]);
       constructor
     | split; [unfold sent; cbn; now rewrite Hp|];
       split; [exact Hsum|];
       cbn [forallb]; now rewrite H3, H2, H1, H0 ]).
Qed.

Lemma spi_report_port0 st cb count more :
  spi_callback st = Some cb ->
  _spi_report pc (0 :: count :: more) st
  = (Ok tt,
     set_delivered
       (delivered st ++ [(cb, SPI_REPORT pc :: 0 :: count :: more)]) st).
Proof.
  intros H. unfold _spi_report, report_list, bind, list_get.
  change (py_index (0 :: count :: more) 0) with (Some 0).
  change (py_index (0 :: count :: more) 1) with (Some count).
  cbn [ret drop app]. change (drop 0 more) with more.
  change (py_index (SPI_REPORT pc :: 0 :: count :: more) 1) with (Some 0).
  cbn [ret Z.eqb negb]. unfold get. rewrite H. reflexivity.
Qed.

(** X30: [spi_read_blocking] on port 0: when the port is active it sends
    [4, SPI_READ_BLOCKING, 0, register, count] and an SPI report for port
    0 then calls the callback given with the report, [SPI_REPORT] first;
    when the port is not active it raises without writing its command
    and without storing the callback. *)
Theorem spi_read_report_reaches_callback
    s p register number_of_bytes cb count more rest :
  serial_port (session s) = Some p -> port_open p = true ->
  forallb is_byte [SPI_READ_BLOCKING sc; register; number_of_bytes;
                   STOP_ALL_REPORTS pc; RESET_BOARD pc] = true ->
  shutdown_flag (session s) = false -> port_read_fault p = None ->
  port_rx p
  = Z.of_nat (S (length (0 :: count :: more)))
    :: SPI_REPORT pc :: (0 :: count :: more) ++ rest ->
  report_dispatch pc !! SPI_REPORT pc = Some H_spi_report ->
  exists r s1,
    spi_read_blocking pc sc register number_of_bytes 0 (Some cb) s = (r, s1)
    /\ (spi_0_active s = true ->
        r = Ok tt
        /\ sent (session s1)
           = sent (session s)
             ++ [[4; SPI_READ_BLOCKING sc; 0; register; number_of_bytes]]
        /\ exists st2,
             dispatcher_pass pc (session s1) = Passed (Ok Continue) st2
             /\ delivered st2
                = delivered (session s)
                  ++ [(cb, SPI_REPORT pc :: 0 :: count :: more)])
    /\ (spi_0_active s = false ->
        (exists msg, r = Raise (RuntimeError msg))
        /\ sent (session s1)
           = sent (session s) ++ frames_before_raise pc (config (session s))
        /\ spi_callback (session s1) = spi_callback (session s)
        /\ delivered (session s1) = delivered (session s)).
Proof.
  intros Hp Ho Hb Hflag Hfault Hrx Hh.
  cbn [forallb] in Hb. rewrite andb_true_r in Hb.
  apply andb_prop in Hb as [Hcmd Hb]. apply andb_prop in Hb as [Hreg Hb].
  apply andb_prop in Hb as [Hn Hb]. apply andb_prop in Hb as [Hstop Hreset].
  destruct (spi_0_active s) eqn:Hact.
  - eexists _, _. split.
    { unfold spi_read_blocking. cbn [Z.eqb].
      unfold bind_spi at 1, bind_spi at 1, get_spi at 1. rewrite Hact.
      unfold ret_spi at 1. unfold bind_spi at 1, ret_spi at 1.
      unfold bind_spi at 1, lift at 1, modify at 1. cbn [session set_session].
      unfold lift.
      rewrite (send_command_open pc _ p);
        [reflexivity | exact Hp | exact Ho
        | cbn [forallb]; now rewrite Hcmd, Hreg, Hn | cbn; lia]. }
    split; [|intros; discriminate]. intros _. split; [reflexivity|].
    split; [unfold sent; cbn; now rewrite Hp|].
    eexists. split.
    + cbn [session set_session].
      erewrite (dispatcher_pass_frame pc _ _ (SPI_REPORT pc)
                  (0 :: count :: more) rest);
        [|exact Hflag|reflexivity|exact Hfault|exact Hrx].
      cbn zeta. rewrite Hh. cbn [run_handler].
      rewrite (spi_report_port0 _ cb) by reflexivity. reflexivity.
    + reflexivity.
  - pose proof (fail_with_open pc
        "spi_read_blocking: set_pin_mode_spi never called for spi port 0."
        (session s) p Hp Ho Hstop Hreset) as Hfail.
    pose proof (sent_fail_with pc
        "spi_read_blocking: set_pin_mode_spi never called for spi port 0."
        (session s) p Hp Ho Hstop Hreset) as Hsent.
    rewrite Hfail in Hsent. cbn [snd] in Hsent.
    pose proof (teardown_only_fail_with pc
        "spi_read_blocking: set_pin_mode_spi never called for spi port 0."
        (session s)) as Hkeep.
    rewrite Hfail in Hkeep. cbn [snd] in Hkeep.
    eexists _, _. split.
    { unfold spi_read_blocking. cbn [Z.eqb].
      unfold bind_spi at 1, bind_spi at 1, get_spi at 1. rewrite Hact.
      unfold lift. rewrite Hfail. reflexivity. }
    split; [intros; discriminate|]. intros _.
    split; [eauto|]. split; [exact Hsent|].
    split; [exact (f_equal spi_callback Hkeep)|exact (f_equal delivered Hkeep)].
Qed.
End SpiProperties.

(** * The concrete session *)

(** ** What the code does where a claim of the specification fails *)

(** C1 on the fresh session, where no [set_pin_mode_i2c] has been
    called: [i2c_write] on port 1 raises and only the shutdown sequence
    goes out, while [i2c_read] on port 1 returns with its command
    written, the port still inactive and the session not shut down. *)
Lemma i2c_read_port1_on_fresh_session :
  let st0 := fresh default_config [] in
  i2c_1_active st0 = false
  /\ (let '(r, st) := i2c_write sample_constants 83 [0] 1 false st0 in
      (exists msg, r = Raise (RuntimeError msg))
      /\ sent st = [[1; 15]; [1; 18]])
  /\ (let '(r, st) :=
        i2c_read sample_constants 83 None 1 (Some 7%nat) 1 false st0 in
      r = Ok tt
      /\ sent st = [[6; 11; 1; 83; 254; 1; 0]]
      /\ i2c_1_active st = false
      /\ shutdown_flag st = false).
Proof.
  vm_compute. repeat split; try reflexivity. eexists. reflexivity.
Qed.


(** C6, counterexample: the second [shutdown] calls [write] on the port the
    first one closed. *)
Lemma C6_second_shutdown_calls_write :
  let st0 := fresh default_config [] in
  let '(r1, st1) := shutdown sample_constants st0 in
  let '(r2, st2) := shutdown sample_constants st1 in
  transport_open st1 = false
  /\ transport_calls st1 = [PWrite [1; 15]; PWrite [1; 18]; PClose]
  /\ transport_calls st2
     = [PWrite [1; 15]; PWrite [1; 18]; PClose; PWrite [1; 15]]
  /\ transport_calls st2 <> transport_calls st1.
Proof. vm_compute. repeat split; try reflexivity. discriminate. Qed.

(** C7, counterexample: report identifier 77 is not in the table; the
    dispatcher ends with [KeyError] and the transport is left open, no
    call made on it, the shutdown flag unset. *)
Lemma C7_unknown_report_leaves_transport_open :
  match _pico_report_dispatcher sample_constants 1
          (fresh default_config [2; 77; 0]) with
  | Crashed e st =>
      e = KeyError /\ transport_open st = true
      /\ shutdown_flag st = false /\ transport_calls st = []
  | _ => False
  end.
Proof. vm_compute. repeat split; reflexivity. Qed.

(** ** The theorems at the concrete session *)

Lemma C1_i2c_read_port1_is_not_guarded_witness :
  let st0 := fresh default_config [] in
  command_bytes sample_constants = true
  /\ serial_port st0 = Some (sample_port [])
  /\ port_open (sample_port []) = true
  /\ i2c_1_active st0 = false
  /\ (exists msg st',
        i2c_write sample_constants 83 [0] 1 false st0
        = (Raise (RuntimeError msg), st')
        /\ sent st' = sent st0 ++ frames_before_raise sample_constants (config st0))
  /\ (exists st',
        i2c_read sample_constants 83 None 1 (Some 7%nat) 1 false st0
        = (Ok tt, st')
        /\ sent st' = sent st0 ++ [[6; 11; 1; 83; 254; 1; 0]]
        /\ i2c_1_active st' = false)
  /\ (exists st2,
        digital_write sample_constants 2 1
          (snd (set_pin_mode_digital_output sample_constants 2 st0))
        = (Ok tt, st2)
        /\ sent st2
           = sent (snd (set_pin_mode_digital_output sample_constants 2 st0))
             ++ [[3; 2; 2; 1]]).
Proof.
  intros st0.
  assert (H1 : command_bytes sample_constants = true) by reflexivity.
  assert (H2 : serial_port st0 = Some (sample_port [])) by reflexivity.
  assert (H3 : port_open (sample_port []) = true) by reflexivity.
  destruct (C1_i2c_read_port1_is_not_guarded sample_constants st0 (sample_port [])
              H1 H2 H3) as (_ & Hwrite & _ & Hafter & _ & _ & Hread).
  split; [exact H1|]. split; [exact H2|]. split; [exact H3|].
  split; [reflexivity|]. split; [|split].
  - apply (Hwrite 83 [0] 1 false). reflexivity.
  - destruct (Hread 83 None 1 7%nat false eq_refl eq_refl eq_refl)
      as (st' & Hrun & Hsent & Hact & _).
    exists st'. split; [exact Hrun|]. split; [exact Hsent|].
    rewrite Hact. reflexivity.
  - apply (Hafter 2 1); [vm_compute; reflexivity | reflexivity].
Defined.

Lemma C2_sixteenth_pwm_reservation_fails_witness :
  let st0 := fresh default_config [] in
  command_bytes sample_constants = true
  /\ serial_port st0 = Some (sample_port [])
  /\ port_open (sample_port []) = true
  /\ pwm_active_count st0 = 0
  /\ length (py_range 0 15 1) = 15%nat
  /\ Forall (fun pin => is_Some (pico_pins st0 !! pin) /\ is_byte pin = true)
       (py_range 0 15 1 ++ [15])
  /\ exists st',
       run_all (set_pin_mode_pwm_output sample_constants <$> (py_range 0 15 1 ++ [15]))
         st0
       = (replicate 15 (Ok tt) ++ [Raise (RuntimeError ceiling_message)], st')
       /\ pwm_active_count st' = 15.
Proof.
  intros st0.
  assert (Hall : Forall (fun pin => is_Some (pico_pins st0 !! pin) /\ is_byte pin = true)
                   (py_range 0 15 1 ++ [15])).
  { apply Forall_forall. intros pin Hin. vm_compute in Hin.
    repeat (apply elem_of_cons in Hin as [->|Hin];
            [split; [exists AT_MODE_NOT_SET|]; reflexivity|]).
    now apply elem_of_nil in Hin. }
  repeat (split; [first [reflexivity | assumption]|]).
  exact (C2_sixteenth_pwm_reservation_fails sample_constants st0 (sample_port [])
           (py_range 0 15 1) 15 eq_refl eq_refl eq_refl eq_refl eq_refl Hall).
Defined.

Lemma C4_sonar_adds_unknown_pin_witness :
  let st0 := fresh default_config [] in
  serial_port st0 = Some (sample_port [])
  /\ port_open (sample_port []) = true
  /\ is_byte (SONAR_NEW sample_constants) = true
  /\ is_byte 23 = true /\ is_byte 24 = true
  /\ sonar_count st0 < MAX_SONARS sample_constants
  /\ pico_pins st0 !! 23 = None
  /\ exists st',
       set_pin_mode_sonar sample_constants 23 24 (Some 1%nat) st0 = (Ok tt, st')
       /\ pico_pins st' !! 23 = Some AT_SONAR
       /\ pico_pins st' <> pico_pins st0.
Proof.
  intros st0.
  assert (Hcount : sonar_count st0 < MAX_SONARS sample_constants) by reflexivity.
  destruct (C4_sonar_adds_unknown_pin sample_constants st0 (sample_port []) 23 24
              1%nat eq_refl eq_refl eq_refl eq_refl eq_refl Hcount eq_refl)
    as (st' & Hrun & _ & Hmode & Hne & _).
  repeat (split; [first [reflexivity | assumption]|]).
  exists st'. repeat split; assumption.
Defined.

Lemma C3_frame_roundtrip_witness :
  is_byte 2 = true /\ forallb is_byte [2; 1] = true
  /\ (length [2; 1] <= 254)%nat
  /\ frame [2; 2; 1] = Some [3; 2; 2; 1]
  /\ unframe [3; 2; 2; 1] = Some ([2; 2; 1], [])
  /\ forallb is_byte (replicate 255 0) = true
  /\ length (replicate 255 0) = 255%nat
  /\ frame (2 :: replicate 255 0) = None.
Proof.
  assert (Hl : (length [2; 1] <= 254)%nat) by (cbn; lia).
  assert (Hl' : length (replicate 255 0) = 255%nat) by reflexivity.
  assert (Hb' : forallb is_byte (replicate 255 0) = true) by reflexivity.
  destruct (C3_frame_roundtrip sample_constants 2 [2; 1] eq_refl eq_refl)
    as [Hshort _].
  destruct (Hshort Hl) as (Hf & Hu & _).
  destruct (C3_frame_roundtrip sample_constants 2 (replicate 255 0) eq_refl Hb')
    as [_ Hlong].
  destruct (Hlong Hl') as [Hnone _].
  repeat split; assumption.
Defined.


Lemma C6_second_shutdown_writes_again_witness :
  let st0 := fresh default_config [] in
  serial_port st0 = Some (sample_port [])
  /\ port_open (sample_port []) = true
  /\ is_byte (STOP_ALL_REPORTS sample_constants) = true
  /\ is_byte (RESET_BOARD sample_constants) = true
  /\ exists st1,
       shutdown sample_constants st0 = (Ok tt, st1)
       /\ transport_open st1 = false
       /\ (transport_calls st1 ++ [PWrite [1; 15]])
            `prefix_of` transport_calls (snd (shutdown sample_constants st1)).
Proof.
  intros st0.
  destruct (C6_second_shutdown_writes_again sample_constants st0 (sample_port [])
              eq_refl eq_refl eq_refl eq_refl)
    as (st1 & Hrun & _ & Hclosed & _ & _ & _ & _ & Hcalls).
  repeat (split; [reflexivity|]).
  exists st1. repeat split; assumption.
Defined.

Lemma C7_unknown_report_id_crashes_dispatcher_witness :
  let st0 := fresh default_config [2; 77; 0] in
  shutdown_flag st0 = false
  /\ serial_port st0 = Some (sample_port [2; 77; 0])
  /\ port_read_fault (sample_port [2; 77; 0]) = None
  /\ port_rx (sample_port [2; 77; 0])
     = Z.of_nat (S (length [0])) :: 77 :: [0] ++ []
  /\ report_dispatch sample_constants !! 77 = None
  /\ exists st',
       _pico_report_dispatcher sample_constants 1 st0 = Crashed KeyError st'
       /\ shutdown_flag st' = false
       /\ transport_open st' = true
       /\ transport_calls st' = [].
Proof.
  intros st0.
  assert (Hnone : report_dispatch sample_constants !! 77 = None) by reflexivity.
  destruct (C7_unknown_report_id_crashes_dispatcher sample_constants st0
              (sample_port [2; 77; 0]) 77 [0] [] 0%nat
              eq_refl eq_refl eq_refl eq_refl Hnone)
    as (st' & Hrun & Hflag & Hopen & Hcalls & _).
  repeat (split; [first [reflexivity | assumption]|]).
  exists st'. repeat split; assumption.
Defined.

Lemma C8_missing_digital_callback_crashes_dispatcher_witness :
  let st0 := fresh default_config [3; 2; 5; 1] in
  shutdown_flag st0 = false
  /\ serial_port st0 = Some (sample_port [3; 2; 5; 1])
  /\ port_read_fault (sample_port [3; 2; 5; 1]) = None
  /\ port_rx (sample_port [3; 2; 5; 1])
     = 3 :: DIGITAL_REPORT sample_constants :: 5 :: 1 :: []
  /\ report_dispatch sample_constants !! DIGITAL_REPORT sample_constants
     = Some H_digital_message
  /\ digital_callbacks st0 !! 5 = None
  /\ exists st',
       _pico_report_dispatcher sample_constants 1 st0 = Crashed KeyError st'
       /\ delivered st' = delivered st0.
Proof.
  intros st0.
  assert (Hh : report_dispatch sample_constants !! DIGITAL_REPORT sample_constants
               = Some H_digital_message) by reflexivity.
  assert (Hcb : digital_callbacks st0 !! 5 = None) by reflexivity.
  repeat (split; [first [reflexivity | assumption]|]).
  exact (C8_missing_digital_callback_crashes_dispatcher sample_constants st0
           (sample_port [3; 2; 5; 1]) 5 1 [] 0%nat
           eq_refl eq_refl eq_refl eq_refl Hh Hcb).
Defined.

Lemma C9_servo_write_raises_TypeError_witness :
  let st0 := fresh default_config [] in
  let st := snd (set_pin_mode_servo sample_constants 5 1000 2000 st0) in
  set_pin_mode_servo sample_constants 5 1000 2000 st0 = (Ok tt, st)
  /\ py_index [1000; 2000] (MIN_SERVO_DUTY_CYCLE sample_constants) = Some 1000
  /\ py_index [1000; 2000] (MAX_SERVO_DUTY_CYCLE sample_constants) = Some 2000
  /\ sample_servo_scale 90 (2000 - 1000) = Ok 500
  /\ servo_write sample_constants sample_servo_scale 5 90 st = (Raise TypeError, st).
Proof.
  intros st0 st.
  assert (Hset : set_pin_mode_servo sample_constants 5 1000 2000 st0 = (Ok tt, st))
    by (vm_compute; reflexivity).
  repeat (split; [first [reflexivity | assumption]|]).
  exact (C9_servo_write_raises_TypeError sample_constants sample_servo_scale
           st0 st 5 1000 2000 90 1000 2000 500 Hset eq_refl eq_refl eq_refl).
Defined.

Lemma C10_failed_pwm_reservation_marks_pin_witness :
  let st15 :=
    snd (run_all (set_pin_mode_pwm_output sample_constants <$> py_range 0 15 1)
           (fresh default_config [])) in
  is_Some (pico_pins st15 !! 15)
  /\ 15 <= pwm_active_count st15
  /\ pico_pins st15 !! 15 = Some AT_MODE_NOT_SET
  /\ exists e st',
       set_pin_mode_pwm_output sample_constants 15 st15 = (Raise e, st')
       /\ pico_pins st' !! 15 = Some AT_PWM_OUTPUT
       /\ pwm_active_count st' = pwm_active_count st15.
Proof.
  intros st15.
  assert (Hpin : pico_pins st15 !! 15 = Some AT_MODE_NOT_SET)
    by (vm_compute; reflexivity).
  assert (Hsome : is_Some (pico_pins st15 !! 15)) by (rewrite Hpin; eauto).
  assert (Hcount : 15 <= pwm_active_count st15)
    by (vm_compute; discriminate).
  destruct (C10_failed_pwm_reservation_marks_pin sample_constants st15 15
              Hsome Hcount) as (e & st' & Hrun & _ & Hmode & Hsame & _).
  repeat (split; [assumption|]).
  exists e, st'. repeat split; assumption.
Defined.

(** ** The further properties at the concrete session *)

Lemma init_pico_pins_witness :
  gpio_pin 25
  /\ pico_pins (init sample_constants default_config) !! 25 = Some AT_MODE_NOT_SET
  /\ ~ gpio_pin 23
  /\ pico_pins (init sample_constants default_config) !! 23 = None.
Proof.
  assert (H25 : gpio_pin 25) by (unfold gpio_pin; lia).
  assert (H23 : ~ gpio_pin 23) by (unfold gpio_pin; lia).
  destruct (init_pico_pins sample_constants default_config 25) as (Hin & _ & _).
  destruct (init_pico_pins sample_constants default_config 23) as (_ & Hout & _).
  split; [exact H25|]. split; [exact (Hin H25)|].
  split; [exact H23|exact (Hout H23)].
Defined.

Lemma init_i2c_pins_witness :
  (sda_pin 4 \/ scl_pin 4) /\ gpio_pin 4.
Proof.
  assert (H : sda_pin 4 \/ scl_pin 4) by (left; left; split; [lia|reflexivity]).
  destruct (init_i2c_pins sample_constants default_config 4) as (_ & _ & Hg).
  split; [exact H|exact (Hg H)].
Defined.

Lemma no_port_means_RuntimeError_witness :
  let st0 := init sample_constants default_config in
  serial_port st0 = None
  /\ shutdown sample_constants st0 = (Ok tt, set_shutdown_flag true st0)
  /\ _send_command sample_constants [1] st0
     = (Raise (RuntimeError "Is your USB cable plugged in?"),
        set_shutdown_flag true st0).
Proof.
  intros st0.
  destruct (no_port_means_RuntimeError sample_constants st0 [1] eq_refl)
    as [Hdown Hsend].
  split; [reflexivity|]. split; [exact Hdown|exact Hsend].
Defined.

Lemma shutdown_ends_the_dispatcher_witness :
  let st0 := fresh default_config [] in
  let st := snd (fail_with sample_constants "Invalid ADC Number" st0) in
  shutdown_on_exception (config st0) = true
  /\ _pico_report_dispatcher sample_constants 1 st = Returned st.
Proof.
  intros st0 st.
  destruct (shutdown_ends_the_dispatcher sample_constants st0 0%nat)
    as (_ & _ & Hfail).
  split; [reflexivity|]. exact (Hfail eq_refl "Invalid ADC Number"%string).
Defined.

Lemma pwm_write_big_endian_witness :
  let st := snd (set_pin_mode_pwm_output sample_constants 5
                   (fresh default_config [])) in
  pico_pins st !! 5 = Some AT_PWM_OUTPUT
  /\ 0 <= 1000 <= maximum_pwm_duty_cycle st
  /\ exists st' hi lo,
       pwm_write sample_constants 5 1000 st = (Ok tt, st')
       /\ sent st' = sent st ++ [[4; 3; 5; hi; lo]]
       /\ 256 * hi + lo = 1000.
Proof.
  intros st.
  assert (Hmode : pico_pins st !! 5 = Some AT_PWM_OUTPUT)
    by (vm_compute; reflexivity).
  assert (Hrange : 0 <= 1000 <= maximum_pwm_duty_cycle st)
    by (vm_compute; split; discriminate).
  assert (Hlt : 1000 < 65536) by lia.
  destruct (pwm_write_big_endian sample_constants st
              (port_accept [3; 1; 5; AT_PWM_OUTPUT] (sample_port []))
              5 1000 AT_PWM_OUTPUT eq_refl eq_refl eq_refl eq_refl Hmode
              (or_introl eq_refl) Hrange Hlt)
    as (st' & hi & lo & Hrun & Hsent & _ & _ & Hsum & _).
  split; [exact Hmode|]. split; [exact Hrange|].
  exists st', hi, lo. repeat split; assumption.
Defined.

Lemma pwm_write_guards_witness :
  let st0 := fresh default_config [] in
  pico_pins st0 !! 5 = Some AT_MODE_NOT_SET
  /\ exists msg st',
       pwm_write sample_constants 5 1000 st0 = (Raise (RuntimeError msg), st')
       /\ sent st' = [[1; 15]; [1; 18]].
Proof.
  intros st0.
  assert (Hbad : (AT_MODE_NOT_SET <> AT_PWM_OUTPUT /\ AT_MODE_NOT_SET <> AT_SERVO)
                 \/ 1000 < 0 \/ maximum_pwm_duty_cycle st0 < 1000)
    by (left; split; discriminate).
  destruct (pwm_write_guards sample_constants st0 (sample_port []) 5 1000
              AT_MODE_NOT_SET eq_refl eq_refl eq_refl eq_refl eq_refl Hbad)
    as (msg & st' & Hrun & Hsent & _).
  split; [reflexivity|]. exists msg, st'. split; [exact Hrun|exact Hsent].
Defined.

Lemma servo_pin_takes_raw_pwm_witness :
  let st0 := fresh default_config [] in
  is_Some (pico_pins st0 !! 5)
  /\ 0 <= 1500 <= maximum_pwm_duty_cycle st0
  /\ exists st1 st2,
       set_pin_mode_servo sample_constants 5 1000 2000 st0 = (Ok tt, st1)
       /\ pico_pins st1 !! 5 = Some AT_SERVO
       /\ pwm_active_count st1 = pwm_active_count st0
       /\ pwm_write sample_constants 5 1500 st1 = (Ok tt, st2).
Proof.
  intros st0.
  assert (Hpin : is_Some (pico_pins st0 !! 5))
    by (exists AT_MODE_NOT_SET; reflexivity).
  assert (Hrange : 0 <= 1500 <= maximum_pwm_duty_cycle st0)
    by (vm_compute; split; discriminate).
  assert (Hlt : 1500 < 65536) by lia.
  destruct (servo_pin_takes_raw_pwm sample_constants st0 (sample_port []) 5
              1000 2000 1500 eq_refl eq_refl Hpin eq_refl eq_refl eq_refl
              Hrange Hlt)
    as (st1 & st2 & Hrun & _ & Hmode & _ & Hcount & Hwrite & _).
  split; [exact Hpin|]. split; [exact Hrange|].
  exists st1, st2. repeat split; assumption.
Defined.

Lemma digital_report_reaches_callback_witness :
  let st0 := fresh default_config [3; 2; 5; 1; 9] in
  is_Some (pico_pins st0 !! 5)
  /\ In AT_INPUT_PULLUP input_modes
  /\ exists st1 st2,
       set_pin_mode_digital_input_pullup sample_constants 5 (Some 7%nat) st0
       = (Ok tt, st1)
       /\ dispatcher_pass sample_constants st1 = Passed (Ok Continue) st2
       /\ delivered st2 = delivered st0 ++ [(7%nat, [2; 5; 1])].
Proof.
  intros st0.
  assert (Hpin : is_Some (pico_pins st0 !! 5))
    by (exists AT_MODE_NOT_SET; reflexivity).
  assert (Hmode : In AT_INPUT_PULLUP input_modes) by (cbn; tauto).
  destruct (digital_report_reaches_callback sample_constants st0
              (sample_port [3; 2; 5; 1; 9]) 5 AT_INPUT_PULLUP 7%nat 1 [9]
              eq_refl eq_refl Hpin eq_refl eq_refl Hmode eq_refl eq_refl
              eq_refl eq_refl)
    as (st1 & st2 & Hrun & _ & Hpass & Hdel & _).
  split; [exact Hpin|]. split; [exact Hmode|].
  exists st1, st2. repeat split; assumption.
Defined.

Lemma digital_reports_in_arrival_order_witness :
  let stream := [3; 2; 5; 1; 3; 2; 6; 0; 3; 2; 5; 0; 9; 7] in
  let st :=
    snd (run_all [set_pin_mode_digital_input sample_constants 5 (Some 1%nat);
                  set_pin_mode_digital_input sample_constants 6 (Some 2%nat)]
           (fresh default_config stream)) in
  digital_callbacks st !! 5 = Some 1%nat
  /\ digital_callbacks st !! 6 = Some 2%nat
  /\ unframe [9; 7] = None
  /\ exists st' p',
       _pico_report_dispatcher sample_constants 4 st = Waiting 9 st'
       /\ delivered st'
          = [(1%nat, [2; 5; 1]); (2%nat, [2; 6; 0]); (1%nat, [2; 5; 0])]
       /\ serial_port st' = Some p'
       /\ port_rx p' = [7].
Proof.
  intros stream st.
  set (cbs := fun pin : Z => if pin =? 5 then 1%nat else 2%nat).
  assert (Hcbs : forall r, r ∈ [(5, 1); (6, 0); (5, 0)] ->
                   digital_callbacks st !! r.1 = Some (cbs r.1)).
  { intros r Hr.
    repeat (apply elem_of_cons in Hr as [->|Hr]; [vm_compute; reflexivity|]).
    now apply elem_of_nil in Hr. }
  assert (Hfuel : (length [(5, 1); (6, 0); (5, 0)] < 4)%nat) by (cbn; lia).
  destruct (digital_reports_in_arrival_order sample_constants cbs
              [(5, 1); (6, 0); (5, 0)] eq_refl st
              (port_accept [4; 1; 6; AT_INPUT; 1]
                 (port_accept [4; 1; 5; AT_INPUT; 1] (sample_port stream)))
              [9; 7] 4%nat eq_refl eq_refl eq_refl Hcbs eq_refl eq_refl Hfuel)
    as (wanted & st' & p' & Hrun & Hdel & Hport & -> & Hrx & _).
  split; [vm_compute; reflexivity|]. split; [vm_compute; reflexivity|].
  split; [reflexivity|].
  exists st', p'. repeat split; assumption.
Defined.

Lemma analog_report_reaches_callback_witness :
  let st0 := fresh default_config [4; 3; 2; 1; 44] in
  0 <= 2 < 5 /\ 0 <= 300 < 65536
  /\ exists st1 st2,
       set_pin_mode_analog_input sample_constants 2 300 (Some 7%nat) st0
       = (Ok tt, st1)
       /\ pico_pins st1 !! 28 = Some AT_ANALOG
       /\ dispatcher_pass sample_constants st1 = Passed (Ok Continue) st2
       /\ delivered st2 = delivered st0 ++ [(7%nat, [3; 2; 300])].
Proof.
  intros st0.
  assert (Hadc : 0 <= 2 < 5) by lia.
  assert (Hdiff : 0 <= 300 < 65536) by lia.
  destruct (analog_report_reaches_callback sample_constants st0
              (sample_port [4; 3; 2; 1; 44]) 2 300 7%nat 1 44 []
              eq_refl eq_refl eq_refl Hadc Hdiff eq_refl eq_refl eq_refl eq_refl)
    as (st1 & st2 & Hrun & Hmode & _ & _ & Hpass & Hdel).
  split; [exact Hadc|]. split; [exact Hdiff|].
  exists st1, st2. repeat split; assumption.
Defined.

Lemma analog_input_rejects_unknown_adc_witness :
  let st0 := fresh default_config [] in
  ~ 0 <= 5 < 5
  /\ exists st',
       set_pin_mode_analog_input sample_constants 5 0 (Some 7%nat) st0
       = (Raise (RuntimeError "Invalid ADC Number"), st')
       /\ teardown_only st0 st'.
Proof.
  intros st0.
  assert (Hadc : ~ 0 <= 5 < 5) by lia.
  destruct (analog_input_rejects_unknown_adc sample_constants st0 (sample_port [])
              5 0 (Some 7%nat) eq_refl eq_refl eq_refl eq_refl Hadc)
    as (st' & Hrun & _ & Hkeep).
  split; [exact Hadc|]. exists st'. split; [exact Hrun|exact Hkeep].
Defined.

Lemma analog_input_threshold_is_checked_late_witness :
  let st0 := fresh default_config [] in
  0 <= 2 < 5 /\ ~ 0 <= 65536 < 65536
  /\ exists st',
       set_pin_mode_analog_input sample_constants 2 65536 (Some 7%nat) st0
       = (Raise UnboundLocalError, st')
       /\ sent st' = sent st0
       /\ analog_callbacks st' = <[2 := 7%nat]> (analog_callbacks st0).
Proof.
  intros st0.
  assert (Hadc : 0 <= 2 < 5) by lia.
  assert (Hdiff : ~ 0 <= 65536 < 65536) by lia.
  destruct (analog_input_threshold_is_checked_late sample_constants st0
              (sample_port []) 2 65536 7%nat eq_refl Hadc Hdiff)
    as (st' & Hrun & Hsent & _ & _ & _ & Hcbs).
  split; [exact Hadc|]. split; [exact Hdiff|].
  exists st'. repeat split; assumption.
Defined.

Lemma sonar_report_reaches_callback_witness :
  let st0 := fresh default_config [4; 11; 16; 12; 34] in
  sonar_count st0 < MAX_SONARS sample_constants
  /\ exists st1 st2,
       set_pin_mode_sonar sample_constants 16 17 (Some 7%nat) st0 = (Ok tt, st1)
       /\ pico_pins st1 !! 16 = Some AT_SONAR
       /\ pico_pins st1 !! 17 = Some AT_SONAR
       /\ dispatcher_pass sample_constants st1 = Passed (Ok Continue) st2
       /\ delivered st2 = delivered st0 ++ [(7%nat, [11; 16; 12; 34])].
Proof.
  intros st0.
  assert (Hcount : sonar_count st0 < MAX_SONARS sample_constants) by reflexivity.
  destruct (sonar_report_reaches_callback sample_constants st0
              (sample_port [4; 11; 16; 12; 34]) 16 17 7%nat 12 34 []
              eq_refl eq_refl eq_refl eq_refl eq_refl Hcount eq_refl eq_refl
              eq_refl eq_refl)
    as (st1 & st2 & Hrun & _ & Htrigger & Hecho & _ & _ & Hpass & Hdel).
  split; [exact Hcount|]. exists st1, st2. repeat split; assumption.
Defined.

Lemma sonar_ceiling_is_exact_witness :
  let st0 := fresh default_config [] in
  exists e st',
    set_pin_mode_sonar sample_constants 16 17 None st0 = (Raise e, st')
    /\ sonar_count st' = sonar_count st0
    /\ pico_pins st' = pico_pins st0.
Proof.
  intros st0.
  destruct (sonar_ceiling_is_exact sample_constants st0 16 17 None
              (or_introl eq_refl))
    as (e & st' & Hrun & _ & Hcount & Hpins & _).
  exists e, st'. repeat split; assumption.
Defined.

Lemma dht_ceiling_is_exact_witness :
  let st0 := fresh default_config [] in
  exists e st',
    set_pin_mode_dht sample_constants 16 None st0 = (Raise e, st')
    /\ dht_count st' = dht_count st0
    /\ pico_pins st' = pico_pins st0.
Proof.
  intros st0.
  destruct (dht_ceiling_is_exact sample_constants st0 16 None (or_introl eq_refl))
    as (e & st' & Hrun & _ & Hcount & Hpins & _).
  exists e, st'. repeat split; assumption.
Defined.

Lemma dht_reports_after_registration_witness :
  let st0 := fresh default_config [] in
  dht_count st0 < MAX_DHTS sample_constants
  /\ exists st1,
       set_pin_mode_dht sample_constants 16 (Some 7%nat) st0 = (Ok tt, st1)
       /\ dht_count st1 = dht_count st0 + 1
       /\ sent st1 = sent st0 ++ [[2; DHT_NEW sample_constants; 16]].
Proof.
  intros st0.
  assert (Hcount : dht_count st0 < MAX_DHTS sample_constants) by reflexivity.
  destruct (dht_reports_after_registration sample_constants st0 (sample_port [])
              16 7%nat eq_refl eq_refl eq_refl eq_refl Hcount)
    as (st1 & Hrun & Hone & _ & Hsent & _).
  split; [exact Hcount|]. exists st1. repeat split; assumption.
Defined.

Lemma set_pin_mode_i2c_validates_first_witness :
  let st0 := fresh default_config [] in
  i2c_request_ok st0 0 5 4 = false
  /\ exists e st',
       set_pin_mode_i2c sample_constants 0 5 4 st0 = (Raise e, st')
       /\ i2c_sda_pins st' = i2c_sda_pins st0
       /\ i2c_0_active st' = i2c_0_active st0.
Proof.
  intros st0.
  assert (Hbad : i2c_request_ok st0 0 5 4 = false) by (vm_compute; reflexivity).
  destruct (set_pin_mode_i2c_validates_first sample_constants st0 0 5 4 Hbad)
    as (e & st' & Hrun & _ & _ & Hsda & _ & Hact & _).
  split; [exact Hbad|]. exists e, st'. repeat split; assumption.
Defined.

Lemma i2c_pins_are_exclusive_witness :
  let st0 := fresh default_config [] in
  i2c_request_ok st0 0 4 5 = true
  /\ exists st1,
       set_pin_mode_i2c sample_constants 0 4 5 st0 = (Ok tt, st1)
       /\ sent st1 = sent st0 ++ [[4; 10; 0; 4; 5]]
       /\ exists e st2,
            set_pin_mode_i2c sample_constants 1 4 7 st1 = (Raise e, st2)
            /\ teardown_only st1 st2.
Proof.
  intros st0.
  assert (Hok : i2c_request_ok st0 0 4 5 = true) by (vm_compute; reflexivity).
  destruct (i2c_pins_are_exclusive sample_constants st0 (sample_port []) 0 4 5
              eq_refl eq_refl eq_refl eq_refl eq_refl Hok)
    as (st1 & Hrun & _ & _ & _ & _ & Hsent & Hagain).
  split; [exact Hok|]. exists st1. split; [exact Hrun|]. split; [exact Hsent|].
  exact (Hagain 1 4 7 (or_introl eq_refl)).
Defined.

Lemma i2c_read_report_reaches_callback_witness :
  let rx := [5; 10; 0; 83; 1; 42] in
  let st := snd (set_pin_mode_i2c sample_constants 0 4 5 (fresh default_config rx)) in
  i2c_0_active st = true
  /\ exists st1 st2,
       i2c_read sample_constants 83 None 1 (Some 7%nat) 0 false st = (Ok tt, st1)
       /\ sent st1 = sent st ++ [[6; 11; 0; 83; 254; 1; 0]]
       /\ dispatcher_pass sample_constants st1 = Passed (Ok Continue) st2
       /\ delivered st2 = delivered st ++ [(7%nat, [10; 0; 83; 1; 42])].
Proof.
  intros rx st.
  destruct (i2c_read_report_reaches_callback sample_constants st
              (port_accept [4; 10; 0; 4; 5] (sample_port rx))
              83 None 1 7%nat false 83 [1; 42] []
              eq_refl eq_refl eq_refl eq_refl eq_refl eq_refl eq_refl eq_refl)
    as (st1 & st2 & Hrun & Hsent & Hpass & Hdel).
  split; [reflexivity|]. exists st1, st2. repeat split; assumption.
Defined.

Lemma i2c_port1_read_registers_no_callback_witness :
  let rx := [5; 10; 1; 83; 1; 42] in
  let st := snd (set_pin_mode_i2c sample_constants 1 26 27 (fresh default_config rx)) in
  i2c_1_active st = true /\ i2c_callback2 st = None /\ 1 <> 0
  /\ exists st1 st2,
       i2c_read sample_constants 83 None 1 (Some 7%nat) 1 false st = (Ok tt, st1)
       /\ i2c_callback2 st1 = None
       /\ dispatcher_pass sample_constants st1 = Passed (Raise TypeError) st2
       /\ delivered st2 = delivered st.
Proof.
  intros rx st.
  assert (Hport : 1 <> 0) by lia.
  destruct (i2c_port1_read_registers_no_callback sample_constants st
              (port_accept [4; 10; 1; 26; 27] (sample_port rx))
              83 None 1 7%nat false 1 83 [1; 42] []
              eq_refl eq_refl eq_refl eq_refl eq_refl eq_refl Hport eq_refl
              eq_refl)
    as (st1 & st2 & Hrun & _ & Hcb & _ & Hpass & Hdel).
  split; [reflexivity|]. split; [reflexivity|]. split; [exact Hport|].
  exists st1, st2. repeat split; assumption.
Defined.

Lemma i2c_byte_count_report_shuts_down_witness :
  let st0 := fresh default_config [2; 8; 0] in
  report_dispatch sample_constants !! 8 = Some H_i2c_too_few_bytes_received
  /\ exists st',
       _pico_report_dispatcher sample_constants 2 st0 = Returned st'
       /\ sent st' = [[1; 15]; [1; 18]]
       /\ transport_open st' = false.
Proof.
  intros st0.
  assert (Hh : report_dispatch sample_constants !! 8
               = Some H_i2c_too_few_bytes_received) by reflexivity.
  destruct (i2c_byte_count_report_shuts_down sample_constants st0
              (sample_port [2; 8; 0]) 8 0 [] 0%nat
              eq_refl eq_refl eq_refl eq_refl eq_refl eq_refl eq_refl
              (or_introl Hh))
    as (st' & Hrun & Hsent & Hopen & _).
  split; [exact Hh|]. exists st'. repeat split; assumption.
Defined.

Lemma servo_unavailable_report_crashes_dispatcher_witness :
  let st0 := fresh default_config [2; 7; 5] in
  report_dispatch sample_constants !! 7 = Some H_servo_unavailable
  /\ exists st',
       _pico_report_dispatcher sample_constants 1 st0
       = Crashed
           (RuntimeError
              "Servo Attach For Pin {report[0]} Failed: No Available Servos") st'
       /\ sent st' = [[1; 15]; [1; 18]]
       /\ delivered st' = delivered st0.
Proof.
  intros st0.
  assert (Hh : report_dispatch sample_constants !! 7 = Some H_servo_unavailable)
    by reflexivity.
  destruct (servo_unavailable_report_crashes_dispatcher sample_constants st0
              (sample_port [2; 7; 5]) 5 [] [] 0%nat
              eq_refl eq_refl eq_refl eq_refl eq_refl eq_refl eq_refl Hh)
    as (st' & Hrun & Hsent & _ & Hdel).
  split; [exact Hh|]. exists st'. repeat split; assumption.
Defined.

Lemma loop_back_round_trip_witness :
  let st0 := fresh default_config [2; 0; 65] in
  length [65; 66] <> 1%nat
  /\ exists st1 st2,
       loop_back sample_constants [65] (Some 7%nat) st0 = (Ok tt, st1)
       /\ sent st1 = sent st0 ++ [[2; 0; 65]]
       /\ dispatcher_pass sample_constants st1 = Passed (Ok Continue) st2
       /\ delivered st2 = delivered st0 ++ [(7%nat, [65])]
       /\ loop_back sample_constants [65; 66] (Some 7%nat) st0
          = (Raise TypeError, st0).
Proof.
  intros st0.
  assert (Hlen : length [65; 66] <> 1%nat) by (cbn; lia).
  destruct (loop_back_round_trip sample_constants st0 (sample_port [2; 0; 65])
              65 (Some 7%nat) [65] []
              eq_refl eq_refl eq_refl eq_refl eq_refl eq_refl eq_refl eq_refl)
    as (st1 & st2 & Hrun & Hsent & Hpass & Hdel & Hord).
  split; [exact Hlen|]. exists st1, st2.
  repeat (split; [assumption|]). exact (Hord [65; 66] Hlen).
Defined.

Lemma pwm_range_sets_the_ceiling_witness :
  let st := snd (set_pin_mode_pwm_output sample_constants 5
                   (fresh default_config [])) in
  16 <= 1000 <= 65535
  /\ pico_pins st !! 5 = Some AT_PWM_OUTPUT
  /\ exists st1,
       pwm_range sample_constants sample_more_constants 1000 st = (Ok tt, st1)
       /\ maximum_pwm_duty_cycle st1 = 1000
       /\ (exists st2, pwm_write sample_constants 5 1000 st1 = (Ok tt, st2))
       /\ (exists st2,
             pwm_write sample_constants 5 1001 st1
             = (Raise (RuntimeError "Raw PWM duty cycle out of range"), st2)).
Proof.
  intros st.
  assert (Hr : 16 <= 1000 <= 65535) by lia.
  assert (Hmode : pico_pins st !! 5 = Some AT_PWM_OUTPUT)
    by (vm_compute; reflexivity).
  destruct (pwm_range_sets_the_ceiling sample_constants sample_more_constants st
              (port_accept [3; 1; 5; AT_PWM_OUTPUT] (sample_port []))
              1000 5 AT_PWM_OUTPUT 1000 eq_refl eq_refl eq_refl eq_refl eq_refl
              Hr Hmode (or_introl eq_refl))
    as (st1 & Hrun & Hmax & _ & _ & Hin & _).
  destruct (pwm_range_sets_the_ceiling sample_constants sample_more_constants st
              (port_accept [3; 1; 5; AT_PWM_OUTPUT] (sample_port []))
              1000 5 AT_PWM_OUTPUT 1001 eq_refl eq_refl eq_refl eq_refl eq_refl
              Hr Hmode (or_introl eq_refl))
    as (st1' & Hrun' & _ & _ & _ & _ & Hout).
  assert (Hsame : st1' = st1) by congruence. subst st1'.
  split; [exact Hr|]. split; [exact Hmode|]. exists st1.
  split; [exact Hrun|]. split; [exact Hmax|].
  split; [apply Hin; lia | apply Hout; lia].
Defined.

Lemma pwm_range_rejects_witness :
  let st0 := fresh default_config [] in
  (15 < 16 \/ 65535 < 15)
  /\ exists e st',
       pwm_range sample_constants sample_more_constants 15 st0 = (Raise e, st')
       /\ maximum_pwm_duty_cycle st' = maximum_pwm_duty_cycle st0.
Proof.
  intros st0.
  assert (Hr : 15 < 16 \/ 65535 < 15) by lia.
  destruct (pwm_range_rejects sample_constants sample_more_constants st0 15 Hr)
    as (e & st' & Hrun & Hmax & _).
  split; [exact Hr|]. exists e, st'. split; [exact Hrun|exact Hmax].
Defined.

Lemma neopixel_methods_need_the_strip_witness :
  let st0 := fresh default_config [] in
  neopixels_initiated st0 = false
  /\ exists st',
       neopixel_fill sample_constants sample_more_constants 1 2 3 true st0
       = (Raise (RuntimeError neopixel_message), st')
       /\ sent st' = [[1; 15]; [1; 18]].
Proof.
  intros st0.
  destruct (neopixel_methods_need_the_strip sample_constants sample_more_constants
              st0 (sample_port []) eq_refl eq_refl eq_refl eq_refl eq_refl
              (neopixel_fill sample_constants sample_more_constants 1 2 3 true))
    as (st' & Hrun & Hsent & _).
  { right. right. left. exists 1, 2, 3, true. reflexivity. }
  split; [reflexivity|]. exists st'. split; [exact Hrun|exact Hsent].
Defined.

Lemma neopixel_set_value_after_init_witness :
  let st0 := fresh default_config [] in
  0 <= 7 < 8 /\ ~ 0 <= 8 < 8
  /\ (exists st1 st2,
        set_pin_mode_neopixel sample_constants 28 8 0 0 0 st0 = (Ok tt, st1)
        /\ neo_pixel_set_value sample_constants sample_more_constants
             7 1 2 3 true st1 = (Ok tt, st2)
        /\ sent st2 = sent st1 ++ [[6; 21; 7; 1; 2; 3; 1]; [1; 20]])
  /\ (exists st1 st2,
        set_pin_mode_neopixel sample_constants 28 8 0 0 0 st0 = (Ok tt, st1)
        /\ neo_pixel_set_value sample_constants sample_more_constants
             8 1 2 3 true st1
           = (Raise (RuntimeError "Pixel number is out of legal range"), st2)).
Proof.
  intros st0.
  assert (Hin : 0 <= 7 < 8) by lia.
  assert (Hout : ~ 0 <= 8 < 8) by lia.
  destruct (neopixel_set_value_after_init sample_constants sample_more_constants
              st0 (sample_port []) 28 8 0 0 0 7 1 2 3 true
              eq_refl eq_refl eq_refl eq_refl eq_refl eq_refl)
    as (st1 & r2 & st2 & Hinit & _ & Hrun & Hgood & _).
  destruct (Hgood Hin) as [-> Hsent].
  destruct (neopixel_set_value_after_init sample_constants sample_more_constants
              st0 (sample_port []) 28 8 0 0 0 8 1 2 3 true
              eq_refl eq_refl eq_refl eq_refl eq_refl eq_refl)
    as (st1' & r2' & st2' & Hinit' & _ & Hrun' & _ & Hbad).
  destruct (Hbad Hout) as [-> _].
  split; [exact Hin|]. split; [exact Hout|]. split.
  - exists st1, st2. repeat split; assumption.
  - exists st1', st2'. split; assumption.
Defined.

Lemma set_pin_mode_spi_validates_first_witness :
  let s0 := init_spi (fresh default_config []) in
  spi_request_ok 2 500000 1 0 = false
  /\ exists e s',
       set_pin_mode_spi sample_constants sample_spi_constants 2 None 500000 1 0 s0
       = (Raise e, s')
       /\ pico_pins (session s') = pico_pins (session s0)
       /\ spi_fields s' = spi_fields s0.
Proof.
  intros s0.
  destruct (set_pin_mode_spi_validates_first sample_constants sample_spi_constants
              s0 2 None 500000 1 0 eq_refl)
    as (e & s' & Hrun & _ & Hpins & Hspi).
  split; [reflexivity|]. exists e, s'. repeat split; assumption.
Defined.

Lemma set_pin_mode_spi_claims_pins_witness :
  let s0 := init_spi (fresh default_config []) in
  spi_request_ok 0 500000 1 0 = true
  /\ spi_chip_select 0 (Some 0) = 17
  /\ exists s1,
       set_pin_mode_spi sample_constants sample_spi_constants 0 (Some 0)
         500000 1 0 s0 = (Ok tt, s1)
       /\ spi_0_active s1 = true
       /\ Forall (fun pin => pico_pins (session s1) !! pin = Some 11)
            [19; 16; 18; 17]
       /\ sent (session s1) = [[9; 24; 0; 17; 0; 7; 161; 32; 1; 0]].
Proof.
  intros s0.
  destruct (set_pin_mode_spi_claims_pins sample_constants sample_spi_constants
              s0 (sample_port []) 0 (Some 0) 500000 1 0
              eq_refl eq_refl eq_refl eq_refl eq_refl)
    as (s1 & b3 & b2 & b1 & b0 & Hrun & Hact & Hpins & Hsent & Hsum & _).
  split; [reflexivity|]. split; [reflexivity|].
  exists s1. split; [exact Hrun|]. split; [exact Hact|]. split; [exact Hpins|].
  rewrite Hsent.
  assert (Hs1 : s1 = snd (set_pin_mode_spi sample_constants sample_spi_constants
                            0 (Some 0) 500000 1 0 s0)) by now rewrite Hrun.
  rewrite Hs1 in Hsent. vm_compute in Hsent.
  injection Hsent as <- <- <- <-. reflexivity.
Defined.

Lemma spi_read_report_reaches_callback_witness :
  let rx := [5; 13; 0; 2; 170; 187] in
  let s := snd (set_pin_mode_spi sample_constants sample_spi_constants 0 None
                  500000 1 0 (init_spi (fresh default_config rx))) in
  spi_0_active s = true
  /\ exists s1 st2,
       spi_read_blocking sample_constants sample_spi_constants 5 2 0
         (Some 7%nat) s = (Ok tt, s1)
       /\ sent (session s1) = sent (session s) ++ [[4; 26; 0; 5; 2]]
       /\ dispatcher_pass sample_constants (session s1) = Passed (Ok Continue) st2
       /\ delivered st2 = delivered (session s) ++ [(7%nat, [13; 0; 2; 170; 187])].
Proof.
  intros rx s.
  destruct (spi_read_report_reaches_callback sample_constants sample_spi_constants
              s (port_accept [9; 24; 0; 17; 0; 7; 161; 32; 1; 0] (sample_port rx))
              5 2 7%nat 2 [170; 187] []
              eq_refl eq_refl eq_refl eq_refl eq_refl eq_refl eq_refl)
    as (r & s1 & Hrun & Hactive & _).
  destruct (Hactive eq_refl) as (-> & Hsent & st2 & Hpass & Hdel).
  split; [reflexivity|]. exists s1, st2. repeat split; assumption.
Defined.
